(** * go-task-scheduler: the recurrence-rule engine

    A shallow embedding of [pkg/api/nextdate.go] ([NextDate], [afterNow]) and
    of the rule validator and date normaliser of [pkg/api/addtask.go]
    ([checkRepeat], [checkDate]), together with the parts of the Go standard
    library they call ([time], [strings], [strconv]).

    Conventions of the embedding:
    - Go's [int] and the seconds of a [time.Time] are unbounded [Z]: the
      code adds days and years to dates, and the bounds of 64-bit seconds
      lie some 292 billion years away.
    - A Go [string] is a [string] of bytes.
    - A [*time.Location] is a fixed offset in seconds east of UTC
      ([time.UTC], [time.FixedZone]); zones with transitions are not
      modelled.
    - [for { ... }] loops take a [fuel] argument and report [Timeout] when
      it runs out, so that a loop that never leaves is visible as such. *)

From Stdlib Require Import ZArith Lia List Bool String Ascii.
Import ListNotations.
Local Open Scope string_scope.
Local Open Scope list_scope.
Local Open Scope Z_scope.

(* ================================================================== *)
(** * Package [time] *)
(* ================================================================== *)

(** An instant ([unix] seconds since 1970-01-01T00:00:00Z and [nsec]
    nanoseconds within the second) seen from a location [offset] seconds
    east of UTC. *)
Record Time : Type := mkTime { unix : Z; nsec : Z; offset : Z }.

Definition secondsPerDay : Z := 86400.

(** Days from 0001-01-01 to 1970-01-01. *)
Definition unixEpochDays : Z := 719162.

Definition isLeap (year : Z) : bool :=
  (year mod 4 =? 0) && (negb (year mod 100 =? 0) || (year mod 400 =? 0)).

(** [daysBefore[m]] is the number of days in a non-leap year before month
    [m+1] begins; there is a final entry for the whole year. *)
Definition daysBefore : list Z :=
  [0; 31; 59; 90; 120; 151; 181; 212; 243; 273; 304; 334; 365].

Definition daysBeforeAt (i : Z) : Z := nth (Z.to_nat i) daysBefore 0.

Definition daysIn (m year : Z) : Z :=
  if (m =? 2) && isLeap year then 29
  else daysBeforeAt m - daysBeforeAt (m - 1).

(** [norm hi lo base] carries [lo] into [hi] so that [0 <= lo < base]. *)
Definition norm (hi lo base : Z) : Z * Z := (hi + lo / base, lo mod base).

(** Days from 0001-01-01 to January 1 of [year], by 400-, 100- and 4-year
    cycles.  (Go counts from the year -292277022399, which lies a multiple
    of 400 years before year 1, so the cycles are the same.) *)
Definition daysSinceEpoch (year : Z) : Z :=
  let y := year - 1 in
  let n400 := y / 400 in
  let y := y - 400 * n400 in
  let n100 := y / 100 in
  let y := y - 100 * n100 in
  let n4 := y / 4 in
  let y := y - 4 * n4 in
  146097 * n400 + 36524 * n100 + 1461 * n4 + 365 * y.

(** Days from 0001-01-01 of the civil date [year]-[month]-[day], for a
    month already in 1..12; [day] may be any integer. *)
Definition civilDays (year month day : Z) : Z :=
  daysSinceEpoch year + daysBeforeAt (month - 1)
  + (if isLeap year && (3 <=? month) then 1 else 0)
  + (day - 1).

(** [time.Date(year, month, day, hour, min, sec, nsec, loc)]: every field
    may be out of range and is normalised.  Here [loc] is a location of one
    fixed offset, in seconds east of UTC ([time.UTC] is 0); [time_Date_loc]
    below takes any location. *)
Definition time_Date (year month day hour min sec nsec : Z) (loc : Z) : Time :=
  let '(year, m) := norm year (month - 1) 12 in
  let month := m + 1 in
  let '(sec, nsec) := norm sec nsec 1000000000 in
  let '(min, sec) := norm min sec 60 in
  let '(hour, min) := norm hour min 60 in
  let '(day, hour) := norm day hour 24 in
  let d := civilDays year month day in
  let abs := d * secondsPerDay + hour * 3600 + min * 60 + sec in
  {| unix := abs - unixEpochDays * secondsPerDay - loc;
     nsec := nsec;
     offset := loc |}.

(** A location.  [lookup loc u] is [Location.lookup]: the offset in force
    at the instant [u] (seconds since 1970-01-01T00:00:00Z) and the bounds
    [start <= u < end] of the period in which it is in force. *)
Record Location : Type := mkLocation { lookup : Z -> Z * Z * Z }.

Definition offsetAt (loc : Location) (u : Z) : Z := fst (fst (lookup loc u)).

(** [time.Date(year, month, day, hour, min, sec, nsec, loc)] in any
    location.  The fields give a wall clock; it is read as UTC, the offset
    in force there is looked up and subtracted, and looked up again at the
    instant so found when that instant lies outside the period of the
    first. *)
Definition time_Date_loc (year month day hour min sec nsec : Z)
  (loc : Location) : Time :=
  let '(mkTime u nsec _) := time_Date year month day hour min sec nsec 0 in
  let '(offset, start, end_) := lookup loc u in
  let u :=
    if negb (offset =? 0) then
      let utc := u - offset in
      let offset :=
        if (utc <? start) || (end_ <=? utc) then offsetAt loc utc else offset in
      u - offset
    else u in
  mkTime u nsec (offsetAt loc u).

(** Seconds since 0001-01-01T00:00:00 on the clock of the time's location. *)
Definition Time_abs (t : Time) : Z :=
  unix t + offset t + unixEpochDays * secondsPerDay.

(** Year and zero-based day of the year of a day count from 0001-01-01. *)
Definition absYear (d : Z) : Z * Z :=
  let n := d / 146097 in
  let y := 400 * n in
  let d := d - 146097 * n in
  let n := d / 36524 in
  let n := n - n / 4 in
  let y := y + 100 * n in
  let d := d - 36524 * n in
  let n := d / 1461 in
  let y := y + 4 * n in
  let d := d - 1461 * n in
  let n := d / 365 in
  let n := n - n / 4 in
  let y := y + n in
  let d := d - 365 * n in
  (y + 1, d).

(** Month and day of the month of the zero-based day [yday] of [year]. *)
Definition absMonthDay (year yday : Z) : Z * Z :=
  if isLeap year && (yday =? 31 + 29 - 1) then (2, 29)
  else
    let day := if isLeap year && (31 + 29 - 1 <? yday) then yday - 1 else yday in
    let month := day / 31 in
    let e := daysBeforeAt (month + 1) in
    if e <=? day then (month + 2, day - e + 1)
    else (month + 1, day - daysBeforeAt month + 1).

Definition absDate (d : Z) : Z * Z * Z :=
  let '(year, yday) := absYear d in
  let '(month, day) := absMonthDay year yday in
  (year, month, day).

(** [t.Date()]: year, month and day in the time's location. *)
Definition Time_Date (t : Time) : Z * Z * Z :=
  absDate (Time_abs t / secondsPerDay).

Definition Time_Year (t : Time) : Z := fst (fst (Time_Date t)).
Definition Time_Month (t : Time) : Z := snd (fst (Time_Date t)).
Definition Time_Day (t : Time) : Z := snd (Time_Date t).

(** [t.Clock()]: hour, minute and second within the day. *)
Definition Time_Clock (t : Time) : Z * Z * Z :=
  let s := Time_abs t mod secondsPerDay in
  (s / 3600, (s mod 3600) / 60, s mod 60).

(** [t.Weekday()], Sunday = 0; 0001-01-01 is a Monday. *)
Definition Time_Weekday (t : Time) : Z :=
  ((Time_abs t + 1 * secondsPerDay) mod (7 * secondsPerDay)) / secondsPerDay.

Definition Time_AddDate (t : Time) (years months days : Z) : Time :=
  let '(year, month, day) := Time_Date t in
  let '(hour, min, sec) := Time_Clock t in
  time_Date (year + years) (month + months) (day + days)
            hour min sec (nsec t) (offset t).

(** [t.After(u)] and [t.Before(u)] compare instants. *)
Definition Time_After (t u : Time) : bool :=
  (unix u <? unix t) || ((unix t =? unix u) && (nsec u <? nsec t)).

Definition Time_Before (t u : Time) : bool :=
  (unix t <? unix u) || ((unix t =? unix u) && (nsec t <? nsec u)).

(** ** Formatting and parsing with the layout [20060102] *)

Definition byteOf (c : ascii) : Z := Z.of_nat (nat_of_ascii c).

Definition isDigit (c : ascii) : bool := (48 <=? byteOf c) && (byteOf c <=? 57).

Definition digitVal (c : ascii) : Z := byteOf c - 48.

Definition digitChar (n : Z) : ascii := ascii_of_nat (Z.to_nat (48 + n)).

(** Decimal digits of [u > 0], most significant first, in front of [acc]. *)
Fixpoint digitsOf (fuel : nat) (u : Z) (acc : string) : string :=
  match fuel with
  | O => acc
  | S fuel' =>
      let acc' := String (digitChar (u mod 10)) acc in
      if u / 10 =? 0 then acc' else digitsOf fuel' (u / 10) acc'
  end.

Fixpoint zeros (n : nat) : string :=
  match n with
  | O => EmptyString
  | S n' => String "0" (zeros n')
  end.

(** [appendInt(b, x, width)] of package [time], as the text appended. *)
Definition appendInt (x width : Z) : string :=
  let u := Z.abs x in
  let sign := if x <? 0 then "-" else "" in
  let body :=
    if (width =? 2) && (u <? 100) then
      String (digitChar (u / 10)) (String (digitChar (u mod 10)) EmptyString)
    else if (width =? 4) && (u <? 10000) then
      String (digitChar (u / 100 / 10))
        (String (digitChar ((u / 100) mod 10))
           (String (digitChar ((u mod 100) / 10))
              (String (digitChar ((u mod 100) mod 10)) EmptyString)))
    else
      let ds := if u =? 0 then "0" else digitsOf (S (Z.to_nat (Z.log2 u))) u "" in
      append (zeros (Z.to_nat width - String.length ds)) ds
  in
  append sign body.

(** [t.Format(DateFormat)]. *)
Definition Time_Format (t : Time) : string :=
  let '(year, month, day) := Time_Date t in
  append (appendInt year 4) (append (appendInt month 2) (appendInt day 2)).

(** [time.Parse(DateFormat, value)]: four digits of year, two of month, two
    of day and nothing else; the month is 1..12 and the day exists in that
    month.  The result is midnight UTC; [None] stands for a non-nil error. *)
Definition time_Parse (value : string) : option Time :=
  match value with
  | String y1 (String y2 (String y3 (String y4
      (String m1 (String m2 (String d1 (String d2 EmptyString))))))) =>
      if forallb isDigit [y1; y2; y3; y4; m1; m2; d1; d2] then
        let year := ((digitVal y1 * 10 + digitVal y2) * 10 + digitVal y3) * 10
                    + digitVal y4 in
        let month := digitVal m1 * 10 + digitVal m2 in
        let day := digitVal d1 * 10 + digitVal d2 in
        if (month <=? 0) || (12 <? month) then None
        else if (day <? 1) || (daysIn month year <? day) then None
        else Some (time_Date year month day 0 0 0 0 0)
      else None
  | _ => None
  end.

(* ================================================================== *)
(** * Packages [strings] and [strconv] *)
(* ================================================================== *)

(** [strings.Split(s, sep)] for a one-byte separator. *)
Fixpoint strings_Split (s : string) (sep : ascii) : list string :=
  match s with
  | EmptyString => [EmptyString]
  | String c rest =>
      if Ascii.eqb c sep then EmptyString :: strings_Split rest sep
      else
        match strings_Split rest sep with
        | h :: t => String c h :: t
        | [] => [String c EmptyString]
        end
  end.

(** Width in bytes of a white-space rune ([unicode.IsSpace]) at the head
    of [s], or 0.  Besides the six ASCII spaces these are U+0085, U+00A0,
    U+1680, U+2000..U+200A, U+2028, U+2029, U+202F, U+205F and U+3000 in
    their UTF-8 encodings; their lead bytes are never continuation bytes,
    so the decoder always meets them at a rune boundary. *)
Definition spaceWidth (s : string) : nat :=
  match s with
  | EmptyString => O
  | String c rest =>
      let b := byteOf c in
      if (b =? 9) || (b =? 10) || (b =? 11) || (b =? 12) || (b =? 13) || (b =? 32)
      then 1%nat
      else
        match rest with
        | String c2 rest2 =>
            let b2 := byteOf c2 in
            if (b =? 194) && ((b2 =? 133) || (b2 =? 160)) then 2%nat
            else
              match rest2 with
              | String c3 _ =>
                  let b3 := byteOf c3 in
                  if (b =? 225) && (b2 =? 154) && (b3 =? 128) then 3%nat
                  else if (b =? 226) && (b2 =? 128)
                          && (((128 <=? b3) && (b3 <=? 138))
                              || (b3 =? 168) || (b3 =? 169) || (b3 =? 175))
                  then 3%nat
                  else if (b =? 226) && (b2 =? 129) && (b3 =? 159) then 3%nat
                  else if (b =? 227) && (b2 =? 128) && (b3 =? 128) then 3%nat
                  else O
              | EmptyString => O
              end
        | EmptyString => O
        end
  end.

(** The scan of [strings.Fields]: [skip] bytes of a white-space rune are
    still to be passed, [cur] is the field being read when [inField]. *)
Fixpoint fieldsLoop (s : string) (skip : nat) (cur : string) (inField : bool)
  : list string :=
  match s with
  | EmptyString => if inField then [cur] else []
  | String c rest =>
      match skip with
      | S k => fieldsLoop rest k cur inField
      | O =>
          match spaceWidth s with
          | O => fieldsLoop rest O (append cur (String c EmptyString)) true
          | S k =>
              (if inField then [cur] else [])
                ++ fieldsLoop rest k EmptyString false
          end
      end
  end.

(** [strings.Fields(s)]: the maximal runs of non-space runes. *)
Definition strings_Fields (s : string) : list string :=
  fieldsLoop s O EmptyString false.

(** Value of a string of decimal digits, [None] at the first other byte. *)
Fixpoint digitsValue (s : string) (acc : Z) : option Z :=
  match s with
  | EmptyString => Some acc
  | String c rest =>
      if isDigit c then digitsValue rest (acc * 10 + digitVal c) else None
  end.

(** [strconv.Atoi(s)] for a 64-bit [int]: an optional sign, at least one
    digit, only digits, and a value that fits; [None] is a non-nil error. *)
Definition strconv_Atoi (s : string) : option Z :=
  let '(neg, body) :=
    match s with
    | String "-" rest => (true, rest)
    | String "+" rest => (false, rest)
    | _ => (false, s)
    end in
  match body with
  | EmptyString => None
  | _ =>
      match digitsValue body 0 with
      | None => None
      | Some u =>
          let v := if neg then - u else u in
          if (- 2 ^ 63 <=? v) && (v <=? 2 ^ 63 - 1) then Some v else None
      end
  end.

(* ================================================================== *)
(** * Package [api]: [nextdate.go] *)
(* ================================================================== *)

(** [DateFormat], the layout of every date of the API and the database:
    YYYYMMDD.  [time_Parse] and [Time_Format] above are [time.Parse] and
    [Time.Format] at this layout. *)
Definition DateFormat : string := "20060102".

(** The errors [NextDate] builds with [fmt.Errorf], one constructor for
    each message, in the order of the source. *)
Inductive NextDateError : Type :=
| ErrEmptyRepeat          (* the repeat rule must not be empty *)
| ErrStartDate            (* incorrect start date *)
| ErrDMissing             (* no parameter for rule d *)
| ErrDParam               (* wrong parameter for d *)
| ErrDRange               (* the number of days for d must be 1..400 *)
| ErrWMissing             (* no list of weekdays *)
| ErrWDay                 (* incorrect weekday *)
| ErrMMissing             (* no list of days of the month *)
| ErrMDay                 (* incorrect day of the month *)
| ErrMDayRange            (* day of the month out of range *)
| ErrMMonth               (* month out of range *)
| ErrUnsupported.         (* unsupported repeat rule format *)

(** The error taxonomy of the specification. *)
Inductive ErrorKind : Type :=
| EmptyRule
| InvalidStartDate
| MissingRuleParameter
| InvalidRuleParameter
| UnsupportedRuleKind.

Definition errorKind (e : NextDateError) : ErrorKind :=
  match e with
  | ErrEmptyRepeat => EmptyRule
  | ErrStartDate => InvalidStartDate
  | ErrDMissing | ErrWMissing | ErrMMissing => MissingRuleParameter
  | ErrDParam | ErrDRange | ErrWDay | ErrMDay | ErrMDayRange | ErrMMonth =>
      InvalidRuleParameter
  | ErrUnsupported => UnsupportedRuleKind
  end.

(** What a call comes to: a value, an error, or a loop still running when
    the fuel is spent. *)
Inductive Outcome (E A : Type) : Type :=
| Done (a : A)
| Fail (e : E)
| Timeout.
Arguments Done {E A} a.
Arguments Fail {E A} e.
Arguments Timeout {E A}.

(** A fixed-size [bool] array is a list; [flagAt] reads it, [setFlag]
    writes [true].  Every index the code uses has been range-checked. *)
Definition flagAt (flags : list bool) (i : Z) : bool :=
  nth (Z.to_nat i) flags false.

Fixpoint setNth (n : nat) (flags : list bool) : list bool :=
  match flags, n with
  | [], _ => []
  | _ :: t, O => true :: t
  | h :: t, S n' => h :: setNth n' t
  end.

Definition setFlag (flags : list bool) (i : Z) : list bool :=
  setNth (Z.to_nat i) flags.

(** [afterNow]: true if [date >= now] by calendar day. *)
Definition afterNow (date now : Time) : bool :=
  let '(y1, m1, d1) := Time_Date date in
  let '(y2, m2, d2) := Time_Date now in
  let dateZero := time_Date y1 m1 d1 0 0 0 0 0 in
  let nowZero := time_Date y2 m2 d2 0 0 0 0 0 in
  negb (Time_Before dateZero nowZero).

(** The loop of rule [d]. *)
Fixpoint dLoop (fuel : nat) (now : Time) (days : Z) (date : Time) : option Time :=
  match fuel with
  | O => None
  | S fuel' =>
      let date := Time_AddDate date 0 0 days in
      if afterNow date now then Some date else dLoop fuel' now days date
  end.

(** The loop of rule [y]. *)
Fixpoint yLoop (fuel : nat) (now : Time) (date : Time) : option Time :=
  match fuel with
  | O => None
  | S fuel' =>
      let date := Time_AddDate date 1 0 0 in
      if afterNow date now then Some date else yLoop fuel' now date
  end.

(** Weekday of [date] with Sunday as 7. *)
Definition isoWeekday (date : Time) : Z :=
  let weekday := Time_Weekday date in
  if weekday =? 0 then 7 else weekday.

(** [for _, w := range weekStrs] of rule [w]. *)
Fixpoint wParse (weekStrs : list string) (weekdays : list bool)
  : NextDateError + list bool :=
  match weekStrs with
  | [] => inr weekdays
  | w :: rest =>
      match strconv_Atoi w with
      | None => inl ErrWDay
      | Some dayNum =>
          if (dayNum <? 1) || (7 <? dayNum) then inl ErrWDay
          else wParse rest (setFlag weekdays dayNum)
      end
  end.

(** The loop of rule [w]. *)
Fixpoint wLoop (fuel : nat) (now : Time) (weekdays : list bool) (date : Time)
  : option Time :=
  match fuel with
  | O => None
  | S fuel' =>
      let date := Time_AddDate date 0 0 1 in
      if flagAt weekdays (isoWeekday date) && Time_After date now then Some date
      else wLoop fuel' now weekdays date
  end.

(** The day flags of rule [m]: [dayFlags], [hasMinus1], [hasMinus2]. *)
Record DaySpec : Type :=
  mkDaySpec { dayFlags : list bool; hasMinus1 : bool; hasMinus2 : bool }.

(** [for _, d := range daysStr] of rule [m]. *)
Fixpoint mParseDays (daysStr : list string) (ds : DaySpec)
  : NextDateError + DaySpec :=
  match daysStr with
  | [] => inr ds
  | d :: rest =>
      match strconv_Atoi d with
      | None => inl ErrMDay
      | Some dayNum =>
          if dayNum =? -1 then
            mParseDays rest (mkDaySpec (dayFlags ds) true (hasMinus2 ds))
          else if dayNum =? -2 then
            mParseDays rest (mkDaySpec (dayFlags ds) (hasMinus1 ds) true)
          else if (1 <=? dayNum) && (dayNum <=? 31) then
            mParseDays rest
              (mkDaySpec (setFlag (dayFlags ds) dayNum) (hasMinus1 ds) (hasMinus2 ds))
          else inl ErrMDayRange
      end
  end.

(** [for _, m := range monthStrs] of rule [m]. *)
Fixpoint mParseMonths (monthStrs : list string) (monthFlags : list bool)
  : NextDateError + list bool :=
  match monthStrs with
  | [] => inr monthFlags
  | m :: rest =>
      match strconv_Atoi m with
      | None => inl ErrMMonth
      | Some monthNum =>
          if (monthNum <? 1) || (12 <? monthNum) then inl ErrMMonth
          else mParseMonths rest (setFlag monthFlags monthNum)
      end
  end.

(** [time.Date(year, time.Month(month)+1, 0, 0, 0, 0, 0, time.UTC).Day()]. *)
Definition lastDayOf (year month : Z) : Z :=
  Time_Day (time_Date year (month + 1) 0 0 0 0 0 0).

(** The test of one candidate in the loop of rule [m]: [false] when the
    month is skipped ([continue]), else the value of [isMatch]. *)
Definition mMatch (ds : DaySpec) (monthFlags : list bool) (date : Time) : bool :=
  let day := Time_Day date in
  let month := Time_Month date in
  let year := Time_Year date in
  if negb (flagAt monthFlags month) then false
  else
    let isMatch := false in
    let isMatch := if flagAt (dayFlags ds) day then true else isMatch in
    let isMatch :=
      if hasMinus1 ds then
        let lastDay := lastDayOf year month in
        if day =? lastDay then true else isMatch
      else isMatch in
    let isMatch :=
      if hasMinus2 ds then
        let lastDay := lastDayOf year month in
        if day =? lastDay - 1 then true else isMatch
      else isMatch in
    isMatch.

(** The loop of rule [m]. *)
Fixpoint mLoop (fuel : nat) (now : Time) (ds : DaySpec) (monthFlags : list bool)
  (date : Time) : option Time :=
  match fuel with
  | O => None
  | S fuel' =>
      let date := Time_AddDate date 0 0 1 in
      if mMatch ds monthFlags date && Time_After date now then Some date
      else mLoop fuel' now ds monthFlags date
  end.

Definition ofLoop (r : option Time) : Outcome NextDateError string :=
  match r with
  | Some date => Done (Time_Format date)
  | None => Timeout
  end.

Definition falses (n : nat) : list bool := List.repeat false n.

(** [monthFlags] after [for i := 1; i <= 12; i++ { monthFlags[i] = true }]. *)
Definition allMonths : list bool := false :: List.repeat true 12.

(** [NextDate(now, dstart, repeat)]. *)
Definition NextDate (fuel : nat) (now : Time) (dstart : string) (repeat : string)
  : Outcome NextDateError string :=
  if String.eqb repeat "" then Fail ErrEmptyRepeat
  else
    match time_Parse dstart with
    | None => Fail ErrStartDate
    | Some date =>
        let parts := strings_Split repeat " " in
        let parts0 := nth 0 parts "" in
        if String.eqb parts0 "d" then
          if (Z.of_nat (List.length parts) <? 2) then Fail ErrDMissing
          else
            match strconv_Atoi (nth 1 parts "") with
            | None => Fail ErrDParam
            | Some days =>
                if (days <=? 0) || (400 <? days) then Fail ErrDRange
                else ofLoop (dLoop fuel now days date)
            end
        else if String.eqb parts0 "y" then
          ofLoop (yLoop fuel now date)
        else if String.eqb parts0 "w" then
          if (Z.of_nat (List.length parts) <? 2) then Fail ErrWMissing
          else
            let weekStrs := strings_Split (nth 1 parts "") "," in
            match wParse weekStrs (falses 8) with
            | inl e => Fail e
            | inr weekdays => ofLoop (wLoop fuel now weekdays date)
            end
        else if String.eqb parts0 "m" then
          if (Z.of_nat (List.length parts) <? 2) then Fail ErrMMissing
          else
            let daysStr := strings_Split (nth 1 parts "") "," in
            match mParseDays daysStr (mkDaySpec (falses 32) false false) with
            | inl e => Fail e
            | inr ds =>
                let months :=
                  if Z.of_nat (List.length parts) =? 3 then
                    mParseMonths (strings_Split (nth 2 parts "") ",") (falses 13)
                  else inr allMonths in
                match months with
                | inl e => Fail e
                | inr monthFlags => ofLoop (mLoop fuel now ds monthFlags date)
                end
            end
        else Fail ErrUnsupported
    end.

(* ================================================================== *)
(** * Package [api]: [addtask.go] *)
(* ================================================================== *)

(** [db.Task]. *)
Record Task : Type :=
  mkTask { ID : string; Date : string; Title : string; Comment : string;
           Repeat : string }.

(** The errors of [checkRepeat], one constructor for each message. *)
Inductive RepeatError : Type :=
| ErrRepeat               (* incorrect repeat *)
| ErrFormatD              (* incorrect format for d *)
| ErrNumber               (* incorrect repeat number *)
| ErrNoWeekdays           (* no weekdays for w *)
| ErrWeekday              (* incorrect weekday *)
| ErrNoMonthDays          (* no days of the month for m *)
| ErrMonthDay             (* incorrect day of the month *)
| ErrFormatY              (* incorrect format for d/y *)
| ErrUnit.                (* incorrect repeat unit *)

(** [for _, dayStr := range dayStrs] of rule [w] in [checkRepeat]; [true]
    when no element is refused. *)
Fixpoint checkWeekdays (dayStrs : list string) : bool :=
  match dayStrs with
  | [] => true
  | dayStr :: rest =>
      match strconv_Atoi dayStr with
      | None => false
      | Some dayNum =>
          if (dayNum <? 1) || (7 <? dayNum) then false else checkWeekdays rest
      end
  end.

(** [for _, dayStr := range dayStrs] of rule [m] in [checkRepeat]. *)
Fixpoint checkMonthDays (dayStrs : list string) : bool :=
  match dayStrs with
  | [] => true
  | dayStr :: rest =>
      match strconv_Atoi dayStr with
      | None => false
      | Some dayNum =>
          if (dayNum <? -2) || (31 <? dayNum) || (dayNum =? 0) then false
          else checkMonthDays rest
      end
  end.

(** [checkRepeat(repeat)]; [None] is the nil error. *)
Definition checkRepeat (repeat : string) : option RepeatError :=
  if String.eqb repeat "" then None
  else
    let parts := strings_Fields repeat in
    if Z.of_nat (List.length parts) <? 1 then Some ErrRepeat
    else
      let unit := nth 0 parts "" in
      if String.eqb unit "d" then
        if negb (Z.of_nat (List.length parts) =? 2) then Some ErrFormatD
        else
          match strconv_Atoi (nth 1 parts "") with
          | None => Some ErrNumber
          | Some num => if num <=? 0 then Some ErrNumber else None
          end
      else if String.eqb unit "w" then
        if Z.of_nat (List.length parts) <? 2 then Some ErrNoWeekdays
        else if checkWeekdays (strings_Split (nth 1 parts "") ",") then None
        else Some ErrWeekday
      else if String.eqb unit "m" then
        if Z.of_nat (List.length parts) <? 2 then Some ErrNoMonthDays
        else if checkMonthDays (strings_Split (nth 1 parts "") ",") then None
        else Some ErrMonthDay
      else if String.eqb unit "y" then
        if negb (Z.of_nat (List.length parts) =? 1) then Some ErrFormatY
        else None
      else Some ErrUnit.

(** The errors of [checkDate]. *)
Inductive CheckDateError : Type :=
| ErrDate                                 (* incorrect date *)
| ErrRepeatRule (e : NextDateError).      (* incorrect repeat rule: e *)

(** The closure [startOfDay] of [checkDate], for a time [t] in a location
    that has the offset of [t] at the midnight of its day too (a fixed
    zone, or a day on which the offset has not changed before [t]);
    [startOfDay_loc] below is the closure in any location. *)
Definition startOfDay (t : Time) : Time :=
  let '(y, m, d) := Time_Date t in
  time_Date y m d 0 0 0 0 (offset t).

Definition setDate (task : Task) (date : string) : Task :=
  mkTask (ID task) date (Title task) (Comment task) (Repeat task).

(** [checkDate(task)] with the value [now] of [time.Now()] made explicit.
    The result is the task as the call leaves it, also when it fails, and
    what it returns ([Done tt] for nil). *)
Definition checkDate (fuel : nat) (now : Time) (task : Task)
  : Task * Outcome CheckDateError unit :=
  let task :=
    if String.eqb (Date task) "" then setDate task (Time_Format now) else task in
  match time_Parse (Date task) with
  | None => (task, Fail ErrDate)
  | Some t =>
      if negb (String.eqb (Repeat task) "") then
        match NextDate fuel now (Date task) (Repeat task) with
        | Fail e => (task, Fail (ErrRepeatRule e))
        | Timeout => (task, Timeout)
        | Done next =>
            if negb (Time_After t (startOfDay now)) then (setDate task next, Done tt)
            else (task, Done tt)
        end
      else
        if Time_Before t (startOfDay now) then
          (setDate task (Time_Format now), Done tt)
        else (task, Done tt)
  end.

(** The closure [startOfDay] of [checkDate] in any location: [loc] is the
    location of [t].  The offset [time.Date] finds for the midnight of the
    day need not be the offset of [t]. *)
Definition startOfDay_loc (loc : Location) (t : Time) : Time :=
  let '(y, m, d) := Time_Date t in
  time_Date_loc y m d 0 0 0 0 loc.

(** [checkDate(task)] with the value [now] of [time.Now()] and its
    location [loc] made explicit.  [checkDate] above is the case of a
    location that has the offset of [now] at the midnight of today too. *)
Definition checkDate_loc (loc : Location) (fuel : nat) (now : Time) (task : Task)
  : Task * Outcome CheckDateError unit :=
  let task :=
    if String.eqb (Date task) "" then setDate task (Time_Format now) else task in
  match time_Parse (Date task) with
  | None => (task, Fail ErrDate)
  | Some t =>
      if negb (String.eqb (Repeat task) "") then
        match NextDate fuel now (Date task) (Repeat task) with
        | Fail e => (task, Fail (ErrRepeatRule e))
        | Timeout => (task, Timeout)
        | Done next =>
            if negb (Time_After t (startOfDay_loc loc now))
            then (setDate task next, Done tt)
            else (task, Done tt)
        end
      else
        if Time_Before t (startOfDay_loc loc now) then
          (setDate task (Time_Format now), Done tt)
        else (task, Done tt)
  end.

(* ================================================================== *)
(** * Package [db], as the handlers use it *)
(* ================================================================== *)

(** The errors of [UpdateTask], [DeleteTask] and [UpdateDate]: the one
    whose text is "задача не найдена" (no row was affected), and any
    other. *)
Inductive DbError : Type :=
| DbNotFound
| DbFailure.

(** The functions of package [db] run SQL statements; here they are the
    operations of a store that is not looked into.  [None] stands for a
    nil error where an error is returned, and for a non-nil error where a
    value is. *)
Record Database : Type := mkDatabase {
  Store : Type;
  db_AddTask : Task -> Store -> Store * option Z;
  db_Tasks : Z -> Store -> option (list Task);
  db_GetTask : string -> Store -> option Task;
  db_UpdateTask : Task -> Store -> Store * option DbError;
  db_DeleteTask : string -> Store -> Store * option DbError;
  db_UpdateDate : string -> string -> Store -> Store * option DbError;
  db_TasksByDate : string -> Z -> Store -> option (list Task);
  db_TasksByPattern : string -> Z -> Store -> option (list Task)
}.

(** [time.Parse("02.01.2006", value)]: two digits of day, a dot, two of
    month, a dot, four of year and nothing else; the month is 1..12 and
    the day exists in that month. *)
Definition time_Parse_DMY (value : string) : option Time :=
  match value with
  | String d1 (String d2 (String p1 (String m1 (String m2 (String p2
      (String y1 (String y2 (String y3 (String y4 EmptyString))))))))) =>
      if forallb isDigit [d1; d2; m1; m2; y1; y2; y3; y4]
         && Ascii.eqb p1 "." && Ascii.eqb p2 "." then
        let year := ((digitVal y1 * 10 + digitVal y2) * 10 + digitVal y3) * 10
                    + digitVal y4 in
        let month := digitVal m1 * 10 + digitVal m2 in
        let day := digitVal d1 * 10 + digitVal d2 in
        if (month <=? 0) || (12 <? month) then None
        else if (day <? 1) || (daysIn month year <? day) then None
        else Some (time_Date year month day 0 0 0 0 0)
      else None
  | _ => None
  end.

(** [db.SearchTasks(search, limit)]. *)
Definition SearchTasks (db : Database) (search : string) (limit : Z)
  (s : Store db) : option (list Task) :=
  match time_Parse_DMY search with
  | Some date => db_TasksByDate db (Time_Format date) limit s
  | None => db_TasksByPattern db (append "%" (append search "%")) limit s
  end.

(* ================================================================== *)
(** * Package [api]: the handlers *)
(* ================================================================== *)

(** The texts of the error responses, one constructor for each. *)
Inductive Message : Type :=
| MsgMethod                        (* Метод не поддерживается *)
| MsgDecode                        (* Ошибка десериализации JSON: ... *)
| MsgBadJSON                       (* некорректный JSON *)
| MsgNoTitle                       (* Не указан заголовок задачи *)
| MsgNoID                          (* Не указан идентификатор *)
| MsgDate (e : CheckDateError)     (* the error of checkDate *)
| MsgRepeat (e : RepeatError)      (* the error of checkRepeat *)
| MsgSave                          (* Ошибка сохранения задачи: ... *)
| MsgNotFound                      (* Задача не найдена *)
| MsgUpdate                        (* Ошибка обновления задачи: ... *)
| MsgDelete                        (* Ошибка удаления задачи: ... *)
| MsgDoneDelete                    (* Ошибка удаления: ... *)
| MsgNext (e : NextDateError)      (* Не удалось раcчитать следующую дату: ... *)
| MsgUpdateDate                    (* Не удалось обновить дату: ... *)
| MsgNow                           (* неверный параметр now: ... *)
| MsgNextDate (e : NextDateError)  (* ошибка вычисления следующей даты: ... *)
| MsgTasks                         (* the error of db.Tasks or db.SearchTasks *)
| MsgAuth.                         (* Требуется аутентификация *)

(** What a handler writes. *)
Inductive Body : Type :=
| JsonError (m : Message)          (* {"error": m} *)
| JsonEmpty                        (* {} *)
| JsonId (id : Z)                  (* {"id": "<id>"} *)
| JsonTask (task : Task)
| JsonTasks (tasks : list Task)    (* {"tasks": [...]} *)
| PlainText (text : string)
| TextError (m : Message)          (* http.Error *)
| NoBody.                          (* the handler wrote nothing *)

Record Response : Type := mkResponse { StatusCode : Z; Payload : Body }.

(** The parts of a request the handlers read: the method, the values of
    the URL query, those of [FormValue], what decoding the body as a
    [db.Task] gives ([None] for an error), the value of the cookie [token]
    ([None] when there is no such cookie) and the header [Authorization]. *)
Record Request : Type := mkRequest {
  Method : string;
  Query : string -> string;
  FormValue : string -> string;
  Decoded : option Task;
  Cookie : option string;
  Authorization : string
}.

(** [nextDayHandler]; [clock] is the value of [time.Now()].  [None]: the
    handler has not answered with this fuel. *)
Definition nextDayHandler (fuel : nat) (clock : Time) (r : Request)
  : option Response :=
  if negb (String.eqb (Method r) "GET") then
    Some (mkResponse 405 (JsonError MsgMethod))
  else
    let nowStr := FormValue r "now" in
    let dstart := FormValue r "date" in
    let repeat := FormValue r "repeat" in
    match (if String.eqb nowStr "" then Some clock else time_Parse nowStr) with
    | None => Some (mkResponse 400 (JsonError MsgNow))
    | Some now =>
        match NextDate fuel now dstart repeat with
        | Fail e => Some (mkResponse 400 (JsonError (MsgNextDate e)))
        | Timeout => None
        | Done next => Some (mkResponse 200 (PlainText next))
        end
    end.

Section Handlers.

Variable db : Database.

(** [addTaskHandler]; [now] is the value of [time.Now()] in [checkDate]. *)
Definition addTaskHandler (fuel : nat) (now : Time) (r : Request)
  (s : Store db) : option (Store db * Response) :=
  if negb (String.eqb (Method r) "POST") then
    Some (s, mkResponse 405 (JsonError MsgMethod))
  else
    match Decoded r with
    | None => Some (s, mkResponse 400 (JsonError MsgDecode))
    | Some task =>
        if String.eqb (Title task) "" then
          Some (s, mkResponse 400 (JsonError MsgNoTitle))
        else
          match checkDate fuel now task with
          | (_, Fail e) => Some (s, mkResponse 400 (JsonError (MsgDate e)))
          | (_, Timeout) => None
          | (task, Done _) =>
              match db_AddTask db task s with
              | (s', None) => Some (s', mkResponse 500 (JsonError MsgSave))
              | (s', Some id) => Some (s', mkResponse 200 (JsonId id))
              end
          end
    end.

Definition getTaskHandler (r : Request) (s : Store db)
  : option (Store db * Response) :=
  let id := Query r "id" in
  if String.eqb id "" then Some (s, mkResponse 400 (JsonError MsgNoID))
  else
    match db_GetTask db id s with
    | None => Some (s, mkResponse 404 (JsonError MsgNotFound))
    | Some task => Some (s, mkResponse 200 (JsonTask task))
    end.

Definition updateTaskHandler (fuel : nat) (now : Time) (r : Request)
  (s : Store db) : option (Store db * Response) :=
  match Decoded r with
  | None => Some (s, mkResponse 400 (JsonError MsgBadJSON))
  | Some t =>
      if String.eqb (ID t) "" then Some (s, mkResponse 400 (JsonError MsgNoID))
      else if String.eqb (Title t) "" then
        Some (s, mkResponse 400 (JsonError MsgNoTitle))
      else
        match checkRepeat (Repeat t) with
        | Some e => Some (s, mkResponse 400 (JsonError (MsgRepeat e)))
        | None =>
            match checkDate fuel now t with
            | (_, Fail e) => Some (s, mkResponse 400 (JsonError (MsgDate e)))
            | (_, Timeout) => None
            | (t, Done _) =>
                match db_UpdateTask db t s with
                | (s', Some DbNotFound) =>
                    Some (s', mkResponse 404 (JsonError MsgNotFound))
                | (s', Some DbFailure) =>
                    Some (s', mkResponse 500 (JsonError MsgUpdate))
                | (s', None) => Some (s', mkResponse 200 JsonEmpty)
                end
            end
        end
  end.

Definition deleteTaskHandler (r : Request) (s : Store db)
  : option (Store db * Response) :=
  let id := Query r "id" in
  if String.eqb id "" then Some (s, mkResponse 400 (JsonError MsgNoID))
  else
    match db_DeleteTask db id s with
    | (s', Some DbNotFound) => Some (s', mkResponse 404 (JsonError MsgNotFound))
    | (s', Some DbFailure) => Some (s', mkResponse 500 (JsonError MsgDelete))
    | (s', None) => Some (s', mkResponse 200 JsonEmpty)
    end.

(** [taskDone]; [now] is the value of [time.Now()]. *)
Definition taskDone (fuel : nat) (now : Time) (r : Request) (s : Store db)
  : option (Store db * Response) :=
  if negb (String.eqb (Method r) "POST") then
    Some (s, mkResponse 405 (JsonError MsgMethod))
  else
    let id := Query r "id" in
    if String.eqb id "" then Some (s, mkResponse 400 (JsonError MsgNoID))
    else
      match db_GetTask db id s with
      | None => Some (s, mkResponse 404 (JsonError MsgNotFound))
      | Some task =>
          if String.eqb (Repeat task) "" then
            match db_DeleteTask db id s with
            | (s', Some _) => Some (s', mkResponse 500 (JsonError MsgDoneDelete))
            | (s', None) => Some (s', mkResponse 200 JsonEmpty)
            end
          else
            match NextDate fuel now (Date task) (Repeat task) with
            | Fail e => Some (s, mkResponse 400 (JsonError (MsgNext e)))
            | Timeout => None
            | Done nextdata =>
                match db_UpdateDate db nextdata id s with
                | (s', Some _) =>
                    Some (s', mkResponse 500 (JsonError MsgUpdateDate))
                | (s', None) => Some (s', mkResponse 200 JsonEmpty)
                end
            end
      end.

(** [taskHandler]: a method that is none of the four is not answered by
    any handler, which leaves the status 200 and no body. *)
Definition taskHandler (fuel : nat) (now : Time) (r : Request) (s : Store db)
  : option (Store db * Response) :=
  if String.eqb (Method r) "POST" then addTaskHandler fuel now r s
  else if String.eqb (Method r) "GET" then getTaskHandler r s
  else if String.eqb (Method r) "PUT" then updateTaskHandler fuel now r s
  else if String.eqb (Method r) "DELETE" then deleteTaskHandler r s
  else Some (s, mkResponse 200 NoBody).

Definition taskDoneHandler (fuel : nat) (now : Time) (r : Request)
  (s : Store db) : option (Store db * Response) :=
  taskDone fuel now r s.

(** [tasksHandler]. *)
Definition tasksHandler (r : Request) (s : Store db) : Response :=
  if negb (String.eqb (Method r) "GET") then mkResponse 405 (JsonError MsgMethod)
  else
    let limit := 50 in
    let search := Query r "search" in
    match (if String.eqb search "" then db_Tasks db limit s
           else SearchTasks db search limit s) with
    | None => mkResponse 500 (JsonError MsgTasks)
    | Some tasks => mkResponse 200 (JsonTasks tasks)
    end.

End Handlers.

(* ================================================================== *)
(** * Package [api]: the configuration and [AuthMiddleware] *)
(* ================================================================== *)

Record Config : Type :=
  mkConfig { TodoPassword : string; TodoPort : string; TodoDBFile : string }.

(** [GetConfig()].  [appConfig] is the package variable, [None] for nil
    (it is set by the first call only, under [configOnce]); [getenv] is
    the environment.  The result is the variable after the call and the
    configuration returned. *)
Definition GetConfig (appConfig : option Config) (getenv : string -> string)
  : option Config * Config :=
  match appConfig with
  | Some c => (appConfig, c)
  | None =>
      let c := mkConfig (getenv "TODO_PASSWORD") (getenv "TODO_PORT")
                 (getenv "TODO_DBFILE") in
      let c := if String.eqb (TodoPassword c) ""
               then mkConfig "12345" (TodoPort c) (TodoDBFile c) else c in
      let c := if String.eqb (TodoPort c) ""
               then mkConfig (TodoPassword c) "7540" (TodoDBFile c) else c in
      let c := if String.eqb (TodoDBFile c) ""
               then mkConfig (TodoPassword c) (TodoPort c) "scheduler.db"
               else c in
      (Some c, c)
  end.

(** [strings.HasPrefix] and [strings.TrimPrefix]. *)
Definition strings_HasPrefix (s p : string) : bool := String.prefix p s.

Definition strings_TrimPrefix (s p : string) : string :=
  if strings_HasPrefix s p
  then String.substring (String.length p) (String.length s - String.length p) s
  else s.

(** [AuthMiddleware(next)] on a request.  [validateToken] reads the token
    with the JWT library and is a parameter here.  The result is the
    variable [appConfig] after the call and what the handler did. *)
Definition AuthMiddleware {St : Type}
  (validateToken : string -> string -> bool)
  (next : Request -> St -> option (St * Response))
  (appConfig : option Config) (getenv : string -> string)
  (r : Request) (s : St) : option Config * option (St * Response) :=
  let '(appConfig, config) := GetConfig appConfig getenv in
  let password := TodoPassword config in
  if String.eqb password "" then (appConfig, next r s)
  else
    let tokenString := match Cookie r with Some v => v | None => "" end in
    let tokenString :=
      if String.eqb tokenString "" then
        let authHeader := Authorization r in
        if negb (String.eqb authHeader "")
           && strings_HasPrefix authHeader "Bearer "
        then strings_TrimPrefix authHeader "Bearer " else tokenString
      else tokenString in
    if String.eqb tokenString "" then
      (appConfig, Some (s, mkResponse 401 (TextError MsgAuth)))
    else if negb (validateToken tokenString password) then
      (appConfig, Some (s, mkResponse 401 (TextError MsgAuth)))
    else (appConfig, next r s).

(* ================================================================== *)
(** * Vocabulary of the statements *)
(* ================================================================== *)

(** Midnight UTC of the day [n] days after 1970-01-01. *)
Definition midnight (n : Z) : Time := mkTime (n * secondsPerDay) 0 0.

(** The calendar day of [t] in its own location, in days since
    1970-01-01: two times have the same [Time_Date] exactly when they
    have the same [dayOf]. *)
Definition dayOf (t : Time) : Z := Time_abs t / secondsPerDay - unixEpochDays.

(** The UTC day in which the instant of [t] falls. *)
Definition utcDayOf (t : Time) : Z := unix t / secondsPerDay.

(** A rule element [w] of the comma-separated list [l] that reads as [n]. *)
Definition listed (l : string) (n : Z) : Prop :=
  exists w, In w (strings_Split l ",") /\ strconv_Atoi w = Some n.

(** The call fails with an error of the kind [k]. *)
Definition failsWith (r : Outcome NextDateError string) (k : ErrorKind) : Prop :=
  exists e, r = Fail e /\ errorKind e = k.

(** The element [w] reads as a number in [1..hi]. *)
Definition inRange (hi : Z) (w : string) : Prop :=
  exists n, strconv_Atoi w = Some n /\ 1 <= n <= hi.

(** The element [w] reads as a day of the month: [-1], [-2] or [1..31]. *)
Definition isMonthDay (w : string) : Prop :=
  exists n, strconv_Atoi w = Some n /\ (n = -1 \/ n = -2 \/ 1 <= n <= 31).

(** The shape shared by [wParse] ([hi = 7]) and [mParseMonths] ([hi = 12]). *)
Fixpoint parseFlags (hi : Z) (err : NextDateError) (l : list string)
  (flags : list bool) : NextDateError + list bool :=
  match l with
  | [] => inr flags
  | w :: rest =>
      match strconv_Atoi w with
      | None => inl err
      | Some n =>
          if (n <? 1) || (hi <? n) then inl err
          else parseFlags hi err rest (setFlag flags n)
      end
  end.

(** The flags [NextDate] computes from the day list [dl] and the parts
    [rest] after it: the months of [rest] when it is one part, all months
    otherwise. *)
Definition mRuleFlags (dl : string) (rest : list string)
  (ds : DaySpec) (monthFlags : list bool) : Prop :=
  mParseDays (strings_Split dl ",") (mkDaySpec (falses 32) false false) = inr ds
  /\ match rest with
     | [ml] => mParseMonths (strings_Split ml ",") (falses 13)
     | _ => inr allMonths
     end = inr monthFlags.

(** The longest any month [m] gets (February in a leap year). *)
Definition maxDaysIn (m : Z) : Z := daysIn m 2000.

(** Some day of the rule [m] can fall in some allowed month. *)
Definition feasible (ds : DaySpec) (monthFlags : list bool) : Prop :=
  exists m d, 1 <= m <= 12 /\ flagAt monthFlags m = true
    /\ (hasMinus1 ds = true \/ hasMinus2 ds = true
        \/ (1 <= d <= maxDaysIn m /\ flagAt (dayFlags ds) d = true)).

(** The test of one day of a year against the table of months: the month
    and day [absMonthDay] finds are in range and lead back to [yday]. *)
Definition monthDayOk (leap : bool) (year yday : Z) : bool :=
  let '(m, d) := absMonthDay year yday in
  (1 <=? m) && (m <=? 12) && (1 <=? d) && (d <=? daysIn m year)
  && (daysBeforeAt (m - 1) + (if leap && (3 <=? m) then 1 else 0) + (d - 1)
      =? yday).

(** A [for] loop that steps first and tests afterwards, as all four loops
    of [NextDate] do. *)
Section ForLoop.
Variable step : Time -> Time.
Variable stop : Time -> bool.

Fixpoint forLoop (fuel : nat) (date : Time) : option Time :=
  match fuel with
  | O => None
  | S fuel' =>
      let date := step date in
      if stop date then Some date else forLoop fuel' date
  end.
End ForLoop.

(** The rule a rule string stands for, once [NextDate] has read it: the
    interval of [d], the weekday flags of [w], the day and month flags of
    [m]. *)
Inductive Rule : Type :=
| Daily (days : Z)
| Yearly
| Weekly (weekdays : list bool)
| Monthly (ds : DaySpec) (monthFlags : list bool).

(** The loop [NextDate] runs for a rule. *)
Definition runRule (fuel : nat) (now : Time) (rule : Rule) (date : Time)
  : option Time :=
  match rule with
  | Daily days => dLoop fuel now days date
  | Yearly => yLoop fuel now date
  | Weekly weekdays => wLoop fuel now weekdays date
  | Monthly ds monthFlags => mLoop fuel now ds monthFlags date
  end.

(** The rules whose loop returns from every start. *)
Definition ruleReturns (rule : Rule) : Prop :=
  match rule with
  | Daily days => 1 <= days <= 400
  | Yearly => True
  | Weekly weekdays => exists i, 1 <= i <= 7 /\ flagAt weekdays i = true
  | Monthly ds monthFlags => feasible ds monthFlags
  end.

(** The first part of the rule string of a rule. *)
Definition ruleKind (rule : Rule) : string :=
  match rule with
  | Daily _ => "d"
  | Yearly => "y"
  | Weekly _ => "w"
  | Monthly _ _ => "m"
  end.

(** The first step of [checkDate]: an empty date becomes today. *)
Definition withDefaultDate (now : Time) (task : Task) : Task :=
  if String.eqb (Date task) "" then setDate task (Time_Format now) else task.

(** The rest of [checkDate], from [time.Parse] on. *)
Definition checkParsed (fuel : nat) (now : Time) (task : Task)
  : Task * Outcome CheckDateError unit :=
  match time_Parse (Date task) with
  | None => (task, Fail ErrDate)
  | Some t =>
      if negb (String.eqb (Repeat task) "") then
        match NextDate fuel now (Date task) (Repeat task) with
        | Fail e => (task, Fail (ErrRepeatRule e))
        | Timeout => (task, Timeout)
        | Done next =>
            if negb (Time_After t (startOfDay now)) then (setDate task next, Done tt)
            else (task, Done tt)
        end
      else
        if Time_Before t (startOfDay now) then
          (setDate task (Time_Format now), Done tt)
        else (task, Done tt)
  end.

Definition addYear (t : Time) : Time := Time_AddDate t 1 0 0.
Definition addDays (days : Z) (t : Time) : Time := Time_AddDate t 0 0 days.

(** The date of [d] is one the rule [m dl rest] asks for: its month is one
    of the month list when the rule has one ([rest] is a single part; any
    month otherwise), and its day of the month is one of the day list [dl],
    or the last day of its month with [-1] listed, or the day before the
    last with [-2] listed. *)
Definition onMonthlyRule (dl : string) (rest : list string) (d : Time) : Prop :=
  (forall ml, rest = [ml] -> listed ml (Time_Month d))
  /\ (listed dl (Time_Day d)
      \/ (listed dl (-1)
          /\ Time_Day d = lastDayOf (Time_Year d) (Time_Month d))
      \/ (listed dl (-2)
          /\ Time_Day d = lastDayOf (Time_Year d) (Time_Month d) - 1)).

(* ================================================================== *)
(** * Vocabulary of further statements *)
(* ================================================================== *)

(** The date [a] is on or before the date [b], as year, month, day. *)
Definition dateLe (a b : Z * Z * Z) : Prop :=
  let '(y1, m1, d1) := a in
  let '(y2, m2, d2) := b in
  y1 < y2 \/ (y1 = y2 /\ (m1 < m2 \/ (m1 = m2 /\ d1 <= d2))).

(** Some listed day of a rule [m] can fall in some allowed month: [-1] or
    [-2] is listed, or a listed day [D] exists in a month [M] of the month
    list [rest] (any month when [rest] is not a single list). *)
Definition mRuleFeasible (dl : string) (rest : list string) : Prop :=
  listed dl (-1) \/ listed dl (-2)
  \/ exists D M, listed dl D /\ 1 <= D <= maxDaysIn M
                 /\ 1 <= M <= 12 /\ forall ml, rest = [ml] -> listed ml M.

(** The fields [strings.Fields] finds in a rule that [checkRepeat]
    accepts: [d] and a positive integer; [w] and a list of weekdays, then
    anything; [m] and a list of days of the month, then anything; [y]
    alone. *)
Definition acceptedFields (parts : list string) : Prop :=
  match parts with
  | [unit; ns] =>
      (unit = "d" /\ exists n, strconv_Atoi ns = Some n /\ 1 <= n)
      \/ (unit = "w" /\ Forall (inRange 7) (strings_Split ns ","))
      \/ (unit = "m" /\ Forall isMonthDay (strings_Split ns ","))
  | unit :: l :: _ =>
      (unit = "w" /\ Forall (inRange 7) (strings_Split l ","))
      \/ (unit = "m" /\ Forall isMonthDay (strings_Split l ","))
  | [unit] => unit = "y"
  | [] => False
  end.

(** A task as [addTaskHandler] and [updateTaskHandler] hand it to the
    store at the moment [now]: it has a title; its date, when it parses,
    is not before the day of [now]; and its rule, when it has one, is a
    rule for which [NextDate] gives a date from every start at every
    moment. *)
Definition storable (now : Time) (task : Task) : Prop :=
  Title task <> ""
  /\ (forall d, time_Parse (Date task) = Some d -> dayOf now <= dayOf d)
  /\ (Repeat task <> "" ->
      forall now' dstart date, time_Parse dstart = Some date ->
        exists (k : nat) (next : string), forall fuel, (k <= fuel)%nat ->
          NextDate fuel now' dstart (Repeat task) = Done next).

(** A store in memory, for the examples: the list of the tasks, found by
    the [ID] they carry; a new task gets the next number.  Searching by
    pattern is not provided. *)
Definition memoryDb : Database :=
  let has (id : string) (s : list Task) :=
    existsb (fun t => String.eqb (ID t) id) s in
  let change (id : string) (f : Task -> Task) (s : list Task) :=
    if has id s
    then (map (fun t => if String.eqb (ID t) id then f t else t) s, None)
    else (s, Some DbNotFound) in
  mkDatabase (list Task)
    (fun task s => (s ++ [task], Some (Z.of_nat (List.length s) + 1)))
    (fun limit s => Some (firstn (Z.to_nat limit) s))
    (fun id s => find (fun t => String.eqb (ID t) id) s)
    (fun task s => change (ID task) (fun _ => task) s)
    (fun id s =>
       if has id s
       then (filter (fun t => negb (String.eqb (ID t) id)) s, None)
       else (s, Some DbNotFound))
    (fun next id s => change id (fun t => setDate t next) s)
    (fun date limit s =>
       Some (firstn (Z.to_nat limit)
               (filter (fun t => String.eqb (Date t) date) s)))
    (fun _ _ _ => None).

(** The values of a query given as a list of keys and values: the first
    value of the key, the empty string when there is none. *)
Fixpoint valuesOf (l : list (string * string)) (key : string) : string :=
  match l with
  | [] => ""
  | (k, v) :: l' => if String.eqb k key then v else valuesOf l' key
  end.

(** A request without the cookie [token] and without the header
    [Authorization]. *)
Definition plainRequest (method : string) (query form : list (string * string))
  (body : option Task) : Request :=
  mkRequest method (valuesOf query) (valuesOf form) body None "".

(** The variable [appConfig] at any time: nil, or a configuration none of
    whose fields is empty. *)
Definition configured (appConfig : option Config) : Prop :=
  forall c, appConfig = Some c ->
    TodoPassword c <> "" /\ TodoPort c <> "" /\ TodoDBFile c <> "".

(** The offset [startOfDay] subtracts: the seconds from the instant it
    gives to the midnight of the day of [t] read as UTC.  It is the offset
    of [loc] in force at the local midnight. *)
Definition midnightOffset (loc : Location) (t : Time) : Z :=
  dayOf t * secondsPerDay - unix (startOfDay_loc loc t).

(** A location with one change of offset, from [before] to [after] at the
    instant [at]; the outer bounds are those of [Location.lookup] (the
    least and the greatest [int64]). *)
Definition oneTransition (at_ before after : Z) : Location :=
  mkLocation (fun u =>
    if u <? at_ then (before, - 2 ^ 63, at_) else (after, at_, 2 ^ 63 - 1)).

(* ================================================================== *)
(** * The calendar *)
(* ================================================================== *)

Lemma isLeap_cases (y : Z) :
  isLeap y = true /\ y mod 4 = 0 /\ (y mod 100 <> 0 \/ y mod 400 = 0)
  \/ isLeap y = false /\ (y mod 4 <> 0 \/ (y mod 100 = 0 /\ y mod 400 <> 0)).
Proof.
  unfold isLeap.
  destruct (Z.eqb_spec (y mod 4) 0), (Z.eqb_spec (y mod 100) 0),
    (Z.eqb_spec (y mod 400) 0); simpl; intuition lia.
Qed.

Ltac leap_cases y :=
  let H := fresh "Hleap" in
  destruct (isLeap_cases y) as [(-> & H)|(-> & H)].

Ltac div_lia := Z.div_mod_to_equations; lia.

Lemma daysSinceEpoch_closed (y : Z) :
  daysSinceEpoch y
  = 365 * (y - 1) + (y - 1) / 4 - (y - 1) / 100 + (y - 1) / 400.
Proof. unfold daysSinceEpoch. div_lia. Qed.

Lemma daysSinceEpoch_succ (y : Z) :
  daysSinceEpoch (y + 1)
  = daysSinceEpoch y + 365 + (if isLeap y then 1 else 0).
Proof.
  rewrite !daysSinceEpoch_closed.
  replace (y + 1 - 1) with y by lia.
  leap_cases y; div_lia.
Qed.

Lemma daysSinceEpoch_lower (y : Z) : 1 <= y -> 365 * (y - 1) <= daysSinceEpoch y.
Proof. intros Hy. rewrite daysSinceEpoch_closed. div_lia. Qed.

Lemma daysSinceEpoch_mono (y y' : Z) :
  y < y' -> daysSinceEpoch (y + 1) <= daysSinceEpoch y'.
Proof. intros Hy. rewrite !daysSinceEpoch_closed. div_lia. Qed.

(** The year [absYear] finds contains the day, [yday] days into it. *)
Lemma absYear_spec (d : Z) :
  daysSinceEpoch (fst (absYear d)) + snd (absYear d) = d
  /\ 0 <= snd (absYear d) < 365 + (if isLeap (fst (absYear d)) then 1 else 0).
Proof.
  unfold absYear. cbn [fst snd].
  rewrite daysSinceEpoch_closed.
  match goal with |- context [isLeap ?y] => leap_cases y end; div_lia.
Qed.

(** The days of the year, month by month: a finite check. *)
Lemma monthDay_table :
  forallb (fun n => monthDayOk true 2000 (Z.of_nat n)) (seq 0 366)
  && forallb (fun n => monthDayOk false 2001 (Z.of_nat n)) (seq 0 365) = true.
Proof. vm_compute. reflexivity. Qed.

Lemma absMonthDay_leap (y y' yday : Z) :
  isLeap y = isLeap y' -> absMonthDay y yday = absMonthDay y' yday.
Proof. unfold absMonthDay. intros ->. reflexivity. Qed.

Lemma daysIn_leap (y y' m : Z) : isLeap y = isLeap y' -> daysIn m y = daysIn m y'.
Proof. unfold daysIn. intros ->. reflexivity. Qed.

Lemma absMonthDay_spec (y yday : Z) :
  0 <= yday < 365 + (if isLeap y then 1 else 0) ->
  let m := fst (absMonthDay y yday) in
  let d := snd (absMonthDay y yday) in
  1 <= m <= 12 /\ 1 <= d <= daysIn m y
  /\ daysBeforeAt (m - 1) + (if isLeap y && (3 <=? m) then 1 else 0) + (d - 1)
     = yday.
Proof.
  intros Hy. cbv zeta.
  pose proof monthDay_table as T.
  apply andb_true_iff in T. destruct T as [T1 T0].
  rewrite forallb_forall in T1, T0.
  destruct (isLeap y) eqn:L.
  - specialize (T1 (Z.to_nat yday)).
    rewrite in_seq, Z2Nat.id in T1 by lia.
    assert (E : absMonthDay y yday = absMonthDay 2000 yday)
      by (apply absMonthDay_leap; rewrite L; reflexivity).
    assert (D : forall m, daysIn m y = daysIn m 2000)
      by (intro; apply daysIn_leap; rewrite L; reflexivity).
    unfold monthDayOk in T1. rewrite E, D.
    destruct (absMonthDay 2000 yday) as [m d]. cbn [fst snd].
    assert (T : (0 <= Z.to_nat yday < 0 + 366)%nat) by lia.
    apply T1 in T. rewrite !andb_true_iff in T. lia.
  - specialize (T0 (Z.to_nat yday)).
    rewrite in_seq, Z2Nat.id in T0 by lia.
    assert (E : absMonthDay y yday = absMonthDay 2001 yday)
      by (apply absMonthDay_leap; rewrite L; reflexivity).
    assert (D : forall m, daysIn m y = daysIn m 2001)
      by (intro; apply daysIn_leap; rewrite L; reflexivity).
    unfold monthDayOk in T0. rewrite E, D.
    destruct (absMonthDay 2001 yday) as [m d]. cbn [fst snd].
    assert (T : (0 <= Z.to_nat yday < 0 + 365)%nat) by lia.
    apply T0 in T. rewrite !andb_true_iff in T. simpl andb in T. lia.
Qed.

(** A month in 1..12, case by case. *)
Ltac month_cases m :=
  let H := fresh in
  assert (H : m = 1 \/ m = 2 \/ m = 3 \/ m = 4 \/ m = 5 \/ m = 6 \/ m = 7
              \/ m = 8 \/ m = 9 \/ m = 10 \/ m = 11 \/ m = 12) by lia;
  repeat (destruct H as [H|H]; [subst m|]); [..|subst m].

(** Evaluate the entries of [daysBefore] at literal indices. *)
Ltac eval_daysBefore :=
  repeat match goal with
  | |- context [daysBeforeAt ?i] =>
      let v := eval vm_compute in (daysBeforeAt i) in
      change (daysBeforeAt i) with v
  end.

(** Decide the tests whose condition is closed. *)
Ltac eval_ifs :=
  repeat match goal with
  | |- context [if ?b then ?x else ?y] =>
      let v := eval vm_compute in b in
      match v with
      | true => change (if b then x else y) with x
      | false => change (if b then x else y) with y
      end
  end.

Lemma daysIn_bounds (m y : Z) : 1 <= m <= 12 -> 28 <= daysIn m y <= 31.
Proof.
  intros Hm. unfold daysIn. destruct (isLeap y);
    month_cases m; vm_compute; split; discriminate.
Qed.

Lemma daysIn_le_max (m y : Z) : 1 <= m <= 12 -> daysIn m y <= maxDaysIn m.
Proof.
  intros Hm. unfold maxDaysIn, daysIn. destruct (isLeap y);
    month_cases m; vm_compute; discriminate.
Qed.

Lemma daysIn_leap_max (m y : Z) : isLeap y = true -> daysIn m y = maxDaysIn m.
Proof. intros L. apply daysIn_leap. rewrite L. reflexivity. Qed.

(** Where the day [d] of month [m] lies in the year. *)
Lemma yearOffset_bounds (y m d : Z) :
  1 <= m <= 12 -> 1 <= d <= daysIn m y ->
  0 <= daysBeforeAt (m - 1) + (if isLeap y && (3 <=? m) then 1 else 0) + (d - 1)
    < 365 + (if isLeap y then 1 else 0).
Proof.
  intros Hm. unfold daysIn. destruct (isLeap y);
    month_cases m; eval_daysBefore; eval_ifs; lia.
Qed.

Lemma yearOffset_inj (y m d m' d' : Z) :
  1 <= m <= 12 -> 1 <= d <= daysIn m y ->
  1 <= m' <= 12 -> 1 <= d' <= daysIn m' y ->
  daysBeforeAt (m - 1) + (if isLeap y && (3 <=? m) then 1 else 0) + (d - 1)
  = daysBeforeAt (m' - 1) + (if isLeap y && (3 <=? m') then 1 else 0) + (d' - 1) ->
  m = m' /\ d = d'.
Proof.
  intros Hm Hd Hm' Hd'. revert Hd Hd'. unfold daysIn. destruct (isLeap y);
    month_cases m; month_cases m'; eval_daysBefore; eval_ifs; lia.
Qed.

Lemma civilDays_range (y m d : Z) :
  1 <= m <= 12 -> 1 <= d <= daysIn m y ->
  daysSinceEpoch y <= civilDays y m d < daysSinceEpoch (y + 1).
Proof.
  intros Hm Hd. pose proof (yearOffset_bounds y m d Hm Hd).
  rewrite daysSinceEpoch_succ. unfold civilDays. lia.
Qed.

Lemma civilDays_inj (y m d y' m' d' : Z) :
  1 <= m <= 12 -> 1 <= d <= daysIn m y ->
  1 <= m' <= 12 -> 1 <= d' <= daysIn m' y' ->
  civilDays y m d = civilDays y' m' d' ->
  y = y' /\ m = m' /\ d = d'.
Proof.
  intros Hm Hd Hm' Hd' E.
  pose proof (civilDays_range y m d Hm Hd) as R.
  pose proof (civilDays_range y' m' d' Hm' Hd') as R'.
  assert (y = y') as <-.
  { destruct (Z.lt_trichotomy y y') as [L|[L|L]]; [|assumption|].
    - pose proof (daysSinceEpoch_mono y y' L). lia.
    - pose proof (daysSinceEpoch_mono y' y L). lia. }
  split; [reflexivity|].
  apply (yearOffset_inj y); try assumption. unfold civilDays in E. lia.
Qed.

(** [absDate] yields a date of the calendar, and that date is the day. *)
Lemma absDate_spec (n y m d : Z) :
  absDate n = (y, m, d) ->
  1 <= m <= 12 /\ 1 <= d <= daysIn m y /\ civilDays y m d = n.
Proof.
  unfold absDate. intros E.
  pose proof (absYear_spec n) as [Hn Hy].
  destruct (absYear n) as [y0 yd]. cbn [fst snd] in *.
  pose proof (absMonthDay_spec y0 yd Hy) as S. cbv zeta in S.
  destruct (absMonthDay y0 yd) as [m0 d0]. cbn [fst snd] in *.
  injection E as <- <- <-. unfold civilDays. lia.
Qed.

(** Every date of the calendar is the [absDate] of its day. *)
Lemma absDate_civilDays (y m d : Z) :
  1 <= m <= 12 -> 1 <= d <= daysIn m y ->
  absDate (civilDays y m d) = (y, m, d).
Proof.
  intros Hm Hd.
  destruct (absDate (civilDays y m d)) as [[y' m'] d'] eqn:E.
  apply absDate_spec in E. destruct E as (Hm' & Hd' & E).
  destruct (civilDays_inj y' m' d' y m d Hm' Hd' Hm Hd E) as (-> & -> & ->).
  reflexivity.
Qed.

(* ================================================================== *)
(** * Times at midnight *)
(* ================================================================== *)

Lemma time_Date_civil (y m d loc : Z) :
  1 <= m <= 12 ->
  time_Date y m d 0 0 0 0 loc
  = mkTime ((civilDays y m d - unixEpochDays) * secondsPerDay - loc) 0 loc.
Proof.
  intros Hm. unfold time_Date, norm.
  rewrite (Z.div_small (m - 1) 12), (Z.mod_small (m - 1) 12) by lia.
  change (0 / 1000000000) with 0. change (0 mod 1000000000) with 0.
  cbn [Z.add]. change (0 / 60) with 0. change (0 mod 60) with 0.
  cbn [Z.add]. change (0 / 24) with 0. change (0 mod 24) with 0.
  rewrite !Z.add_0_r. replace (m - 1 + 1) with m by lia.
  f_equal. unfold secondsPerDay. lia.
Qed.

Lemma time_Date_midnight (y m d : Z) :
  1 <= m <= 12 ->
  time_Date y m d 0 0 0 0 0 = midnight (civilDays y m d - unixEpochDays).
Proof.
  intros Hm. rewrite time_Date_civil by assumption. unfold midnight.
  f_equal. lia.
Qed.

Lemma Time_abs_midnight (n : Z) :
  Time_abs (midnight n) = (n + unixEpochDays) * secondsPerDay.
Proof. unfold Time_abs, midnight. cbn [unix offset]. lia. Qed.

Lemma dayOf_midnight (n : Z) : dayOf (midnight n) = n.
Proof.
  unfold dayOf. rewrite Time_abs_midnight.
  rewrite Z.div_mul by (unfold secondsPerDay; lia). lia.
Qed.

Lemma Time_Date_dayOf (t : Time) : Time_Date t = absDate (dayOf t + unixEpochDays).
Proof. unfold Time_Date, dayOf. f_equal. lia. Qed.

Lemma Time_Date_midnight (n : Z) :
  Time_Date (midnight n) = absDate (n + unixEpochDays).
Proof. rewrite Time_Date_dayOf, dayOf_midnight. reflexivity. Qed.

Lemma Time_Clock_midnight (n : Z) : Time_Clock (midnight n) = (0, 0, 0).
Proof.
  unfold Time_Clock. rewrite Time_abs_midnight.
  rewrite Z.mod_mul by (unfold secondsPerDay; lia). reflexivity.
Qed.

(** The date of a time is a date of the calendar. *)
Lemma Time_Date_spec (t : Time) (y m d : Z) :
  Time_Date t = (y, m, d) ->
  1 <= m <= 12 /\ 1 <= d <= daysIn m y
  /\ civilDays y m d = dayOf t + unixEpochDays.
Proof. rewrite Time_Date_dayOf. apply absDate_spec. Qed.

(** Two times are on the same date exactly when they are on the same
    day. *)
Lemma Time_Date_eq_iff (t u : Time) :
  Time_Date t = Time_Date u <-> dayOf t = dayOf u.
Proof.
  split.
  - intros E. destruct (Time_Date t) as [[y m] d] eqn:Et.
    symmetry in E. apply Time_Date_spec in Et, E. lia.
  - intros E. rewrite !Time_Date_dayOf, E. reflexivity.
Qed.

(** Midnight UTC of the date of [t] is the midnight of its day. *)
Lemma time_Date_of_Date (t : Time) (y m d : Z) :
  Time_Date t = (y, m, d) ->
  time_Date y m d 0 0 0 0 0 = midnight (dayOf t).
Proof.
  intros E. apply Time_Date_spec in E. destruct E as (Hm & _ & E).
  rewrite time_Date_midnight by assumption. f_equal. lia.
Qed.

(** Adding days moves midnight by that many days. *)
Lemma AddDate_days_midnight (n k : Z) :
  Time_AddDate (midnight n) 0 0 k = midnight (n + k).
Proof.
  unfold Time_AddDate. rewrite Time_Clock_midnight.
  destruct (Time_Date (midnight n)) as [[y m] d] eqn:E.
  apply Time_Date_spec in E. rewrite dayOf_midnight in E.
  destruct E as (Hm & _ & E).
  cbn [nsec offset midnight]. rewrite !Z.add_0_r.
  rewrite time_Date_midnight by assumption.
  f_equal. unfold civilDays in *. lia.
Qed.

(** Adding a year moves midnight by 365 or 366 days. *)
Lemma AddDate_year_midnight (n : Z) :
  exists n', Time_AddDate (midnight n) 1 0 0 = midnight n'
             /\ n + 365 <= n' <= n + 366.
Proof.
  unfold Time_AddDate. rewrite Time_Clock_midnight.
  destruct (Time_Date (midnight n)) as [[y m] d] eqn:E.
  apply Time_Date_spec in E. rewrite dayOf_midnight in E.
  destruct E as (Hm & _ & E).
  cbn [nsec offset midnight]. rewrite !Z.add_0_r.
  rewrite time_Date_midnight by assumption.
  eexists. split; [reflexivity|].
  unfold civilDays in *. rewrite daysSinceEpoch_succ.
  destruct (isLeap_cases y) as [(L & H)|(L & H)];
    destruct (isLeap_cases (y + 1)) as [(L1 & H1)|(L1 & H1)];
    rewrite L, L1 in *; destruct (3 <=? m); cbn [andb] in *;
    try lia; exfalso; div_lia.
Qed.

Lemma Time_Before_midnight (a b : Z) :
  Time_Before (midnight a) (midnight b) = (a <? b).
Proof.
  unfold Time_Before, midnight, secondsPerDay. cbn [unix nsec].
  rewrite Z.ltb_irrefl, andb_false_r, orb_false_r.
  destruct (Z.ltb_spec a b), (Z.ltb_spec (a * 86400) (b * 86400)); lia.
Qed.

(** [afterNow] compares calendar days, each in its own location. *)
Lemma afterNow_spec (date now : Time) :
  afterNow date now = (dayOf now <=? dayOf date).
Proof.
  unfold afterNow.
  destruct (Time_Date date) as [[y1 m1] d1] eqn:E1.
  destruct (Time_Date now) as [[y2 m2] d2] eqn:E2.
  rewrite (time_Date_of_Date _ _ _ _ E1), (time_Date_of_Date _ _ _ _ E2).
  rewrite Time_Before_midnight.
  destruct (Z.ltb_spec (dayOf date) (dayOf now)),
    (Z.leb_spec (dayOf now) (dayOf date)); simpl; lia.
Qed.

(** An instant is after [now] as soon as its UTC day is. *)
Lemma Time_After_midnight_late (n : Z) (now : Time) :
  utcDayOf now < n -> Time_After (midnight n) now = true.
Proof.
  unfold Time_After, utcDayOf, midnight, secondsPerDay. cbn [unix nsec].
  intros H. apply orb_true_iff. left. apply Z.ltb_lt. div_lia.
Qed.

Lemma Time_Weekday_midnight (n : Z) : Time_Weekday (midnight n) = (n + 4) mod 7.
Proof.
  unfold Time_Weekday. rewrite Time_abs_midnight.
  unfold unixEpochDays, secondsPerDay. div_lia.
Qed.

Lemma isoWeekday_midnight (n : Z) : isoWeekday (midnight n) = (n + 3) mod 7 + 1.
Proof.
  unfold isoWeekday. rewrite Time_Weekday_midnight.
  destruct (Z.eqb_spec ((n + 4) mod 7) 0); div_lia.
Qed.

(** A parsed date is a midnight. *)
Lemma time_Parse_midnight (s : string) (t : Time) :
  time_Parse s = Some t -> t = midnight (dayOf t).
Proof.
  unfold time_Parse.
  repeat (destruct s as [|? s]; try discriminate).
  destruct (forallb _ _); [|discriminate].
  match goal with |- context [daysIn ?m ?y <? ?d] =>
    set (month := m); set (year := y); set (day := d) end.
  destruct (Z.leb_spec month 0); [discriminate|].
  destruct (Z.ltb_spec 12 month); [discriminate|]. cbn [orb].
  destruct (_ || _); [discriminate|].
  intros E. injection E as <-.
  rewrite time_Date_midnight by lia. rewrite dayOf_midnight. reflexivity.
Qed.

(* ================================================================== *)
(** * Loops that step, then test *)
(* ================================================================== *)

Section ForLoopFacts.
Variable step : Time -> Time.
Variable stop : Time -> bool.

Local Abbreviation iter k d := (Nat.iter k step d) (only parsing).

Lemma iter_shift (k : nat) (d : Time) : iter (S k) d = iter k (step d).
Proof.
  induction k as [|k IH]; [reflexivity|].
  change (iter (S (S k)) d) with (step (iter (S k) d)).
  rewrite IH. reflexivity.
Qed.

(** A result is the first candidate that passes the test. *)
Lemma forLoop_sound (fuel : nat) (d r : Time) :
  forLoop step stop fuel d = Some r ->
  exists k, (1 <= k <= fuel)%nat /\ r = iter k d /\ stop r = true
            /\ forall j, (1 <= j < k)%nat -> stop (iter j d) = false.
Proof.
  revert d. induction fuel as [|fuel IH]; intros d; [discriminate|].
  cbn [forLoop]. destruct (stop (step d)) eqn:S1.
  - intros E. injection E as <-. exists 1%nat.
    repeat split; try lia; try assumption.
  - intros E. apply IH in E. destruct E as (k & Hk & -> & St & Hj).
    exists (S k). rewrite iter_shift. repeat split; try lia; try assumption.
    intros j Hj'. destruct j as [|j]; [lia|]. rewrite iter_shift.
    destruct j as [|j]; [exact S1|]. apply Hj. lia.
Qed.

(** The first candidate that passes is the result, given the fuel. *)
Lemma forLoop_complete (k : nat) : forall (d : Time) (fuel : nat),
  (1 <= k <= fuel)%nat ->
  stop (iter k d) = true ->
  (forall j, (1 <= j < k)%nat -> stop (iter j d) = false) ->
  forLoop step stop fuel d = Some (iter k d).
Proof.
  induction k as [|k IH]; intros d fuel Hk St Hj; [lia|].
  destruct fuel as [|fuel]; [lia|]. cbn [forLoop].
  destruct k as [|k].
  - change (iter 1 d) with (step d) in *. rewrite St. reflexivity.
  - assert (H1 : stop (step d) = false) by (apply (Hj 1%nat); lia).
    rewrite H1, iter_shift. apply IH.
    + lia.
    + rewrite <- iter_shift. exact St.
    + intros j Hj'. rewrite <- iter_shift. apply Hj. lia.
Qed.

(** Among the candidates that pass there is a first one. *)
Lemma first_candidate (d : Time) (k : nat) :
  (1 <= k)%nat -> stop (iter k d) = true ->
  exists k0, (1 <= k0 <= k)%nat /\ stop (iter k0 d) = true
             /\ forall j, (1 <= j < k0)%nat -> stop (iter j d) = false.
Proof.
  induction k as [k IH] using lt_wf_ind. intros Hk St.
  destruct (forallb (fun j => negb (stop (iter (S j) d))) (seq 0 (k - 1)))
    eqn:All.
  - exists k. repeat split; try lia; try assumption.
    intros j Hj. rewrite forallb_forall in All.
    specialize (All (j - 1)%nat). rewrite in_seq in All.
    replace (S (j - 1)) with j in All by lia.
    apply negb_true_iff. apply All. lia.
  - assert (Ex : exists j, In j (seq 0 (k - 1))
                           /\ negb (stop (iter (S j) d)) = false).
    { clear -All. induction (seq 0 (k - 1)) as [|a l IHl]; [discriminate|].
      cbn [forallb] in All. apply andb_false_iff in All.
      destruct All as [A|A].
      - exists a. split; [left; reflexivity|assumption].
      - destruct (IHl A) as (j & Hin & Hj). exists j.
        split; [right; assumption|assumption]. }
    destruct Ex as (j & Hin & Hj). rewrite in_seq in Hin.
    apply negb_false_iff in Hj.
    destruct (IH (S j)) as (k0 & Hk0 & St0 & Hmin); try lia; try assumption.
    exists k0. repeat split; try lia; assumption.
Qed.

(** If some candidate passes, the loop returns. *)
Lemma forLoop_total (d : Time) (k : nat) :
  (1 <= k)%nat -> stop (iter k d) = true ->
  exists k0, (1 <= k0 <= k)%nat /\ stop (iter k0 d) = true
    /\ (forall j, (1 <= j < k0)%nat -> stop (iter j d) = false)
    /\ forall fuel, (k0 <= fuel)%nat ->
         forLoop step stop fuel d = Some (iter k0 d).
Proof.
  intros Hk St.
  destruct (first_candidate d k Hk St) as (k0 & Hk0 & St0 & Hmin).
  exists k0. repeat split; try lia; try assumption.
  intros fuel Hf. apply forLoop_complete; try assumption. lia.
Qed.

End ForLoopFacts.

(** The four loops of [NextDate] are such loops. *)
Lemma dLoop_forLoop (fuel : nat) (now : Time) (days : Z) (date : Time) :
  dLoop fuel now days date
  = forLoop (addDays days) (fun d => afterNow d now) fuel date.
Proof. revert date. induction fuel as [|fuel IH]; intros; [reflexivity|].
  cbn [dLoop forLoop]. rewrite IH. unfold addDays, addYear. reflexivity. Qed.

Lemma yLoop_forLoop (fuel : nat) (now : Time) (date : Time) :
  yLoop fuel now date = forLoop addYear (fun d => afterNow d now) fuel date.
Proof. revert date. induction fuel as [|fuel IH]; intros; [reflexivity|].
  cbn [yLoop forLoop]. rewrite IH. unfold addDays, addYear. reflexivity. Qed.

Lemma wLoop_forLoop (fuel : nat) (now : Time) (weekdays : list bool) (date : Time) :
  wLoop fuel now weekdays date
  = forLoop (addDays 1)
      (fun d => flagAt weekdays (isoWeekday d) && Time_After d now) fuel date.
Proof. revert date. induction fuel as [|fuel IH]; intros; [reflexivity|].
  cbn [wLoop forLoop]. rewrite IH. unfold addDays, addYear. reflexivity. Qed.

Lemma mLoop_forLoop (fuel : nat) (now : Time) (ds : DaySpec)
  (monthFlags : list bool) (date : Time) :
  mLoop fuel now ds monthFlags date
  = forLoop (addDays 1)
      (fun d => mMatch ds monthFlags d && Time_After d now) fuel date.
Proof. revert date. induction fuel as [|fuel IH]; intros; [reflexivity|].
  cbn [mLoop forLoop]. rewrite IH. unfold addDays, addYear. reflexivity. Qed.

Lemma iter_S (f : Time -> Time) (k : nat) (d : Time) :
  Nat.iter (S k) f d = f (Nat.iter k f d).
Proof. reflexivity. Qed.

(** Where the steps lead from a midnight. *)
Lemma iter_addDays (days : Z) (k : nat) (n : Z) :
  Nat.iter k (addDays days) (midnight n) = midnight (n + Z.of_nat k * days).
Proof.
  induction k as [|k IH].
  - cbn [Nat.iter nat_rect]. f_equal. change (Z.of_nat 0) with 0. lia.
  - rewrite iter_S, IH. unfold addDays.
    rewrite AddDate_days_midnight. f_equal. rewrite Nat2Z.inj_succ. lia.
Qed.

Lemma iter_addYear (k : nat) (n : Z) :
  exists n', Nat.iter k addYear (midnight n) = midnight n'
             /\ n + 365 * Z.of_nat k <= n' <= n + 366 * Z.of_nat k.
Proof.
  induction k as [|k (n1 & E & B)].
  - exists n. split; [reflexivity|lia].
  - rewrite iter_S, E. unfold addYear.
    destruct (AddDate_year_midnight n1) as (n2 & E2 & B2).
    exists n2. split; [assumption|lia].
Qed.

(* ================================================================== *)
(** * [NextDate]: the shape of a call *)
(* ================================================================== *)

Lemma Split_two_nonempty (repeat a b : string) (rest : list string) :
  strings_Split repeat " " = a :: b :: rest -> String.eqb repeat "" = false.
Proof. destruct repeat; [discriminate|reflexivity]. Qed.

Lemma length_ge_2 (a b : string) (rest : list string) :
  (Z.of_nat (List.length (a :: b :: rest)) <? 2) = false.
Proof. apply Z.ltb_ge. cbn [List.length]. lia. Qed.

(** A call with a well-formed rule [d] runs the loop of [d]. *)
Lemma NextDate_d (fuel : nat) (now : Time) (dstart repeat : string) (date : Time)
  (ns : string) (rest : list string) (days : Z) :
  time_Parse dstart = Some date ->
  strings_Split repeat " " = "d" :: ns :: rest ->
  strconv_Atoi ns = Some days -> 1 <= days <= 400 ->
  NextDate fuel now dstart repeat = ofLoop (dLoop fuel now days date).
Proof.
  intros P Sp A R. unfold NextDate.
  rewrite (Split_two_nonempty _ _ _ _ Sp), P, Sp, length_ge_2.
  cbn [nth String.eqb Ascii.eqb Bool.eqb]. rewrite A.
  destruct (Z.leb_spec days 0); [lia|].
  destruct (Z.ltb_spec 400 days); [lia|]. reflexivity.
Qed.

(** A call with a rule whose first part is [y] runs the loop of [y]. *)
Lemma NextDate_y (fuel : nat) (now : Time) (dstart repeat : string) (date : Time)
  (rest : list string) :
  time_Parse dstart = Some date ->
  strings_Split repeat " " = "y" :: rest ->
  NextDate fuel now dstart repeat = ofLoop (yLoop fuel now date).
Proof.
  intros P Sp. unfold NextDate.
  assert (N : String.eqb repeat "" = false)
    by (destruct repeat; [discriminate|reflexivity]).
  rewrite N, P, Sp. reflexivity.
Qed.

(** A call with a rule [w] reads the weekdays, then runs the loop of [w]. *)
Lemma NextDate_w (fuel : nat) (now : Time) (dstart repeat : string) (date : Time)
  (ws : string) (rest : list string) :
  time_Parse dstart = Some date ->
  strings_Split repeat " " = "w" :: ws :: rest ->
  NextDate fuel now dstart repeat
  = match wParse (strings_Split ws ",") (falses 8) with
    | inl e => Fail e
    | inr weekdays => ofLoop (wLoop fuel now weekdays date)
    end.
Proof.
  intros P Sp. unfold NextDate.
  rewrite (Split_two_nonempty _ _ _ _ Sp), P, Sp, length_ge_2. reflexivity.
Qed.

(** A call with a rule [m] reads the days and the months, then runs the
    loop of [m]. *)
Lemma NextDate_m (fuel : nat) (now : Time) (dstart repeat : string) (date : Time)
  (dl : string) (rest : list string) :
  time_Parse dstart = Some date ->
  strings_Split repeat " " = "m" :: dl :: rest ->
  NextDate fuel now dstart repeat
  = match mParseDays (strings_Split dl ",") (mkDaySpec (falses 32) false false) with
    | inl e => Fail e
    | inr ds =>
        match (match rest with
               | [ml] => mParseMonths (strings_Split ml ",") (falses 13)
               | _ => inr allMonths
               end) with
        | inl e => Fail e
        | inr monthFlags => ofLoop (mLoop fuel now ds monthFlags date)
        end
    end.
Proof.
  intros P Sp. unfold NextDate.
  rewrite (Split_two_nonempty _ _ _ _ Sp), P, Sp, length_ge_2.
  cbn [nth String.eqb Ascii.eqb Bool.eqb].
  destruct (mParseDays _ _); [reflexivity|].
  destruct rest as [|ml [|x rest]]; try reflexivity.
  cbn [List.length].
  destruct (Z.eqb_spec (Z.of_nat (S (S (S (S (List.length rest)))))) 3); [lia|].
  reflexivity.
Qed.

(* ================================================================== *)
(** * Rule [d] *)
(* ================================================================== *)

(** The loop of [d] from a midnight: the first positive multiple of [days]
    that reaches the day of [now]. *)
Lemma dLoop_spec (now : Time) (days n : Z) :
  1 <= days ->
  exists k : nat, (1 <= k)%nat
    /\ (forall fuel, (k <= fuel)%nat ->
          dLoop fuel now days (midnight n) = Some (midnight (n + Z.of_nat k * days)))
    /\ dayOf now <= n + Z.of_nat k * days
    /\ (forall j, (1 <= j < k)%nat -> n + Z.of_nat j * days < dayOf now).
Proof.
  intros Hd.
  set (K := Z.to_nat (Z.max 1 (dayOf now - n))).
  destruct (forLoop_total (addDays days) (fun d => afterNow d now)
              (midnight n) K) as (k & Hk & St & Hmin & Run).
  - lia.
  - rewrite iter_addDays, afterNow_spec, dayOf_midnight. apply Z.leb_le. nia.
  - exists k. rewrite iter_addDays, afterNow_spec, dayOf_midnight in St.
    apply Z.leb_le in St. repeat split; try lia.
    + intros fuel Hf. rewrite dLoop_forLoop, Run by assumption.
      rewrite iter_addDays. reflexivity.
    + intros j Hj. specialize (Hmin j Hj).
      rewrite iter_addDays, afterNow_spec, dayOf_midnight in Hmin.
      apply Z.leb_gt in Hmin. lia.
Qed.

(** C1, as the code has it: for a rule [d n] with [1 <= n <= 400] the
    result is [start + k*n] days for the least [k >= 1] (not [k >= 0])
    whose day is on or after the day of [now]; a start on or after the day
    of [now] is moved by exactly one interval. *)
Theorem NextDate_daily_least_positive_multiple
  (now : Time) (dstart repeat : string) (date : Time)
  (ns : string) (rest : list string) (days : Z) :
  time_Parse dstart = Some date ->
  strings_Split repeat " " = "d" :: ns :: rest ->
  strconv_Atoi ns = Some days -> 1 <= days <= 400 ->
  exists k : nat, (1 <= k)%nat
    /\ (forall fuel, (k <= fuel)%nat ->
          NextDate fuel now dstart repeat
          = Done (Time_Format (addDays (Z.of_nat k * days) date)))
    /\ dayOf (addDays (Z.of_nat k * days) date) = dayOf date + Z.of_nat k * days
    /\ dayOf now <= dayOf date + Z.of_nat k * days
    /\ (forall j, (1 <= j < k)%nat -> dayOf date + Z.of_nat j * days < dayOf now)
    /\ (dayOf now <= dayOf date -> k = 1%nat).
Proof.
  intros P Sp A R.
  pose proof (time_Parse_midnight _ _ P) as M.
  set (n := dayOf date) in *.
  destruct (dLoop_spec now days n) as (k & Hk & Run & Reach & Least); [lia|].
  exists k. split; [assumption|].
  assert (E : addDays (Z.of_nat k * days) date = midnight (n + Z.of_nat k * days))
    by (unfold addDays; rewrite M; apply AddDate_days_midnight).
  repeat split.
  - intros fuel Hf. rewrite (NextDate_d fuel now _ _ _ _ _ _ P Sp A R).
    rewrite E, M, Run by assumption. reflexivity.
  - rewrite E. apply dayOf_midnight.
  - assumption.
  - assumption.
  - intros Hn. destruct (Nat.eq_dec k 1) as [|Hne]; [assumption|].
    specialize (Least 1%nat). lia.
Qed.

(** The rule [d 7] from 2025-03-01 seen on 2025-03-10: two steps. *)
Lemma NextDate_daily_least_positive_multiple_witness :
  exists k : nat, (1 <= k)%nat
    /\ (forall fuel, (k <= fuel)%nat ->
          NextDate fuel (time_Date 2025 3 10 0 0 0 0 0) "20250301" "d 7"
          = Done (Time_Format (addDays (Z.of_nat k * 7) (midnight 20148))))
    /\ dayOf (addDays (Z.of_nat k * 7) (midnight 20148))
       = dayOf (midnight 20148) + Z.of_nat k * 7
    /\ dayOf (time_Date 2025 3 10 0 0 0 0 0)
       <= dayOf (midnight 20148) + Z.of_nat k * 7
    /\ (forall j, (1 <= j < k)%nat ->
          dayOf (midnight 20148) + Z.of_nat j * 7
          < dayOf (time_Date 2025 3 10 0 0 0 0 0))
    /\ (dayOf (time_Date 2025 3 10 0 0 0 0 0) <= dayOf (midnight 20148)
        -> k = 1%nat).
Proof.
  apply (NextDate_daily_least_positive_multiple
           (time_Date 2025 3 10 0 0 0 0 0) "20250301" "d 7" (midnight 20148)
           "7" [] 7).
  - reflexivity.
  - reflexivity.
  - reflexivity.
  - lia.
Defined.

(** C1 as stated fails: with [d 1] and a start on the day of [now] the
    start itself is never the result; the next day is. *)
Lemma NextDate_daily_start_today_not_returned :
  let now := time_Date 2025 3 10 0 0 0 0 0 in
  (exists date, time_Parse "20250310" = Some date /\ dayOf date = dayOf now)
  /\ (forall fuel, NextDate fuel now "20250310" "d 1" <> Done "20250310")
  /\ NextDate 1 now "20250310" "d 1" = Done "20250311".
Proof.
  cbv zeta. split; [|split].
  - eexists. split; reflexivity.
  - intros [|fuel]; vm_compute; discriminate.
  - reflexivity.
Qed.

(* ================================================================== *)
(** * Rule [y] *)
(* ================================================================== *)

(** One step of the loop of [y]: the same month and day one year later,
    and March 1 for a February 29. *)
Lemma addYear_Date (n y m d : Z) :
  Time_Date (midnight n) = (y, m, d) ->
  Time_Date (addYear (midnight n))
  = if (m =? 2) && (d =? 29) then (y + 1, 3, 1) else (y + 1, m, d).
Proof.
  intros E. unfold addYear, Time_AddDate.
  rewrite E, Time_Clock_midnight.
  apply Time_Date_spec in E. destruct E as (Hm & Hd & _).
  cbn [nsec offset midnight]. rewrite !Z.add_0_r.
  rewrite time_Date_midnight, Time_Date_midnight by assumption.
  replace (civilDays (y + 1) m d - unixEpochDays + unixEpochDays)
    with (civilDays (y + 1) m d) by lia.
  destruct (Z.eqb_spec m 2) as [->|Hm2]; cbn [andb].
  - destruct (Z.eqb_spec d 29) as [->|Hd29].
    + assert (L : isLeap y = true).
      { unfold daysIn in Hd. destruct (isLeap y); [reflexivity|].
        revert Hd. eval_daysBefore. eval_ifs. lia. }
      assert (L1 : isLeap (y + 1) = false).
      { destruct (isLeap_cases y) as [(_ & H)|(H & _)]; [|congruence].
        destruct (isLeap_cases (y + 1)) as [(_ & H1)|(H1 & _)]; [|assumption].
        exfalso. div_lia. }
      replace (civilDays (y + 1) 2 29) with (civilDays (y + 1) 3 1).
      * apply absDate_civilDays; [lia|].
        unfold daysIn. eval_daysBefore. eval_ifs. lia.
      * unfold civilDays. rewrite L1. eval_daysBefore. eval_ifs. lia.
    + apply absDate_civilDays; [lia|].
      revert Hd. unfold daysIn. destruct (isLeap y), (isLeap (y + 1));
        eval_daysBefore; eval_ifs; lia.
  - apply absDate_civilDays; [assumption|].
    revert Hd. unfold daysIn.
    destruct (Z.eqb_spec m 2); [contradiction|]. cbn [andb]. trivial.
Qed.

Lemma addYear_Year (n : Z) :
  Time_Year (addYear (midnight n)) = Time_Year (midnight n) + 1.
Proof.
  unfold Time_Year.
  destruct (Time_Date (midnight n)) as [[y m] d] eqn:E.
  rewrite (addYear_Date _ _ _ _ E). destruct (_ && _); reflexivity.
Qed.

Lemma iter_addYear_Year (k : nat) (n : Z) :
  Time_Year (Nat.iter k addYear (midnight n))
  = Time_Year (midnight n) + Z.of_nat k.
Proof.
  induction k as [|k IH].
  - cbn [Nat.iter nat_rect]. change (Z.of_nat 0) with 0. lia.
  - rewrite iter_S. destruct (iter_addYear k n) as (n' & E & _).
    rewrite E in *. rewrite addYear_Year, IH, Nat2Z.inj_succ. lia.
Qed.

(** The loop of [y] from a midnight: the first of the yearly steps that
    reaches the day of [now]. *)
Lemma yLoop_spec (now : Time) (n : Z) :
  exists k : nat, (1 <= k)%nat
    /\ (forall fuel, (k <= fuel)%nat ->
          yLoop fuel now (midnight n) = Some (Nat.iter k addYear (midnight n)))
    /\ dayOf now <= dayOf (Nat.iter k addYear (midnight n))
    /\ (forall j, (1 <= j < k)%nat ->
          dayOf (Nat.iter j addYear (midnight n)) < dayOf now).
Proof.
  set (K := Z.to_nat (Z.max 1 (dayOf now - n))).
  destruct (forLoop_total addYear (fun d => afterNow d now)
              (midnight n) K) as (k & Hk & St & Hmin & Run).
  - lia.
  - destruct (iter_addYear K n) as (n' & E & B).
    rewrite E, afterNow_spec, dayOf_midnight. apply Z.leb_le. lia.
  - exists k. rewrite afterNow_spec in St. apply Z.leb_le in St.
    repeat split; try lia.
    + intros fuel Hf. rewrite yLoop_forLoop. apply Run. assumption.
    + intros j Hj. specialize (Hmin j Hj). rewrite afterNow_spec in Hmin.
      apply Z.leb_gt in Hmin. assumption.
Qed.

(** C6, as the code has it: for the rule [y] the result is reached from the
    start by [k] successive one-year steps (each keeps month and day, a
    February 29 becoming March 1), for the least [k >= 1] (not [k >= 0])
    whose day is on or after the day of [now]; its year is the start's
    plus [k]. *)
Theorem NextDate_yearly_least_positive_steps
  (now : Time) (dstart repeat : string) (date : Time) (rest : list string) :
  time_Parse dstart = Some date ->
  strings_Split repeat " " = "y" :: rest ->
  exists k : nat, (1 <= k)%nat
    /\ (forall fuel, (k <= fuel)%nat ->
          NextDate fuel now dstart repeat
          = Done (Time_Format (Nat.iter k addYear date)))
    /\ Time_Year (Nat.iter k addYear date) = Time_Year date + Z.of_nat k
    /\ dayOf now <= dayOf (Nat.iter k addYear date)
    /\ (forall j, (1 <= j < k)%nat -> dayOf (Nat.iter j addYear date) < dayOf now)
    /\ (dayOf now <= dayOf date -> k = 1%nat).
Proof.
  intros P Sp.
  pose proof (time_Parse_midnight _ _ P) as M.
  set (n := dayOf date) in *.
  destruct (yLoop_spec now n) as (k & Hk & Run & Reach & Least).
  exists k. rewrite M. repeat split; try assumption.
  - intros fuel Hf. rewrite <- M.
    rewrite (NextDate_y fuel now _ _ _ _ P Sp). rewrite M, Run by assumption.
    reflexivity.
  - apply iter_addYear_Year.
  - intros Hn.
    destruct (Nat.eq_dec k 1) as [|Hne]; [assumption|].
    specialize (Least 1%nat).
    destruct (iter_addYear 1 n) as (n' & E & B). rewrite E, dayOf_midnight in Least.
    lia.
Qed.

(** The rule [y] from 2024-02-29 seen on 2028-02-29: four steps, to
    2028-03-01. *)
Lemma NextDate_yearly_least_positive_steps_witness :
  exists k : nat, (1 <= k)%nat
    /\ (forall fuel, (k <= fuel)%nat ->
          NextDate fuel (time_Date 2028 2 29 0 0 0 0 0) "20240229" "y"
          = Done (Time_Format (Nat.iter k addYear (midnight 19782))))
    /\ Time_Year (Nat.iter k addYear (midnight 19782))
       = Time_Year (midnight 19782) + Z.of_nat k
    /\ dayOf (time_Date 2028 2 29 0 0 0 0 0)
       <= dayOf (Nat.iter k addYear (midnight 19782))
    /\ (forall j, (1 <= j < k)%nat ->
          dayOf (Nat.iter j addYear (midnight 19782))
          < dayOf (time_Date 2028 2 29 0 0 0 0 0))
    /\ (dayOf (time_Date 2028 2 29 0 0 0 0 0) <= dayOf (midnight 19782)
        -> k = 1%nat).
Proof.
  apply (NextDate_yearly_least_positive_steps
           (time_Date 2028 2 29 0 0 0 0 0) "20240229" "y" (midnight 19782) []).
  - reflexivity.
  - reflexivity.
Defined.

(** C6 as stated fails: with the rule [y] and a start on the day of [now]
    (where [k = 0] would do) the start is never the result; the date one
    year later is. *)
Lemma NextDate_yearly_start_today_not_returned :
  let now := time_Date 2025 3 10 0 0 0 0 0 in
  (exists date, time_Parse "20250310" = Some date /\ dayOf date = dayOf now)
  /\ (forall fuel, NextDate fuel now "20250310" "y" <> Done "20250310")
  /\ NextDate 1 now "20250310" "y" = Done "20260310".
Proof.
  cbv zeta. split; [|split].
  - eexists. split; reflexivity.
  - intros [|fuel]; vm_compute; discriminate.
  - reflexivity.
Qed.

(** The yearly steps are taken one after another: from 2024-02-29 the
    fourth step gives 2028-03-01, not 2028-02-29. *)
Example NextDate_yearly_leap_day :
  NextDate 4 (time_Date 2028 2 29 0 0 0 0 0) "20240229" "y" = Done "20280301".
Proof. reflexivity. Qed.

(* ================================================================== *)
(** * Flag arrays *)
(* ================================================================== *)

Lemma setNth_length (i : nat) (l : list bool) :
  List.length (setNth i l) = List.length l.
Proof.
  revert i. induction l as [|h t IH]; intros [|i]; cbn [setNth List.length];
    try reflexivity. rewrite IH. reflexivity.
Qed.

Lemma nth_setNth (i j : nat) (l : list bool) :
  (i < List.length l)%nat ->
  nth j (setNth i l) false = (Nat.eqb i j || nth j l false)%bool.
Proof.
  revert i j. induction l as [|h t IH]; intros i j Hi; cbn [List.length] in Hi.
  - lia.
  - destruct i as [|i], j as [|j]; cbn [setNth nth Nat.eqb orb]; try reflexivity.
    apply IH. lia.
Qed.

Lemma setFlag_length (fl : list bool) (i : Z) :
  List.length (setFlag fl i) = List.length fl.
Proof. apply setNth_length. Qed.

Lemma flagAt_setFlag (fl : list bool) (i j : Z) :
  0 <= i < Z.of_nat (List.length fl) -> 0 <= j ->
  flagAt (setFlag fl i) j = ((i =? j) || flagAt fl j)%bool.
Proof.
  intros Hi Hj. unfold flagAt, setFlag. rewrite nth_setNth by lia.
  f_equal. destruct (Nat.eqb_spec (Z.to_nat i) (Z.to_nat j)),
    (Z.eqb_spec i j); try reflexivity; lia.
Qed.

Lemma flagAt_falses (n : nat) (j : Z) : flagAt (falses n) j = false.
Proof.
  unfold flagAt, falses. generalize (Z.to_nat j). intros k. revert k.
  induction n as [|n IH]; intros [|k]; cbn [List.repeat nth]; try reflexivity.
  apply IH.
Qed.

Lemma flagAt_allMonths (m : Z) : 1 <= m <= 12 -> flagAt allMonths m = true.
Proof. intros Hm. month_cases m; reflexivity. Qed.

(* ================================================================== *)
(** * Rule [w] *)
(* ================================================================== *)

Lemma wParse_parseFlags (l : list string) (flags : list bool) :
  wParse l flags = parseFlags 7 ErrWDay l flags.
Proof.
  revert flags. induction l as [|w l IH]; intros flags; [reflexivity|].
  cbn [wParse parseFlags]. destruct (strconv_Atoi w); [|reflexivity].
  destruct (_ || _); [reflexivity|]. apply IH.
Qed.

Lemma mParseMonths_parseFlags (l : list string) (flags : list bool) :
  mParseMonths l flags = parseFlags 12 ErrMMonth l flags.
Proof.
  revert flags. induction l as [|w l IH]; intros flags; [reflexivity|].
  cbn [mParseMonths parseFlags]. destruct (strconv_Atoi w); [|reflexivity].
  destruct (_ || _); [reflexivity|]. apply IH.
Qed.

(** A list is read to the end exactly when each element is in range. *)
Lemma parseFlags_total (hi : Z) (err : NextDateError) (l : list string) :
  Forall (inRange hi) l ->
  forall init, exists flags, parseFlags hi err l init = inr flags.
Proof.
  induction 1 as [|w l (n & A & R) _ IH]; intros init.
  - exists init. reflexivity.
  - cbn [parseFlags]. rewrite A.
    destruct (Z.ltb_spec n 1); [lia|]. destruct (Z.ltb_spec hi n); [lia|].
    apply IH.
Qed.

(** The flags set are those of the numbers listed. *)
Lemma parseFlags_sound (hi : Z) (err : NextDateError) (l : list string) :
  forall init flags,
  parseFlags hi err l init = inr flags ->
  hi < Z.of_nat (List.length init) ->
  Forall (inRange hi) l
  /\ forall j, 0 <= j ->
       (flagAt flags j = true <->
        flagAt init j = true \/ exists w, In w l /\ strconv_Atoi w = Some j).
Proof.
  induction l as [|w l IH]; intros init flags E Hlen.
  - injection E as <-. split; [constructor|]. intros j Hj. split.
    + intros Hflag. left. assumption.
    + intros [Hflag|(w & [] & _)]. assumption.
  - cbn [parseFlags] in E. destruct (strconv_Atoi w) as [n|] eqn:A; [|discriminate].
    destruct (Z.ltb_spec n 1); [discriminate|].
    destruct (Z.ltb_spec hi n); [discriminate|]. cbn [orb] in E.
    apply IH in E; [|rewrite setFlag_length; assumption].
    destruct E as (Hall & Hf). split.
    + constructor; [exists n; split; [assumption|lia]|assumption].
    + intros j Hj. rewrite (Hf j Hj), flagAt_setFlag by lia. split.
      * intros [H1|(w' & Hin & A')].
        -- apply orb_true_iff in H1. destruct H1 as [H1|H1].
           ++ apply Z.eqb_eq in H1. subst j. right. exists w.
              split; [left; reflexivity|assumption].
           ++ left. assumption.
        -- right. exists w'. split; [right; assumption|assumption].
      * intros [H1|(w' & [<-|Hin] & A')].
        -- left. rewrite H1. apply orb_true_r.
        -- left. assert (n = j) as -> by congruence.
           rewrite Z.eqb_refl. reflexivity.
        -- right. exists w'. split; assumption.
Qed.

(** What [wParse] leaves in the array when every element is a weekday. *)
Lemma wParse_spec (l : list string) :
  Forall (inRange 7) l ->
  exists flags, wParse l (falses 8) = inr flags
    /\ forall j, 0 <= j ->
         (flagAt flags j = true <-> exists w, In w l /\ strconv_Atoi w = Some j).
Proof.
  intros Hall.
  destruct (parseFlags_total 7 ErrWDay l Hall (falses 8)) as (flags & E).
  exists flags. rewrite wParse_parseFlags. split; [assumption|].
  apply parseFlags_sound in E; [|cbn; lia]. destruct E as (_ & Hf).
  intros j Hj. rewrite (Hf j Hj), flagAt_falses.
  split; [intros [H|H]; [discriminate|assumption]|intros H; right; assumption].
Qed.

(** [strings.Split] never yields the empty list. *)
Lemma Split_not_nil (s : string) (sep : ascii) : strings_Split s sep <> [].
Proof.
  destruct s as [|c s]; cbn [strings_Split]; [discriminate|].
  destruct (Ascii.eqb c sep); [discriminate|].
  destruct (strings_Split s sep); discriminate.
Qed.

(** The loop of [w] from a midnight: the first later day whose weekday is
    flagged and which is after [now]; it comes within a week of the later
    of the start and [now]. *)
Lemma wLoop_spec (now : Time) (weekdays : list bool) (n i : Z) :
  1 <= i <= 7 -> flagAt weekdays i = true ->
  exists k : nat,
    (1 <= k <= Z.to_nat (Z.max 0 (utcDayOf now - n)) + 7)%nat
    /\ (forall fuel, (k <= fuel)%nat ->
          wLoop fuel now weekdays (midnight n) = Some (midnight (n + Z.of_nat k)))
    /\ flagAt weekdays (isoWeekday (midnight (n + Z.of_nat k))) = true
    /\ Time_After (midnight (n + Z.of_nat k)) now = true
    /\ (forall j, (1 <= j < k)%nat ->
          flagAt weekdays (isoWeekday (midnight (n + Z.of_nat j)))
          && Time_After (midnight (n + Z.of_nat j)) now = false).
Proof.
  intros Hi Fi.
  set (base := Z.max n (utcDayOf now) + 1).
  set (N := base + (i - 1 - (base + 3)) mod 7).
  assert (HN : base <= N <= base + 6) by (unfold N; div_lia).
  assert (WN : (N + 3) mod 7 + 1 = i) by (unfold N; div_lia).
  destruct (forLoop_total (addDays 1)
              (fun d => flagAt weekdays (isoWeekday d) && Time_After d now)
              (midnight n) (Z.to_nat (N - n))) as (k & Hk & St & Hmin & Run).
  - lia.
  - rewrite iter_addDays. rewrite Z2Nat.id by lia.
    replace (n + (N - n) * 1) with N by lia.
    rewrite isoWeekday_midnight, WN, Fi.
    rewrite Time_After_midnight_late by lia. reflexivity.
  - exists k. rewrite iter_addDays, Z.mul_1_r in St.
    apply andb_true_iff in St. destruct St as [St1 St2].
    repeat split; try assumption; try lia.
    + intros fuel Hf. rewrite wLoop_forLoop, Run by assumption.
      rewrite iter_addDays, Z.mul_1_r. reflexivity.
    + intros j Hj. specialize (Hmin j Hj).
      rewrite iter_addDays, Z.mul_1_r in Hmin. assumption.
Qed.

(** C7: for a rule [w] whose list holds only weekdays 1..7, [NextDate]
    returns a date some [k >= 1] days after the start whose ISO weekday
    (Monday = 1, ..., Sunday = 7) is one of the list and which is strictly
    after the instant [now]; it is the first such day. *)
Theorem NextDate_weekly_listed_weekday_after_now
  (now : Time) (dstart repeat : string) (date : Time)
  (ws : string) (rest : list string) :
  time_Parse dstart = Some date ->
  strings_Split repeat " " = "w" :: ws :: rest ->
  Forall (inRange 7) (strings_Split ws ",") ->
  exists (k : nat) (d : Time),
    (1 <= k <= Z.to_nat (Z.max 0 (utcDayOf now - dayOf date)) + 7)%nat
    /\ d = addDays (Z.of_nat k) date
    /\ (forall fuel, (k <= fuel)%nat ->
          NextDate fuel now dstart repeat = Done (Time_Format d))
    /\ listed ws (isoWeekday d)
    /\ isoWeekday d = (dayOf d + 3) mod 7 + 1
    /\ Time_After d now = true
    /\ (forall j, (1 <= j < k)%nat ->
          listed ws (isoWeekday (addDays (Z.of_nat j) date)) ->
          Time_After (addDays (Z.of_nat j) date) now = false).
Proof.
  intros P Sp Hall.
  pose proof (time_Parse_midnight _ _ P) as M.
  set (n := dayOf date) in *.
  destruct (wParse_spec _ Hall) as (weekdays & E & Flag).
  fold (listed ws) in Flag.
  assert (Ex : exists i, 1 <= i <= 7 /\ flagAt weekdays i = true).
  { pose proof (Split_not_nil ws ",") as NN. unfold listed in Flag.
    revert Hall Flag NN.
    generalize (strings_Split ws ","). intros l Hall Flag NN.
    destruct l as [|w l]; [contradiction|].
    destruct (Forall_inv Hall) as (i & A & R). exists i.
    split; [assumption|]. apply Flag; [lia|]. exists w.
    split; [left; reflexivity|assumption]. }
  destruct Ex as (i & Hi & Fi).
  destruct (wLoop_spec now weekdays n i Hi Fi) as (k & Hk & Run & Fk & Ak & Least).
  assert (Add : forall j, addDays (Z.of_nat j) date = midnight (n + Z.of_nat j))
    by (intro j; unfold addDays; rewrite M; apply AddDate_days_midnight).
  exists k, (addDays (Z.of_nat k) date). rewrite !Add.
  assert (W : forall m, 0 <= isoWeekday (midnight m))
    by (intro m; rewrite isoWeekday_midnight; div_lia).
  repeat split; try assumption; try lia.
  - intros fuel Hf'. rewrite (NextDate_w fuel now _ _ _ _ _ P Sp), E.
    rewrite M, Run by assumption. reflexivity.
  - apply Flag; [apply W|assumption].
  - rewrite isoWeekday_midnight, dayOf_midnight. reflexivity.
  - intros j Hj Hl. rewrite Add in *. specialize (Least j Hj).
    apply Flag in Hl; [|apply W]. rewrite Hl in Least. exact Least.
Qed.

(** The rule [w 1,3] from Saturday 2025-03-01 seen at 12:30 on Monday
    2025-03-10. *)
Lemma NextDate_weekly_listed_weekday_after_now_witness :
  exists (k : nat) (d : Time),
    (1 <= k <= Z.to_nat (Z.max 0 (utcDayOf (time_Date 2025 3 10 12 30 0 0 0)
                                   - dayOf (midnight 20148))) + 7)%nat
    /\ d = addDays (Z.of_nat k) (midnight 20148)
    /\ (forall fuel, (k <= fuel)%nat ->
          NextDate fuel (time_Date 2025 3 10 12 30 0 0 0) "20250301" "w 1,3"
          = Done (Time_Format d))
    /\ listed "1,3" (isoWeekday d)
    /\ isoWeekday d = (dayOf d + 3) mod 7 + 1
    /\ Time_After d (time_Date 2025 3 10 12 30 0 0 0) = true
    /\ (forall j, (1 <= j < k)%nat ->
          listed "1,3" (isoWeekday (addDays (Z.of_nat j) (midnight 20148))) ->
          Time_After (addDays (Z.of_nat j) (midnight 20148))
                     (time_Date 2025 3 10 12 30 0 0 0) = false).
Proof.
  apply (NextDate_weekly_listed_weekday_after_now
           (time_Date 2025 3 10 12 30 0 0 0) "20250301" "w 1,3" (midnight 20148)
           "1,3" []).
  - reflexivity.
  - reflexivity.
  - repeat constructor.
    + exists 1. split; [reflexivity|lia].
    + exists 3. split; [reflexivity|lia].
Defined.

(* ================================================================== *)
(** * Rule [m] *)
(* ================================================================== *)

Lemma time_Date_norm (y m d loc : Z) :
  time_Date y m d 0 0 0 0 loc
  = mkTime ((civilDays (y + (m - 1) / 12) ((m - 1) mod 12 + 1) d - unixEpochDays)
            * secondsPerDay - loc) 0 loc.
Proof.
  unfold time_Date, norm.
  change (0 / 1000000000) with 0. change (0 mod 1000000000) with 0.
  cbn [Z.add]. change (0 / 60) with 0. change (0 mod 60) with 0.
  cbn [Z.add]. change (0 / 24) with 0. change (0 mod 24) with 0.
  rewrite !Z.add_0_r. f_equal. unfold secondsPerDay. lia.
Qed.

(** Day 0 of the next month is the last day of the month. *)
Lemma civilDays_day0 (y m : Z) :
  1 <= m <= 12 ->
  civilDays (y + (m + 1 - 1) / 12) ((m + 1 - 1) mod 12 + 1) 0
  = civilDays y m (daysIn m y).
Proof.
  intros Hm. replace (m + 1 - 1) with m by lia.
  destruct (Z.eq_dec m 12) as [->|Hne].
  - change (12 / 12) with 1. change (12 mod 12 + 1) with 1.
    unfold civilDays, daysIn. rewrite daysSinceEpoch_succ.
    destruct (isLeap y), (isLeap (y + 1)); eval_daysBefore; eval_ifs; lia.
  - rewrite Z.div_small, Z.mod_small, Z.add_0_r by lia.
    unfold civilDays, daysIn. destruct (isLeap y);
      month_cases m; try lia; eval_daysBefore; eval_ifs; lia.
Qed.

(** The code's [lastDay] is the number of days of the month. *)
Lemma lastDayOf_daysIn (y m : Z) : 1 <= m <= 12 -> lastDayOf y m = daysIn m y.
Proof.
  intros Hm. unfold lastDayOf, Time_Day.
  rewrite time_Date_norm, civilDays_day0 by assumption.
  replace (mkTime _ 0 0) with (midnight (civilDays y m (daysIn m y) - unixEpochDays))
    by (unfold midnight; f_equal; lia).
  rewrite Time_Date_midnight.
  replace (civilDays y m (daysIn m y) - unixEpochDays + unixEpochDays)
    with (civilDays y m (daysIn m y)) by lia.
  pose proof (daysIn_bounds m y Hm).
  rewrite absDate_civilDays by lia. reflexivity.
Qed.

Lemma lastDayOf_February (y : Z) :
  lastDayOf y 2 = if isLeap y then 29 else 28.
Proof.
  rewrite lastDayOf_daysIn by lia. unfold daysIn.
  destruct (isLeap y); reflexivity.
Qed.

(** When a candidate passes the test of the loop of [m]. *)
Lemma mMatch_spec (ds : DaySpec) (monthFlags : list bool) (date : Time) :
  mMatch ds monthFlags date = true <->
  flagAt monthFlags (Time_Month date) = true
  /\ (flagAt (dayFlags ds) (Time_Day date) = true
      \/ (hasMinus1 ds = true
          /\ Time_Day date = lastDayOf (Time_Year date) (Time_Month date))
      \/ (hasMinus2 ds = true
          /\ Time_Day date = lastDayOf (Time_Year date) (Time_Month date) - 1)).
Proof.
  unfold mMatch.
  destruct (flagAt monthFlags (Time_Month date)); cbn [negb];
    [|split; [discriminate|intros [? _]; discriminate]].
  destruct (flagAt (dayFlags ds) (Time_Day date)), (hasMinus1 ds), (hasMinus2 ds);
    repeat match goal with
    | |- context [?a =? ?b] => destruct (Z.eqb_spec a b)
    end; intuition (try discriminate; try lia).
Qed.

(** One element of the day list: what reading [n] changes. *)
Lemma mParseDays_step (w : string) (l : list string) (init ds : DaySpec) (n : Z) :
  strconv_Atoi w = Some n ->
  mParseDays (w :: l) init = inr ds ->
  List.length (dayFlags init) = 32%nat ->
  exists init',
    mParseDays l init' = inr ds
    /\ List.length (dayFlags init') = 32%nat
    /\ (n = -1 \/ n = -2 \/ 1 <= n <= 31)
    /\ (forall j, 0 <= j ->
          (flagAt (dayFlags init') j = true <->
           flagAt (dayFlags init) j = true \/ n = j))
    /\ (hasMinus1 init' = true <-> hasMinus1 init = true \/ n = -1)
    /\ (hasMinus2 init' = true <-> hasMinus2 init = true \/ n = -2).
Proof.
  intros A E Hlen. cbn [mParseDays] in E. rewrite A in E.
  destruct (Z.eqb_spec n (-1)) as [->|N1].
  { eexists. split; [exact E|]. cbn [dayFlags hasMinus1 hasMinus2].
    split; [assumption|]. split; [lia|].
    split; [intros j Hj; intuition lia|]. split; intuition lia. }
  destruct (Z.eqb_spec n (-2)) as [->|N2].
  { eexists. split; [exact E|]. cbn [dayFlags hasMinus1 hasMinus2].
    split; [assumption|]. split; [lia|].
    split; [intros j Hj; intuition lia|]. split; intuition lia. }
  destruct (Z.leb_spec 1 n); [|discriminate].
  destruct (Z.leb_spec n 31); [|discriminate]. cbn [andb] in E.
  eexists. split; [exact E|]. cbn [dayFlags hasMinus1 hasMinus2].
  split; [rewrite setFlag_length; assumption|]. split; [lia|].
  split; [|split; intuition lia].
  intros j Hj. rewrite flagAt_setFlag by lia. rewrite orb_true_iff, Z.eqb_eq.
  tauto.
Qed.

(** What [mParseDays] leaves when it reads the list to the end. *)
Lemma mParseDays_sound (l : list string) : forall init ds,
  mParseDays l init = inr ds ->
  List.length (dayFlags init) = 32%nat ->
  Forall isMonthDay l
  /\ (forall j, 0 <= j ->
        (flagAt (dayFlags ds) j = true <->
         flagAt (dayFlags init) j = true
         \/ exists w, In w l /\ strconv_Atoi w = Some j))
  /\ (hasMinus1 ds = true <->
      hasMinus1 init = true \/ exists w, In w l /\ strconv_Atoi w = Some (-1))
  /\ (hasMinus2 ds = true <->
      hasMinus2 init = true \/ exists w, In w l /\ strconv_Atoi w = Some (-2)).
Proof.
  induction l as [|w l IH]; intros init ds E Hlen.
  - injection E as <-. split; [constructor|].
    repeat split; try (intros Hf; left; assumption);
      intros [Hf|(w & [] & _)]; assumption.
  - destruct (strconv_Atoi w) as [n|] eqn:A;
      [|cbn [mParseDays] in E; rewrite A in E; discriminate].
    destruct (mParseDays_step w l init ds n A E Hlen)
      as (init' & E' & Hlen' & R & F0 & M1 & M2).
    destruct (IH init' ds E' Hlen') as (Hall & Hf & H1 & H2).
    assert (L : forall j, (exists w', In w' (w :: l) /\ strconv_Atoi w' = Some j)
                          <-> n = j \/ exists w', In w' l /\ strconv_Atoi w' = Some j).
    { intros j. split.
      - intros (w' & [<-|Hin] & A'); [left; congruence|].
        right. exists w'. split; assumption.
      - intros [<-|(w' & Hin & A')].
        + exists w. split; [left; reflexivity|assumption].
        + exists w'. split; [right; assumption|assumption]. }
    split; [constructor; [exists n; split; assumption|assumption]|].
    split; [|split].
    + intros j Hj. rewrite (Hf j Hj), (F0 j Hj), L. tauto.
    + rewrite H1, M1, L. tauto.
    + rewrite H2, M2, L. tauto.
Qed.

Lemma mParseDays_total (l : list string) :
  Forall isMonthDay l ->
  forall init, exists ds, mParseDays l init = inr ds.
Proof.
  induction 1 as [|w l (n & A & R) _ IH]; intros init.
  - exists init. reflexivity.
  - cbn [mParseDays]. rewrite A.
    destruct (Z.eqb_spec n (-1)); [apply IH|].
    destruct (Z.eqb_spec n (-2)); [apply IH|].
    destruct (Z.leb_spec 1 n); [|lia]. destruct (Z.leb_spec n 31); [|lia].
    apply IH.
Qed.

(** The flags of a rule [m] are those of the numbers it lists. *)
Lemma mRuleFlags_listed (dl : string) (rest : list string)
  (ds : DaySpec) (monthFlags : list bool) :
  mRuleFlags dl rest ds monthFlags ->
  (forall j, 0 <= j -> (flagAt (dayFlags ds) j = true <-> listed dl j))
  /\ (hasMinus1 ds = true <-> listed dl (-1))
  /\ (hasMinus2 ds = true <-> listed dl (-2))
  /\ (forall j, 1 <= j <= 12 ->
        (flagAt monthFlags j = true <-> forall ml, rest = [ml] -> listed ml j)).
Proof.
  intros (Ed & Em).
  apply mParseDays_sound in Ed; [|reflexivity].
  destruct Ed as (_ & Hf & H1 & H2). cbn [dayFlags hasMinus1 hasMinus2] in *.
  split; [|split; [|split]].
  - intros j Hj. rewrite (Hf j Hj), flagAt_falses. unfold listed.
    split; [intros [H|H]; [discriminate|assumption]|intros H; right; assumption].
  - rewrite H1. unfold listed.
    split; [intros [H|H]; [discriminate|assumption]|intros H; right; assumption].
  - rewrite H2. unfold listed.
    split; [intros [H|H]; [discriminate|assumption]|intros H; right; assumption].
  - intros j Hj. destruct rest as [|ml [|x rest]].
    + injection Em as <-. rewrite flagAt_allMonths by assumption.
      split; [intros _ ml E; discriminate|reflexivity].
    + rewrite mParseMonths_parseFlags in Em.
      apply parseFlags_sound in Em; [|cbn; lia]. destruct Em as (_ & Hm).
      rewrite (Hm j) by lia. rewrite flagAt_falses. unfold listed. split.
      * intros [H|H]; [discriminate|]. intros ml' E. injection E as <-. assumption.
      * intros H. right. apply H. reflexivity.
    + injection Em as <-. rewrite flagAt_allMonths by assumption.
      split; [intros _ ml' E; discriminate|reflexivity].
Qed.

(** A well-formed rule [m] has flags. *)
Lemma mRuleFlags_total (dl : string) (rest : list string) :
  Forall isMonthDay (strings_Split dl ",") ->
  (forall ml, rest = [ml] -> Forall (inRange 12) (strings_Split ml ",")) ->
  exists ds monthFlags, mRuleFlags dl rest ds monthFlags.
Proof.
  intros Hd Hm. unfold mRuleFlags.
  destruct (mParseDays_total _ Hd (mkDaySpec (falses 32) false false)) as (ds & Ed).
  exists ds. rewrite Ed.
  destruct rest as [|ml [|x rest]].
  - exists allMonths. split; reflexivity.
  - destruct (parseFlags_total 12 ErrMMonth _ (Hm ml eq_refl) (falses 13))
      as (mf & Em).
    exists mf. rewrite mParseMonths_parseFlags. split; [reflexivity|assumption].
  - exists allMonths. split; reflexivity.
Qed.

(** A call with a rule [m] runs the loop of [m] on the flags of the rule. *)
Lemma NextDate_m_flags (fuel : nat) (now : Time) (dstart repeat : string)
  (date : Time) (dl : string) (rest : list string)
  (ds : DaySpec) (monthFlags : list bool) :
  time_Parse dstart = Some date ->
  strings_Split repeat " " = "m" :: dl :: rest ->
  mRuleFlags dl rest ds monthFlags ->
  NextDate fuel now dstart repeat = ofLoop (mLoop fuel now ds monthFlags date).
Proof.
  intros P Sp (Ed & Em).
  rewrite (NextDate_m fuel now _ _ _ _ _ P Sp), Ed, Em. reflexivity.
Qed.

Lemma NextDate_m_Done (fuel : nat) (now : Time) (dstart repeat : string)
  (date : Time) (dl : string) (rest : list string) (s : string) :
  time_Parse dstart = Some date ->
  strings_Split repeat " " = "m" :: dl :: rest ->
  NextDate fuel now dstart repeat = Done s ->
  exists ds monthFlags d,
    mRuleFlags dl rest ds monthFlags
    /\ mLoop fuel now ds monthFlags date = Some d /\ s = Time_Format d.
Proof.
  intros P Sp E. rewrite (NextDate_m fuel now _ _ _ _ _ P Sp) in E.
  unfold mRuleFlags.
  destruct (mParseDays _ _) as [e|ds]; [discriminate|].
  destruct (match rest with [ml] => _ | _ => _ end) as [e|mf]; [discriminate|].
  destruct (mLoop fuel now ds mf date) as [d|] eqn:L; [|discriminate].
  injection E as <-. exists ds, mf, d.
  split; [split; reflexivity|]. split; [assumption|reflexivity].
Qed.

(** The date parts of a midnight whose day is a civil date. *)
Lemma Time_Date_civil (y m d : Z) :
  1 <= m <= 12 -> 1 <= d <= daysIn m y ->
  Time_Date (midnight (civilDays y m d - unixEpochDays)) = (y, m, d).
Proof.
  intros Hm Hd. rewrite Time_Date_midnight.
  replace (civilDays y m d - unixEpochDays + unixEpochDays)
    with (civilDays y m d) by lia.
  apply absDate_civilDays; assumption.
Qed.

(** The loop of [m] from a midnight returns when the rule is feasible:
    the first later day that passes the test and is after [now]. *)
Lemma mLoop_spec (now : Time) (ds : DaySpec) (monthFlags : list bool) (n : Z) :
  feasible ds monthFlags ->
  exists k : nat, (1 <= k)%nat
    /\ (forall fuel, (k <= fuel)%nat ->
          mLoop fuel now ds monthFlags (midnight n)
          = Some (midnight (n + Z.of_nat k)))
    /\ mMatch ds monthFlags (midnight (n + Z.of_nat k)) = true
    /\ Time_After (midnight (n + Z.of_nat k)) now = true
    /\ (forall j, (1 <= j < k)%nat ->
          mMatch ds monthFlags (midnight (n + Z.of_nat j))
          && Time_After (midnight (n + Z.of_nat j)) now = false).
Proof.
  intros (M & D & HM & FM & Hday).
  set (B := Z.max 1 (Z.max n (utcDayOf now) + unixEpochDays + 1)).
  set (Y := 400 * B).
  assert (LY : isLeap Y = true).
  { unfold isLeap, Y.
    replace ((400 * B) mod 4) with 0 by div_lia.
    replace ((400 * B) mod 400) with 0 by div_lia.
    cbn. apply orb_true_r. }
  pose proof (daysIn_bounds M Y HM) as DB.
  pose proof (daysIn_leap_max M Y LY) as DM.
  assert (Ex : exists D', 1 <= D' <= daysIn M Y
            /\ (flagAt (dayFlags ds) D' = true
                \/ (hasMinus1 ds = true /\ D' = daysIn M Y)
                \/ (hasMinus2 ds = true /\ D' = daysIn M Y - 1))).
  { destruct Hday as [H1|[H2|(HD & FD)]].
    - exists (daysIn M Y). split; [lia|]. right. left. split; [assumption|reflexivity].
    - exists (daysIn M Y - 1). split; [lia|]. right. right.
      split; [assumption|reflexivity].
    - exists D. split; [lia|]. left. assumption. }
  destruct Ex as (D' & HD' & Hmatch).
  set (N := civilDays Y M D' - unixEpochDays).
  assert (HN : Z.max n (utcDayOf now) < N).
  { pose proof (civilDays_range Y M D' HM HD') as [R _].
    pose proof (daysSinceEpoch_lower Y ltac:(unfold Y; lia)).
    unfold N, Y in *. lia. }
  assert (ED : Time_Date (midnight N) = (Y, M, D'))
    by (apply Time_Date_civil; assumption).
  destruct (forLoop_total (addDays 1)
              (fun d => mMatch ds monthFlags d && Time_After d now)
              (midnight n) (Z.to_nat (N - n))) as (k & Hk & St & Hmin & Run).
  - lia.
  - rewrite iter_addDays. rewrite Z2Nat.id by lia.
    replace (n + (N - n) * 1) with N by lia.
    rewrite Time_After_midnight_late by lia. rewrite andb_true_r.
    apply mMatch_spec. unfold Time_Month, Time_Day, Time_Year.
    rewrite ED. cbn [fst snd]. rewrite lastDayOf_daysIn by assumption.
    split; assumption.
  - exists k. rewrite iter_addDays, Z.mul_1_r in St.
    apply andb_true_iff in St. destruct St as [St1 St2].
    repeat split; try assumption; try lia.
    + intros fuel Hf. rewrite mLoop_forLoop, Run by assumption.
      rewrite iter_addDays, Z.mul_1_r. reflexivity.
    + intros j Hj. specialize (Hmin j Hj).
      rewrite iter_addDays, Z.mul_1_r in Hmin. assumption.
Qed.

(** A date that passes the test of the loop of [m] shows the rule
    feasible. *)
Lemma mMatch_feasible (ds : DaySpec) (monthFlags : list bool) (date : Time) :
  mMatch ds monthFlags date = true -> feasible ds monthFlags.
Proof.
  intros H. apply mMatch_spec in H. destruct H as (FM & Hday).
  destruct (Time_Date date) as [[y m] d] eqn:E.
  pose proof (Time_Date_spec _ _ _ _ E) as (Hm & Hd & _).
  unfold Time_Month, Time_Day, Time_Year in *. rewrite E in *. cbn [fst snd] in *.
  exists m, d. split; [assumption|]. split; [assumption|].
  destruct Hday as [H|[[H _]|[H _]]]; [|left; assumption|right; left; assumption].
  right. right. split; [|assumption].
  pose proof (daysIn_le_max m y Hm). lia.
Qed.

(** What the loop of [m] returns, when it does. *)
Lemma mLoop_sound (fuel : nat) (now : Time) (ds : DaySpec)
  (monthFlags : list bool) (n : Z) (d : Time) :
  mLoop fuel now ds monthFlags (midnight n) = Some d ->
  exists k : nat, (1 <= k <= fuel)%nat /\ d = midnight (n + Z.of_nat k)
    /\ mMatch ds monthFlags d = true /\ Time_After d now = true.
Proof.
  rewrite mLoop_forLoop. intros E. apply forLoop_sound in E.
  destruct E as (k & Hk & -> & St & _).
  rewrite iter_addDays, Z.mul_1_r in *.
  apply andb_true_iff in St. destruct St as [St1 St2].
  exists k. repeat split; try assumption; lia.
Qed.

(** The test of the loop of [m], read off the rule text. *)
Lemma mMatch_onMonthlyRule (dl : string) (rest : list string)
  (ds : DaySpec) (mf : list bool) (d : Time) :
  mRuleFlags dl rest ds mf ->
  mMatch ds mf d = true <-> onMonthlyRule dl rest d.
Proof.
  intros RF.
  destruct (mRuleFlags_listed _ _ _ _ RF) as (Fd & F1 & F2 & Fm).
  destruct (Time_Date d) as [[y m] dd] eqn:E3.
  pose proof (Time_Date_spec _ _ _ _ E3) as (Hm & Hd & _).
  rewrite mMatch_spec. unfold onMonthlyRule, Time_Month, Time_Day, Time_Year.
  rewrite E3. cbn [fst snd].
  rewrite (Fm m Hm), (Fd dd ltac:(lia)), F1, F2. reflexivity.
Qed.

(** What the loop of [m] returns is its first candidate that passes the
    test and is after [now]. *)
Lemma mLoop_first (fuel : nat) (now : Time) (ds : DaySpec)
  (monthFlags : list bool) (n : Z) (d : Time) :
  mLoop fuel now ds monthFlags (midnight n) = Some d ->
  exists k : nat, (1 <= k <= fuel)%nat /\ d = midnight (n + Z.of_nat k)
    /\ mMatch ds monthFlags d = true /\ Time_After d now = true
    /\ forall j, (1 <= j < k)%nat ->
         mMatch ds monthFlags (midnight (n + Z.of_nat j)) = true ->
         Time_After (midnight (n + Z.of_nat j)) now = false.
Proof.
  rewrite mLoop_forLoop. intros E. apply forLoop_sound in E.
  destruct E as (k & Hk & -> & St & Least).
  rewrite iter_addDays, Z.mul_1_r in *.
  apply andb_true_iff in St. destruct St as [St1 St2].
  exists k. repeat split; try assumption; try lia.
  intros j Hj Mj. specialize (Least j Hj).
  rewrite iter_addDays, Z.mul_1_r, Mj in Least. exact Least.
Qed.

(** C8: for a rule [m], whatever [NextDate] returns is the text of the day
    [d] reached [k >= 1] days after the start, and that day is strictly
    after the instant [now]; its month is one of the month list when the
    rule has one (any month otherwise); its day of the month is one of the
    day list, or the last day of its month when [-1] is listed, or the day
    before the last when [-2] is listed; the last day is the length of the
    month, 29 in a leap February and 28 in any other; and it is the first
    day after the start that is on the rule and after [now].  And
    [NextDate] does return such a day when the lists are well formed and
    some listed day exists in some allowed month (or [-1] or [-2] is
    listed). *)
Theorem NextDate_monthly_result_matches_rule
  (now : Time) (dstart repeat : string) (date : Time)
  (dl : string) (rest : list string) :
  time_Parse dstart = Some date ->
  strings_Split repeat " " = "m" :: dl :: rest ->
  (forall fuel s, NextDate fuel now dstart repeat = Done s ->
     exists (k : nat) (d : Time),
       (1 <= k <= fuel)%nat
       /\ d = addDays (Z.of_nat k) date
       /\ s = Time_Format d
       /\ Time_After d now = true
       /\ onMonthlyRule dl rest d
       /\ 1 <= Time_Month d <= 12
       /\ lastDayOf (Time_Year d) (Time_Month d)
          = daysIn (Time_Month d) (Time_Year d)
       /\ (Time_Month d = 2 ->
           lastDayOf (Time_Year d) (Time_Month d)
           = if isLeap (Time_Year d) then 29 else 28)
       /\ (forall j, (1 <= j < k)%nat ->
             onMonthlyRule dl rest (addDays (Z.of_nat j) date) ->
             Time_After (addDays (Z.of_nat j) date) now = false))
  /\ (Forall isMonthDay (strings_Split dl ",") ->
      (forall ml, rest = [ml] -> Forall (inRange 12) (strings_Split ml ",")) ->
      (listed dl (-1) \/ listed dl (-2)
       \/ exists D M, listed dl D /\ 1 <= D <= maxDaysIn M
                      /\ 1 <= M <= 12 /\ forall ml, rest = [ml] -> listed ml M) ->
      exists (k : nat) (d : Time), (1 <= k)%nat
        /\ d = addDays (Z.of_nat k) date
        /\ (forall fuel, (k <= fuel)%nat ->
              NextDate fuel now dstart repeat = Done (Time_Format d))
        /\ Time_After d now = true
        /\ onMonthlyRule dl rest d
        /\ (forall j, (1 <= j < k)%nat ->
              onMonthlyRule dl rest (addDays (Z.of_nat j) date) ->
              Time_After (addDays (Z.of_nat j) date) now = false)).
Proof.
  intros P Sp.
  pose proof (time_Parse_midnight _ _ P) as M0.
  set (n := dayOf date) in *.
  assert (Add : forall j, addDays (Z.of_nat j) date = midnight (n + Z.of_nat j))
    by (intro j; unfold addDays; rewrite M0; apply AddDate_days_midnight).
  split.
  - intros fuel s E.
    destruct (NextDate_m_Done _ _ _ _ _ _ _ _ P Sp E) as (ds & mf & d & RF & L & ->).
    rewrite M0 in L. apply mLoop_first in L.
    destruct L as (k & Hk & Ed & Mt & Af & Least).
    exists k, d. rewrite !Add.
    pose proof (proj1 (mMatch_onMonthlyRule dl rest ds mf d RF) Mt) as On.
    destruct (Time_Date d) as [[y m] dd] eqn:E3.
    pose proof (Time_Date_spec _ _ _ _ E3) as (Hm & Hd & _).
    split; [assumption|]. split; [assumption|]. split; [reflexivity|].
    split; [assumption|]. split; [assumption|].
    unfold Time_Month, Time_Year. rewrite E3. cbn [fst snd].
    split; [assumption|]. split; [apply lastDayOf_daysIn; assumption|].
    split; [intros ->; apply lastDayOf_February|].
    intros j Hj Oj. rewrite Add in *. apply Least; [assumption|].
    apply (mMatch_onMonthlyRule dl rest ds mf _ RF). assumption.
  - intros Hd Hm Hf.
    destruct (mRuleFlags_total dl rest Hd Hm) as (ds & mf & RF).
    destruct (mRuleFlags_listed _ _ _ _ RF) as (Fd & F1 & F2 & Fm).
    assert (Month : exists M, 1 <= M <= 12 /\ flagAt mf M = true).
    { destruct Hf as [H|[H|(D & M & _ & _ & HM & HMl)]].
      3: { exists M. split; [assumption|]. apply Fm; assumption. }
      all: destruct rest as [|ml [|x rest]];
        try (exists 1; split; [lia|]; apply Fm; [lia|];
             intros ml' E'; discriminate).
      all: pose proof (Split_not_nil ml ",") as NN;
        specialize (Hm ml eq_refl);
        destruct (strings_Split ml ",") as [|w l] eqn:El; [contradiction|];
        destruct (Forall_inv Hm) as (M & A & R); exists M;
        (split; [assumption|]); apply Fm; [assumption|];
        intros ml' E'; injection E' as <-; exists w; rewrite El;
        (split; [left; reflexivity|assumption]). }
    assert (Feas : feasible ds mf).
    { destruct Hf as [H|[H|(D & M & HD & HDr & HM & HMl)]].
      - destruct Month as (M & HM & FM). exists M, 1.
        split; [assumption|]. split; [assumption|]. left. apply F1. assumption.
      - destruct Month as (M & HM & FM). exists M, 1.
        split; [assumption|]. split; [assumption|]. right. left.
        apply F2. assumption.
      - exists M, D. split; [assumption|]. split; [apply Fm; assumption|].
        right. right. split; [assumption|]. apply Fd; [lia|assumption]. }
    destruct (mLoop_spec now ds mf n Feas) as (k & Hk & Run & Mt & Af & Least).
    exists k, (addDays (Z.of_nat k) date). rewrite !Add.
    split; [assumption|]. split; [reflexivity|]. split; [|split; [|split]].
    + intros fuel Hfuel.
      rewrite (NextDate_m_flags fuel now _ _ _ _ _ _ _ P Sp RF).
      rewrite M0, Run by assumption. reflexivity.
    + assumption.
    + apply (mMatch_onMonthlyRule dl rest ds mf _ RF). assumption.
    + intros j Hj Oj. rewrite Add in *. specialize (Least j Hj).
      apply (mMatch_onMonthlyRule dl rest ds mf _ RF) in Oj.
      rewrite Oj in Least. exact Least.
Qed.

(** The rule [m -1] from 2024-02-01 seen on 2024-02-10 gives the leap day
    2024-02-29, 28 days after the start. *)
Lemma NextDate_monthly_result_matches_rule_witness :
  exists (k : nat) (d : Time),
    (1 <= k <= 28)%nat
    /\ d = addDays (Z.of_nat k) (midnight 19754)
    /\ "20240229" = Time_Format d
    /\ Time_After d (time_Date 2024 2 10 0 0 0 0 0) = true
    /\ onMonthlyRule "-1" [] d
    /\ 1 <= Time_Month d <= 12
    /\ lastDayOf (Time_Year d) (Time_Month d)
       = daysIn (Time_Month d) (Time_Year d)
    /\ (Time_Month d = 2 ->
        lastDayOf (Time_Year d) (Time_Month d)
        = if isLeap (Time_Year d) then 29 else 28)
    /\ (forall j, (1 <= j < k)%nat ->
          onMonthlyRule "-1" [] (addDays (Z.of_nat j) (midnight 19754)) ->
          Time_After (addDays (Z.of_nat j) (midnight 19754))
                     (time_Date 2024 2 10 0 0 0 0 0) = false).
Proof.
  apply (proj1 (NextDate_monthly_result_matches_rule
                  (time_Date 2024 2 10 0 0 0 0 0) "20240201" "m -1"
                  (midnight 19754) "-1" [] eq_refl eq_refl) 28%nat "20240229").
  vm_compute. reflexivity.
Defined.

(** The loop of [m] never returns when the rule is not feasible. *)
Lemma mLoop_infeasible (fuel : nat) (now : Time) (ds : DaySpec)
  (monthFlags : list bool) (n : Z) :
  ~ feasible ds monthFlags ->
  mLoop fuel now ds monthFlags (midnight n) = None.
Proof.
  intros NF. destruct (mLoop fuel now ds monthFlags (midnight n)) as [d|] eqn:E;
    [|reflexivity].
  apply mLoop_sound in E. destruct E as (_ & _ & _ & Mt & _).
  apply mMatch_feasible in Mt. contradiction.
Qed.

(** C2, at the failing input: the validator accepts the rule [m 31 2], the
    start date parses, and [NextDate] then never returns, whatever the
    fuel: no February has a day 31. *)
Theorem NextDate_monthly_31_february_never_returns :
  checkRepeat "m 31 2" = None
  /\ time_Parse "20250101" = Some (midnight 20089)
  /\ forall fuel now, NextDate fuel now "20250101" "m 31 2" = Timeout.
Proof.
  split; [reflexivity|]. split; [reflexivity|]. intros fuel now.
  rewrite (NextDate_m_flags fuel now "20250101" "m 31 2" (midnight 20089)
             "31" ["2"] (mkDaySpec (setFlag (falses 32) 31) false false)
             (setFlag (falses 13) 2));
    [|reflexivity|reflexivity|split; reflexivity].
  rewrite mLoop_infeasible; [reflexivity|].
  intros (m & d & Hm & FM & [H|[H|(Hd & FD)]]); try discriminate.
  cbn [dayFlags] in FD.
  rewrite flagAt_setFlag, flagAt_falses in FM by (cbn; lia).
  rewrite flagAt_setFlag, flagAt_falses in FD by (cbn; lia).
  rewrite orb_false_r in *. apply Z.eqb_eq in FM, FD. subst m d.
  revert Hd. unfold maxDaysIn, daysIn. eval_daysBefore. vm_compute. intros [_ H].
  apply H. reflexivity.
Qed.

(* ================================================================== *)
(** * Errors of [NextDate] *)
(* ================================================================== *)

(** C9: [NextDate] fails with [EmptyRule] on the empty rule, whatever the
    start; with [InvalidStartDate] on any other rule when the start does
    not parse; with [InvalidRuleParameter] on a rule [d n] whose [n] is
    outside 1..400; and with [UnsupportedRuleKind] when the first part of
    the rule is none of [d], [y], [w], [m]. *)
Theorem NextDate_errors :
  (forall fuel now dstart, failsWith (NextDate fuel now dstart "") EmptyRule)
  /\ (forall fuel now dstart repeat,
        repeat <> "" -> time_Parse dstart = None ->
        failsWith (NextDate fuel now dstart repeat) InvalidStartDate)
  /\ (forall fuel now dstart repeat date ns rest days,
        time_Parse dstart = Some date ->
        strings_Split repeat " " = "d" :: ns :: rest ->
        strconv_Atoi ns = Some days -> days < 1 \/ 400 < days ->
        failsWith (NextDate fuel now dstart repeat) InvalidRuleParameter)
  /\ (forall fuel now dstart repeat date,
        repeat <> "" -> time_Parse dstart = Some date ->
        ~ In (nth 0 (strings_Split repeat " ") "") ["d"; "y"; "w"; "m"] ->
        failsWith (NextDate fuel now dstart repeat) UnsupportedRuleKind).
Proof.
  split; [|split; [|split]].
  - intros fuel now dstart. exists ErrEmptyRepeat. split; reflexivity.
  - intros fuel now dstart repeat Hne P. exists ErrStartDate.
    split; [|reflexivity]. unfold NextDate.
    destruct (String.eqb_spec repeat ""); [contradiction|].
    rewrite P. reflexivity.
  - intros fuel now dstart repeat date ns rest days P Sp A R.
    exists ErrDRange. split; [|reflexivity]. unfold NextDate.
    rewrite (Split_two_nonempty _ _ _ _ Sp), P, Sp, length_ge_2.
    cbn [nth String.eqb Ascii.eqb Bool.eqb]. rewrite A.
    destruct (Z.leb_spec days 0), (Z.ltb_spec 400 days); try reflexivity; lia.
  - intros fuel now dstart repeat date Hne P Hnot.
    exists ErrUnsupported. split; [|reflexivity]. unfold NextDate.
    destruct (String.eqb_spec repeat ""); [contradiction|].
    rewrite P. cbv zeta.
    repeat match goal with
    | |- context [String.eqb ?a ?b] =>
        destruct (String.eqb_spec a b) as [Heq|_];
        [exfalso; apply Hnot; rewrite Heq; cbn [In]; tauto|]
    end.
    reflexivity.
Qed.

(** The four scenarios of the specification. *)
Lemma NextDate_errors_witness :
  failsWith (NextDate 10 (midnight 20157) "20250101" "") EmptyRule
  /\ failsWith (NextDate 10 (midnight 20157) "bad-date" "d 1") InvalidStartDate
  /\ failsWith (NextDate 10 (midnight 20157) "20250101" "d 500")
       InvalidRuleParameter
  /\ failsWith (NextDate 10 (midnight 20157) "20250101" "x 1")
       UnsupportedRuleKind.
Proof.
  destruct NextDate_errors as (E1 & E2 & E3 & E4).
  split; [|split; [|split]].
  - apply E1.
  - apply E2; [discriminate|reflexivity].
  - apply (E3 _ _ _ _ (midnight 20089) "500" [] 500); try reflexivity. lia.
  - apply (E4 _ _ _ _ (midnight 20089)); [discriminate|reflexivity|].
    cbn. intros [H|[H|[H|[H|[]]]]]; discriminate.
Defined.

(* ================================================================== *)
(** * The result is later than the start *)
(* ================================================================== *)

(** A result of [NextDate] is what one of the four loops returned. *)
Lemma NextDate_Done_loop (fuel : nat) (now : Time) (dstart repeat s : string) :
  NextDate fuel now dstart repeat = Done s ->
  exists date d, time_Parse dstart = Some date /\ s = Time_Format d
    /\ ((exists days, 1 <= days <= 400 /\ dLoop fuel now days date = Some d)
        \/ yLoop fuel now date = Some d
        \/ (exists weekdays, wLoop fuel now weekdays date = Some d)
        \/ (exists ds monthFlags, mLoop fuel now ds monthFlags date = Some d)).
Proof.
  unfold NextDate. destruct (String.eqb repeat ""); [discriminate|].
  destruct (time_Parse dstart) as [date|]; [|discriminate]. cbv zeta.
  assert (Of : forall r, ofLoop r = Done s ->
                 exists d, r = Some d /\ s = Time_Format d).
  { intros [d|] E; [|discriminate]. injection E as <-. exists d.
    split; reflexivity. }
  destruct (String.eqb _ "d").
  { destruct (_ <? 2); [discriminate|].
    destruct (strconv_Atoi _) as [days|]; [|discriminate].
    destruct (Z.leb_spec days 0); [discriminate|].
    destruct (Z.ltb_spec 400 days); [discriminate|]. cbn [orb].
    intros E. apply Of in E. destruct E as (d & L & ->).
    exists date, d. split; [reflexivity|]. split; [reflexivity|].
    left. exists days. split; [lia|assumption]. }
  destruct (String.eqb _ "y").
  { intros E. apply Of in E. destruct E as (d & L & ->).
    exists date, d. split; [reflexivity|]. split; [reflexivity|].
    right. left. assumption. }
  destruct (String.eqb _ "w").
  { destruct (_ <? 2); [discriminate|].
    destruct (wParse _ _) as [e|weekdays]; [discriminate|].
    intros E. apply Of in E. destruct E as (d & L & ->).
    exists date, d. split; [reflexivity|]. split; [reflexivity|].
    right. right. left. exists weekdays. assumption. }
  destruct (String.eqb _ "m"); [|discriminate].
  destruct (_ <? 2); [discriminate|].
  destruct (mParseDays _ _) as [e|ds]; [discriminate|].
  destruct (if _ =? 3 then _ else _) as [e|mf]; [discriminate|].
  intros E. apply Of in E. destruct E as (d & L & ->).
  exists date, d. split; [reflexivity|]. split; [reflexivity|].
  right. right. right. exists ds, mf. assumption.
Qed.

(** C10: whenever [NextDate] succeeds, the date it returns lies on a
    calendar day strictly after the parsed start date: every loop steps
    forward before it tests. *)
Theorem NextDate_result_after_start
  (fuel : nat) (now : Time) (dstart repeat s : string) :
  NextDate fuel now dstart repeat = Done s ->
  exists date d, time_Parse dstart = Some date /\ s = Time_Format d
    /\ dayOf date < dayOf d.
Proof.
  intros E. apply NextDate_Done_loop in E.
  destruct E as (date & d & P & -> & L).
  exists date, d. split; [assumption|]. split; [reflexivity|].
  pose proof (time_Parse_midnight _ _ P) as M.
  set (n := dayOf date) in *. rewrite M in L.
  destruct L as [(days & R & L)|[L|[(wd & L)|(ds & mf & L)]]].
  - rewrite dLoop_forLoop in L. apply forLoop_sound in L.
    destruct L as (k & Hk & -> & _). rewrite iter_addDays, dayOf_midnight. nia.
  - rewrite yLoop_forLoop in L. apply forLoop_sound in L.
    destruct L as (k & Hk & -> & _).
    destruct (iter_addYear k n) as (n' & -> & B). rewrite dayOf_midnight. lia.
  - rewrite wLoop_forLoop in L. apply forLoop_sound in L.
    destruct L as (k & Hk & -> & _). rewrite iter_addDays, dayOf_midnight. lia.
  - rewrite mLoop_forLoop in L. apply forLoop_sound in L.
    destruct L as (k & Hk & -> & _). rewrite iter_addDays, dayOf_midnight. lia.
Qed.

(** The scenario of the specification: [d 7] from 2025-03-01 seen on
    2025-03-10 gives 2025-03-15. *)
Lemma NextDate_result_after_start_witness :
  exists date d, time_Parse "20250301" = Some date /\ "20250315" = Time_Format d
    /\ dayOf date < dayOf d.
Proof.
  apply (NextDate_result_after_start 2 (time_Date 2025 3 10 0 0 0 0 0)
           "20250301" "d 7" "20250315").
  reflexivity.
Defined.

(* ================================================================== *)
(** * The validator *)
(* ================================================================== *)

(** The day list of a rule [m] passes [checkRepeat] exactly when every
    element is -2, -1 or 1..31. *)
Lemma checkMonthDays_spec (l : list string) :
  checkMonthDays l = true <-> Forall isMonthDay l.
Proof.
  induction l as [|w l IH]; cbn [checkMonthDays].
  - split; [constructor|reflexivity].
  - destruct (strconv_Atoi w) as [n|] eqn:A.
    + destruct (Z.ltb_spec n (-2)), (Z.ltb_spec 31 n), (Z.eqb_spec n 0);
        cbn [orb].
      all: try (split; [discriminate|];
                intros H'; apply Forall_inv in H'; destruct H' as (n' & A' & R');
                rewrite A in A'; injection A' as <-; lia).
      rewrite IH. split.
      * intros H'. constructor; [exists n; split; [assumption|lia]|assumption].
      * intros H'. apply Forall_inv_tail in H'. assumption.
    + split; [discriminate|].
      intros H'. apply Forall_inv in H'. destruct H' as (n' & A' & _).
      congruence.
Qed.

(** [checkRepeat] accepts a two-part rule [d n] for every [n >= 1]: there
    is no upper bound. *)
Lemma checkRepeat_d_any_positive (repeat ns : string) (n : Z) :
  repeat <> "" -> strings_Fields repeat = ["d"; ns] ->
  strconv_Atoi ns = Some n -> 1 <= n -> checkRepeat repeat = None.
Proof.
  intros Hne F A Hn. unfold checkRepeat.
  destruct (String.eqb_spec repeat ""); [contradiction|].
  rewrite F. cbn. rewrite A.
  destruct (Z.leb_spec n 0); [lia|reflexivity].
Qed.

(** [checkRepeat] judges a rule [m] by its day list alone, whatever
    follows it. *)
Lemma checkRepeat_m_day_list_only (repeat dl : string) (rest : list string) :
  repeat <> "" -> strings_Fields repeat = "m" :: dl :: rest ->
  checkRepeat repeat
  = if checkMonthDays (strings_Split dl ",") then None else Some ErrMonthDay.
Proof.
  intros Hne F. unfold checkRepeat.
  destruct (String.eqb_spec repeat ""); [contradiction|].
  rewrite F. cbn [List.length nth String.eqb Ascii.eqb Bool.eqb].
  destruct (Z.ltb_spec (Z.of_nat (S (S (List.length rest)))) 1); [lia|].
  destruct (Z.ltb_spec (Z.of_nat (S (S (List.length rest)))) 2); [lia|].
  reflexivity.
Qed.

(** C4, at the failing input: [checkRepeat] accepts [d 500] (it tests only
    [num <= 0]), although its comment gives the range 1..400 and [NextDate]
    refuses the same rule; the other demands on a rule [d] hold ([d 0],
    [d x], [d 1 2] and [d] are refused, [d 400] is accepted). *)
Theorem checkRepeat_accepts_d_500 :
  checkRepeat "d 500" = None
  /\ (forall fuel now, NextDate fuel now "20250101" "d 500" = Fail ErrDRange)
  /\ checkRepeat "d 400" = None
  /\ checkRepeat "d 0" = Some ErrNumber
  /\ checkRepeat "d x" = Some ErrNumber
  /\ checkRepeat "d 1 2" = Some ErrFormatD
  /\ checkRepeat "d" = Some ErrFormatD.
Proof. repeat split. Qed.

(** C5, at the failing input: [checkRepeat] never looks at the month list
    of a rule [m], so it accepts [m 1 13], [m 1 0] and [m 1 x], which
    [NextDate] refuses; the day list is checked (-2, -1 or 1..31, never 0). *)
Theorem checkRepeat_accepts_month_13 :
  checkRepeat "m 1 13" = None
  /\ checkRepeat "m 1 0" = None
  /\ checkRepeat "m 1 x" = None
  /\ (forall fuel now, NextDate fuel now "20250101" "m 1 13" = Fail ErrMMonth)
  /\ checkRepeat "m 0" = Some ErrMonthDay
  /\ checkRepeat "m 32" = Some ErrMonthDay
  /\ checkRepeat "m -3" = Some ErrMonthDay
  /\ checkRepeat "m -2,-1,1,31" = None.
Proof. repeat split. Qed.

(* ================================================================== *)
(** * Rules *)
(* ================================================================== *)

Lemma isoWeekday_range (t : Time) : 1 <= isoWeekday t <= 7.
Proof.
  unfold isoWeekday.
  assert (0 <= Time_Weekday t <= 6)
    by (unfold Time_Weekday, secondsPerDay; div_lia).
  destruct (Z.eqb_spec (Time_Weekday t) 0); lia.
Qed.

(** A call that succeeds has read a rule whose loop returns from every
    start, and any call with that rule string runs that rule's loop. *)
Lemma NextDate_rule (fuel : nat) (now : Time) (dstart repeat s : string) :
  NextDate fuel now dstart repeat = Done s ->
  exists rule date d,
    time_Parse dstart = Some date
    /\ runRule fuel now rule date = Some d /\ s = Time_Format d
    /\ ruleReturns rule
    /\ ruleKind rule = nth 0 (strings_Split repeat " ") ""
    /\ forall fuel' dstart' date',
         time_Parse dstart' = Some date' ->
         NextDate fuel' now dstart' repeat
         = ofLoop (runRule fuel' now rule date').
Proof.
  unfold NextDate. destruct (String.eqb repeat "") eqn:E0; [discriminate|].
  destruct (time_Parse dstart) as [date|]; [|discriminate]. cbv zeta.
  assert (Of : forall r, ofLoop r = Done s ->
                 exists d, r = Some d /\ s = Time_Format d).
  { intros [d|] E; [|discriminate]. injection E as <-. exists d.
    split; reflexivity. }
  destruct (String.eqb _ "d") eqn:Ed.
  { destruct (_ <? 2) eqn:E2; [discriminate|].
    destruct (strconv_Atoi _) as [days|] eqn:A; [|discriminate].
    destruct (Z.leb_spec days 0) as [|R1]; [discriminate|].
    destruct (Z.ltb_spec 400 days) as [|R2]; [discriminate|]. cbn [orb].
    intros E. apply Of in E. destruct E as (d & L & ->).
    exists (Daily days), date, d. repeat split; try assumption; try lia.
    { symmetry. apply String.eqb_eq. assumption. }
    intros fuel' dstart' date' P'. rewrite P'. reflexivity. }
  destruct (String.eqb _ "y") eqn:Ey.
  { intros E. apply Of in E. destruct E as (d & L & ->).
    exists Yearly, date, d. repeat split; try assumption.
    { symmetry. apply String.eqb_eq. assumption. }
    intros fuel' dstart' date' P'. rewrite P'. reflexivity. }
  destruct (String.eqb _ "w") eqn:Ew.
  { destruct (_ <? 2) eqn:E2; [discriminate|].
    destruct (wParse _ _) as [e|weekdays] eqn:W; [discriminate|].
    intros E. apply Of in E. destruct E as (d & L & ->).
    exists (Weekly weekdays), date, d. repeat split; try assumption.
    - cbn [runRule] in L. rewrite wLoop_forLoop in L.
      apply forLoop_sound in L. destruct L as (_ & _ & _ & St & _).
      apply andb_true_iff in St. destruct St as [St _].
      exists (isoWeekday d). split; [apply isoWeekday_range|assumption].
    - symmetry. apply String.eqb_eq. assumption.
    - intros fuel' dstart' date' P'. rewrite P'. reflexivity. }
  destruct (String.eqb _ "m") eqn:Em; [|discriminate].
  destruct (_ <? 2) eqn:E2; [discriminate|].
  destruct (mParseDays _ _) as [e|ds] eqn:D; [discriminate|].
  destruct (if _ =? 3 then _ else _) as [e|mf] eqn:Mo; [discriminate|].
  intros E. apply Of in E. destruct E as (d & L & ->).
  exists (Monthly ds mf), date, d. repeat split; try assumption.
  - cbn [runRule] in L. rewrite mLoop_forLoop in L.
    apply forLoop_sound in L. destruct L as (_ & _ & _ & St & _).
    apply andb_true_iff in St. destruct St as [St _].
    exact (mMatch_feasible _ _ _ St).
  - symmetry. apply String.eqb_eq. assumption.
  - intros fuel' dstart' date' P'. rewrite P'. reflexivity.
Qed.

(** Such a loop returns from every midnight, given the fuel. *)
Lemma runRule_returns (now : Time) (rule : Rule) (n : Z) :
  ruleReturns rule ->
  exists (k : nat) (d : Time),
    forall fuel, (k <= fuel)%nat -> runRule fuel now rule (midnight n) = Some d.
Proof.
  destruct rule as [days| |weekdays|ds mf]; cbn [ruleReturns runRule].
  - intros R. destruct (dLoop_spec now days n) as (k & _ & Run & _); [lia|].
    exists k. eexists. exact Run.
  - intros _. destruct (yLoop_spec now n) as (k & _ & Run & _).
    exists k. eexists. exact Run.
  - intros (i & Hi & Fi).
    destruct (wLoop_spec now weekdays n i Hi Fi) as (k & _ & Run & _).
    exists k. eexists. exact Run.
  - intros F. destruct (mLoop_spec now ds mf n F) as (k & _ & Run & _).
    exists k. eexists. exact Run.
Qed.

(** What the loop of such a rule returns is a later midnight; it is on or
    after the day of [now] for the rules [d] and [y], and an instant after
    [now] for the rules [w] and [m]. *)
Lemma runRule_sound (fuel : nat) (now : Time) (rule : Rule) (n : Z) (d : Time) :
  ruleReturns rule ->
  runRule fuel now rule (midnight n) = Some d ->
  exists n', d = midnight n' /\ n < n'
    /\ match rule with
       | Daily _ | Yearly => dayOf now <= n'
       | Weekly _ | Monthly _ _ => Time_After d now = true
       end.
Proof.
  destruct rule as [days| |weekdays|ds mf]; cbn [runRule ruleReturns];
    intros R L.
  - rewrite dLoop_forLoop in L. apply forLoop_sound in L.
    destruct L as (k & Hk & -> & St & _).
    rewrite iter_addDays in *. rewrite afterNow_spec, dayOf_midnight in St.
    apply Z.leb_le in St. eexists. split; [reflexivity|].
    split; [nia|assumption].
  - rewrite yLoop_forLoop in L. apply forLoop_sound in L.
    destruct L as (k & Hk & -> & St & _).
    destruct (iter_addYear k n) as (n' & E & B). rewrite E in *.
    rewrite afterNow_spec, dayOf_midnight in St. apply Z.leb_le in St.
    exists n'. split; [reflexivity|]. split; [lia|assumption].
  - rewrite wLoop_forLoop in L. apply forLoop_sound in L.
    destruct L as (k & Hk & -> & St & _).
    rewrite iter_addDays in *. apply andb_true_iff in St.
    eexists. split; [reflexivity|]. split; [lia|apply St].
  - rewrite mLoop_forLoop in L. apply forLoop_sound in L.
    destruct L as (k & Hk & -> & St & _).
    rewrite iter_addDays in *. apply andb_true_iff in St.
    eexists. split; [reflexivity|]. split; [lia|apply St].
Qed.

(* ================================================================== *)
(** * Formatting, then parsing *)
(* ================================================================== *)

Lemma digitChar_ok (k : Z) :
  0 <= k <= 9 -> isDigit (digitChar k) = true /\ digitVal (digitChar k) = k.
Proof.
  intros Hk.
  assert (H : k = 0 \/ k = 1 \/ k = 2 \/ k = 3 \/ k = 4 \/ k = 5 \/ k = 6
              \/ k = 7 \/ k = 8 \/ k = 9) by lia.
  repeat (destruct H as [H|H]; [subst k; split; reflexivity|]).
  subst k. split; reflexivity.
Qed.

Lemma String_length_append (a b : string) :
  String.length (append a b) = (String.length a + String.length b)%nat.
Proof.
  induction a as [|c a IH]; cbn [append String.length Nat.add]; [reflexivity|].
  rewrite IH. reflexivity.
Qed.

(** Only strings of eight bytes parse. *)
Lemma time_Parse_length (s : string) (t : Time) :
  time_Parse s = Some t -> String.length s = 8%nat.
Proof.
  unfold time_Parse.
  repeat (destruct s as [|? s]; try discriminate). reflexivity.
Qed.

Lemma time_Parse_head (c : ascii) (s : string) :
  isDigit c = false -> time_Parse (String c s) = None.
Proof.
  intros Hc. unfold time_Parse.
  repeat (destruct s as [|? s]; try reflexivity).
  cbn [forallb]. rewrite Hc. reflexivity.
Qed.

Lemma digitsOf_length (fuel : nat) : forall (u : Z) (acc : string),
  (String.length acc <= String.length (digitsOf fuel u acc))%nat.
Proof.
  induction fuel as [|fuel IH]; intros u acc; cbn [digitsOf]; [lia|].
  destruct (u / 10 =? 0); [cbn [String.length]; lia|].
  specialize (IH (u / 10) (String (digitChar (u mod 10)) acc)).
  cbn [String.length] in IH. lia.
Qed.

(** A year of five or more digits is printed with all of them. *)
Lemma appendInt_long (y : Z) :
  10000 <= y -> (5 <= String.length (appendInt y 4))%nat.
Proof.
  intros Hy. unfold appendInt.
  destruct (Z.ltb_spec y 0); [lia|]. rewrite Z.abs_eq by lia.
  change (4 =? 2) with false. cbn [andb]. rewrite Z.eqb_refl. cbn [andb].
  destruct (Z.ltb_spec y 10000); [lia|].
  destruct (Z.eqb_spec y 0); [lia|].
  rewrite !String_length_append. cbn [String.length Nat.add].
  assert (L : 13 <= Z.log2 y).
  { apply Z.log2_le_pow2; [lia|]. change (2 ^ 13) with 8192. lia. }
  destruct (Z.to_nat (Z.log2 y)) as [|[|[|[|f]]]] eqn:F; try lia.
  cbn [digitsOf].
  assert (N1 : y / 10 <> 0) by div_lia.
  assert (N2 : y / 10 / 10 <> 0) by div_lia.
  assert (N3 : y / 10 / 10 / 10 <> 0) by div_lia.
  assert (N4 : y / 10 / 10 / 10 / 10 <> 0) by div_lia.
  apply Z.eqb_neq in N1, N2, N3, N4. rewrite N1, N2, N3, N4.
  match goal with |- context [digitsOf ?f ?u ?acc] =>
    pose proof (digitsOf_length f u acc) as DL end.
  cbn [String.length] in DL.
  destruct (y / 10 / 10 / 10 / 10 / 10 =? 0); [cbn [String.length]|]; lia.
Qed.

(** What [Format] prints from a midnight parses back to that midnight,
    when it parses at all (the year has four digits). *)
Lemma time_Parse_Format (n : Z) (t : Time) :
  time_Parse (Time_Format (midnight n)) = Some t -> t = midnight n.
Proof.
  unfold Time_Format.
  destruct (Time_Date (midnight n)) as [[y m] d] eqn:E.
  apply Time_Date_spec in E. rewrite dayOf_midnight in E.
  destruct E as (Hm & Hd & Ec).
  pose proof (daysIn_bounds m y Hm) as DB.
  assert (Two : forall v, 0 <= v < 100 ->
            appendInt v 2
            = String (digitChar (v / 10)) (String (digitChar (v mod 10)) "")).
  { intros v Hv. unfold appendInt.
    destruct (Z.ltb_spec v 0); [lia|]. rewrite Z.abs_eq by lia.
    rewrite Z.eqb_refl. destruct (Z.ltb_spec v 100); [|lia]. reflexivity. }
  rewrite (Two m), (Two d) by lia.
  destruct (Z.lt_ge_cases y 0) as [Yneg|Ypos].
  { unfold appendInt. destruct (Z.ltb_spec y 0); [|lia].
    cbn [append]. rewrite time_Parse_head by reflexivity. discriminate. }
  destruct (Z.lt_ge_cases y 10000) as [Ysmall|Ybig].
  2: { intros P. apply time_Parse_length in P.
       pose proof (appendInt_long y Ybig) as L.
       rewrite String_length_append in P. cbn [append String.length] in P. lia. }
  unfold appendInt. destruct (Z.ltb_spec y 0); [lia|]. rewrite Z.abs_eq by lia.
  change (4 =? 2) with false. cbn [andb]. rewrite Z.eqb_refl. cbn [andb].
  destruct (Z.ltb_spec y 10000); [|lia]. cbn [append].
  set (a := y / 100 / 10). set (b := (y / 100) mod 10).
  set (c := (y mod 100) / 10). set (e := (y mod 100) mod 10).
  set (m1 := m / 10). set (m2 := m mod 10).
  set (d1 := d / 10). set (d2 := d mod 10).
  destruct (digitChar_ok a ltac:(unfold a; div_lia)) as [Ia Va].
  destruct (digitChar_ok b ltac:(unfold b; div_lia)) as [Ib Vb].
  destruct (digitChar_ok c ltac:(unfold c; div_lia)) as [Ic Vc].
  destruct (digitChar_ok e ltac:(unfold e; div_lia)) as [Ie Ve].
  destruct (digitChar_ok m1 ltac:(unfold m1; div_lia)) as [Im1 Vm1].
  destruct (digitChar_ok m2 ltac:(unfold m2; div_lia)) as [Im2 Vm2].
  destruct (digitChar_ok d1 ltac:(unfold d1; div_lia)) as [Id1 Vd1].
  destruct (digitChar_ok d2 ltac:(unfold d2; div_lia)) as [Id2 Vd2].
  unfold time_Parse. cbn [forallb].
  rewrite Ia, Ib, Ic, Ie, Im1, Im2, Id1, Id2. cbn [andb].
  rewrite Va, Vb, Vc, Ve, Vm1, Vm2, Vd1, Vd2.
  replace (((a * 10 + b) * 10 + c) * 10 + e) with y
    by (unfold a, b, c, e; div_lia).
  replace (m1 * 10 + m2) with m by (unfold m1, m2; div_lia).
  replace (d1 * 10 + d2) with d by (unfold d1, d2; div_lia).
  destruct (Z.leb_spec m 0); [lia|]. destruct (Z.ltb_spec 12 m); [lia|].
  destruct (Z.ltb_spec d 1); [lia|]. destruct (Z.ltb_spec (daysIn m y) d); [lia|].
  cbn [orb]. intros P. injection P as <-.
  rewrite time_Date_midnight by assumption. f_equal. lia.
Qed.

(* ================================================================== *)
(** * The normaliser *)
(* ================================================================== *)

Lemma checkDate_eq (fuel : nat) (now : Time) (task : Task) :
  checkDate fuel now task = checkParsed fuel now (withDefaultDate now task).
Proof. reflexivity. Qed.

Lemma withDefaultDate_parsed (now : Time) (task : Task) (t : Time) :
  time_Parse (Date task) = Some t -> withDefaultDate now task = task.
Proof.
  unfold withDefaultDate. destruct (String.eqb_spec (Date task) "") as [E|];
    [|reflexivity].
  rewrite E. discriminate.
Qed.

Lemma withDefaultDate_Repeat (now : Time) (task : Task) :
  Repeat (withDefaultDate now task) = Repeat task.
Proof. unfold withDefaultDate. destruct (String.eqb _ _); reflexivity. Qed.

(** Midnight of the day of [now], in the location of [now]. *)
Lemma startOfDay_spec (now : Time) :
  startOfDay now
  = mkTime (dayOf now * secondsPerDay - offset now) 0 (offset now).
Proof.
  unfold startOfDay. destruct (Time_Date now) as [[y m] d] eqn:E.
  apply Time_Date_spec in E. destruct E as (Hm & _ & E).
  rewrite time_Date_civil by assumption. f_equal. lia.
Qed.

Lemma startOfDay_le (now : Time) : unix (startOfDay now) <= unix now.
Proof.
  rewrite startOfDay_spec. cbn [unix]. unfold dayOf, Time_abs, secondsPerDay.
  div_lia.
Qed.

(** An instant after [now] is after the start of the day of [now]. *)
Lemma After_startOfDay (n : Z) (now : Time) :
  0 <= nsec now ->
  Time_After (midnight n) now = true ->
  Time_After (midnight n) (startOfDay now) = true.
Proof.
  intros Hns A. pose proof (startOfDay_le now) as Le.
  unfold Time_After in *. cbn [unix nsec midnight] in *.
  apply orb_true_iff in A. apply orb_true_iff. left.
  destruct A as [A|A].
  - apply Z.ltb_lt in A. apply Z.ltb_lt. lia.
  - apply andb_true_iff in A. destruct A as [_ A]. apply Z.ltb_lt in A. lia.
Qed.

(** C3, as the code has it: when [checkDate] has succeeded and the date it
    left parses again, a second [checkDate] with the same [now] succeeds
    and changes nothing, provided the task does not repeat, or that date is
    strictly after the start of the day of [now]; the latter always holds
    for a rule [w] or [m].  (Nothing is promised for a rule [d] or [y]
    whose next date is the day of [now] itself.) *)
Theorem checkDate_twice_keeps_date
  (fuel : nat) (now : Time) (task task1 : Task) (t1 : Time) :
  checkDate fuel now task = (task1, Done tt) ->
  time_Parse (Date task1) = Some t1 ->
  Repeat task = ""
  \/ Time_After t1 (startOfDay now) = true
  \/ (0 <= nsec now
      /\ In (nth 0 (strings_Split (Repeat task) " ") "") ["w"; "m"]) ->
  exists fuel2, forall fuel', (fuel2 <= fuel')%nat ->
    checkDate fuel' now task1 = (task1, Done tt).
Proof.
  intros C P1 H. rewrite checkDate_eq in C.
  pose proof (withDefaultDate_Repeat now task) as R0.
  set (task0 := withDefaultDate now task) in *.
  unfold checkParsed in C.
  destruct (time_Parse (Date task0)) as [t|] eqn:P0; [|discriminate].
  destruct (String.eqb_spec (Repeat task0) "") as [ER|ER]; cbn [negb] in C.
  - (* the task does not repeat *)
    exists 0%nat. intros fuel' _.
    destruct (Time_Before t (startOfDay now)) eqn:B; injection C as <-.
    + rewrite checkDate_eq, (withDefaultDate_parsed _ _ _ P1).
      unfold checkParsed. rewrite P1. cbn [Repeat setDate Date] in *.
      rewrite ER. cbn [String.eqb negb].
      destruct (Time_Before t1 (startOfDay now)); reflexivity.
    + rewrite checkDate_eq, (withDefaultDate_parsed _ _ _ P0).
      unfold checkParsed. rewrite P0, ER. cbn [String.eqb negb].
      rewrite B. reflexivity.
  - (* the task repeats *)
    destruct (NextDate fuel now (Date task0) (Repeat task0)) as [next| |] eqn:N;
      try discriminate.
    apply NextDate_rule in N.
    destruct N as (rule & date & d & Pd & L & -> & RR & Kind & Gen).
    rewrite P0 in Pd. injection Pd as <-.
    pose proof (time_Parse_midnight _ _ P0) as M0.
    pose proof (time_Parse_midnight _ _ P1) as M1.
    destruct (runRule_returns now rule (dayOf t1) RR) as (k & d' & Run).
    assert (Second : forall task', Date task' = Date task1 ->
              Repeat task' = Repeat task0 ->
              Time_After t1 (startOfDay now) = true ->
              forall fuel', (k <= fuel')%nat ->
              checkDate fuel' now task' = (task', Done tt)).
    { intros task' ED ERp A fuel' Hf.
      rewrite <- ED in P1.
      rewrite checkDate_eq, (withDefaultDate_parsed _ _ _ P1).
      unfold checkParsed. rewrite P1, ERp.
      destruct (String.eqb_spec (Repeat task0) ""); [contradiction|].
      cbn [negb]. rewrite (Gen fuel' _ _ P1), M1, Run by assumption.
      cbn [ofLoop]. rewrite <- M1, A. reflexivity. }
    exists k.
    destruct (Time_After t (startOfDay now)) eqn:A; cbn [negb] in C;
      injection C as <-.
    + (* the date was already after today: it stays *)
      rewrite P0 in P1. injection P1 as <-.
      apply Second; [reflexivity|reflexivity|assumption].
    + (* the date was replaced by the next one *)
      cbn [Date setDate] in P1.
      apply Second; [reflexivity|reflexivity|].
      destruct H as [H|[H|(Hns & Hk)]].
      * rewrite <- R0 in H. contradiction.
      * assumption.
      * rewrite M0 in L. apply (runRule_sound _ _ _ _ _ RR) in L.
        destruct L as (n' & -> & _ & Aft).
        apply time_Parse_Format in P1. subst t1.
        rewrite R0 in Kind. rewrite <- Kind in Hk.
        destruct rule; cbn [ruleKind In] in Hk;
          try (exfalso; intuition discriminate).
        all: apply After_startOfDay; assumption.
Qed.

(** A past task with the rule [w 1], seen at 12:30 on Monday 2025-03-10:
    it moves to the next Monday and stays there. *)
Lemma checkDate_twice_keeps_date_witness :
  exists fuel2, forall fuel', (fuel2 <= fuel')%nat ->
    checkDate fuel' (time_Date 2025 3 10 12 30 0 0 0)
      (mkTask "1" "20250317" "title" "" "w 1")
    = (mkTask "1" "20250317" "title" "" "w 1", Done tt).
Proof.
  apply (checkDate_twice_keeps_date 20 (time_Date 2025 3 10 12 30 0 0 0)
           (mkTask "1" "20250301" "title" "" "w 1")
           (mkTask "1" "20250317" "title" "" "w 1") (midnight 20164)).
  - reflexivity.
  - reflexivity.
  - right. right. split; [vm_compute; discriminate|]. left. reflexivity.
Defined.

(** C3 as stated fails: with the rule [d 1] and yesterday's date, the
    first [checkDate] moves the task to today and the second moves it on to
    tomorrow. *)
Lemma checkDate_not_idempotent_daily :
  let now := time_Date 2025 3 10 12 30 0 0 0 in
  let task := mkTask "1" "20250309" "title" "" "d 1" in
  let task1 := mkTask "1" "20250310" "title" "" "d 1" in
  let task2 := mkTask "1" "20250311" "title" "" "d 1" in
  checkDate 1 now task = (task1, Done tt)
  /\ checkDate 1 now task1 = (task2, Done tt)
  /\ Date task2 <> Date task1
  /\ (forall fuel, checkDate fuel now task1 <> (task1, Done tt)).
Proof.
  cbv zeta. split; [reflexivity|]. split; [reflexivity|].
  split; [discriminate|].
  intros [|fuel]; vm_compute; discriminate.
Qed.

(* ================================================================== *)
(** * Scenarios *)
(* ================================================================== *)

(** [d 7] from 2025-03-01 seen on 2025-03-10: 03-08 is too early, 03-15
    is returned. *)
Example scenario_daily :
  NextDate 2 (time_Date 2025 3 10 0 0 0 0 0) "20250301" "d 7" = Done "20250315"
  /\ NextDate 1 (time_Date 2025 3 10 0 0 0 0 0) "20250301" "d 7" = Timeout.
Proof. split; reflexivity. Qed.

(** Sunday 2025-03-09 is weekday 7, Monday 2025-03-10 is 1 and Saturday
    2025-03-15 is 6. *)
Example scenario_weekdays :
  time_Parse "20250309" = Some (midnight 20156)
  /\ Time_Weekday (midnight 20156) = 0 /\ isoWeekday (midnight 20156) = 7
  /\ isoWeekday (midnight 20157) = 1 /\ isoWeekday (midnight 20162) = 6.
Proof. repeat split. Qed.

(** [m -1] in February: the 29th in the leap year 2024, the 28th in 2025
    and in 2100. *)
Example scenario_last_day_of_February :
  NextDate 40 (time_Date 2024 2 1 0 0 0 0 0) "20240201" "m -1" = Done "20240229"
  /\ NextDate 40 (time_Date 2025 2 1 0 0 0 0 0) "20250201" "m -1" = Done "20250228"
  /\ NextDate 40 (time_Date 2100 2 1 0 0 0 0 0) "21000201" "m -1" = Done "21000228"
  /\ NextDate 40 (time_Date 2024 2 1 0 0 0 0 0) "20240201" "m -2" = Done "20240228".
Proof. repeat split. Qed.

(** The month list counts only when the rule has exactly three parts. *)
Example scenario_month_list :
  NextDate 400 (time_Date 2025 3 10 0 0 0 0 0) "20250301" "m 1 2" = Done "20260201"
  /\ NextDate 400 (time_Date 2025 3 10 0 0 0 0 0) "20250301" "m 1 2 3"
     = Done "20250401".
Proof. split; vm_compute; reflexivity. Qed.

(** The validator splits on runs of white space, [NextDate] on single
    spaces. *)
Example scenario_two_spaces :
  checkRepeat "d  7" = None
  /\ NextDate 10 (time_Date 2025 3 10 0 0 0 0 0) "20250301" "d  7" = Fail ErrDParam.
Proof. split; reflexivity. Qed.

(** East of UTC the start of today lies before midnight UTC of today's
    date, so a task moved to today stays there at the second call. *)
Example scenario_east_of_UTC :
  let now := time_Date 2025 3 10 12 30 0 0 3600 in
  checkDate 1 now (mkTask "1" "20250309" "title" "" "d 1")
  = (mkTask "1" "20250310" "title" "" "d 1", Done tt)
  /\ checkDate 1 now (mkTask "1" "20250310" "title" "" "d 1")
     = (mkTask "1" "20250310" "title" "" "d 1", Done tt).
Proof. split; reflexivity. Qed.

(* ================================================================== *)
(** * Further properties: [afterNow] and the time of day *)
(* ================================================================== *)

(** Later dates of the calendar are later days. *)
Lemma civilDays_lt (y m d y' m' d' : Z) :
  1 <= m <= 12 -> 1 <= d <= daysIn m y ->
  1 <= m' <= 12 -> 1 <= d' <= daysIn m' y' ->
  y < y' \/ (y = y' /\ (m < m' \/ (m = m' /\ d < d'))) ->
  civilDays y m d < civilDays y' m' d'.
Proof.
  intros Hm Hd Hm' Hd' [Hy|(<- & Hmd)].
  - pose proof (civilDays_range y m d Hm Hd).
    pose proof (civilDays_range y' m' d' Hm' Hd').
    pose proof (daysSinceEpoch_mono y y' Hy). lia.
  - unfold civilDays. revert Hd Hd'. unfold daysIn.
    destruct Hmd as [Hlt|(<- & Hlt)]; [|lia].
    destruct (isLeap y); month_cases m; month_cases m'; try lia;
      eval_daysBefore; eval_ifs; lia.
Qed.

Lemma civilDays_le_iff (y m d y' m' d' : Z) :
  1 <= m <= 12 -> 1 <= d <= daysIn m y ->
  1 <= m' <= 12 -> 1 <= d' <= daysIn m' y' ->
  civilDays y m d <= civilDays y' m' d' <-> dateLe (y, m, d) (y', m', d').
Proof.
  intros Hm Hd Hm' Hd'. cbn [dateLe]. split.
  - intros Hle.
    destruct (Z.lt_trichotomy y y') as [L|[E|L]]; [left; assumption| |].
    + subst y'. right. split; [reflexivity|].
      destruct (Z.lt_trichotomy m m') as [L|[E|L]]; [left; assumption| |].
      * subst m'. right. split; [reflexivity|].
        destruct (Z.le_gt_cases d d') as [L|L]; [assumption|].
        pose proof (civilDays_lt y m d' y m d Hm Hd' Hm Hd). lia.
      * pose proof (civilDays_lt y m' d' y m d Hm' Hd' Hm Hd). lia.
    + pose proof (civilDays_lt y' m' d' y m d Hm' Hd' Hm Hd). lia.
  - intros [L|(<- & [L|(<- & L)])].
    + pose proof (civilDays_lt y m d y' m' d' Hm Hd Hm' Hd'). lia.
    + pose proof (civilDays_lt y m d y m' d' Hm Hd Hm' Hd'). lia.
    + destruct (Z.eq_dec d d') as [<-|Hne]; [lia|].
      pose proof (civilDays_lt y m d y m d' Hm Hd Hm Hd'). lia.
Qed.

(** X1: [afterNow(date, now)] holds exactly when the year, month and day
    of [date] are on or after those of [now], each taken in the time's own
    location; the time of day plays no part. *)
Theorem afterNow_compares_dates (date now : Time) :
  afterNow date now = true <-> dateLe (Time_Date now) (Time_Date date).
Proof.
  rewrite afterNow_spec, Z.leb_le.
  destruct (Time_Date now) as [[y2 m2] d2] eqn:E2.
  destruct (Time_Date date) as [[y1 m1] d1] eqn:E1.
  apply Time_Date_spec in E1, E2.
  destruct E1 as (Hm1 & Hd1 & C1), E2 as (Hm2 & Hd2 & C2).
  rewrite <- civilDays_le_iff by assumption. lia.
Qed.

(** The loops of [d] and [y] see [now] through its day only. *)
Lemma dLoop_same_day (fuel : nat) (now now' : Time) (days : Z) (date : Time) :
  dayOf now = dayOf now' -> dLoop fuel now days date = dLoop fuel now' days date.
Proof.
  intros E. revert date. induction fuel as [|fuel IH]; intros date; [reflexivity|].
  cbn [dLoop]. rewrite !afterNow_spec, E, IH. reflexivity.
Qed.

Lemma yLoop_same_day (fuel : nat) (now now' : Time) (date : Time) :
  dayOf now = dayOf now' -> yLoop fuel now date = yLoop fuel now' date.
Proof.
  intros E. revert date. induction fuel as [|fuel IH]; intros date; [reflexivity|].
  cbn [yLoop]. rewrite !afterNow_spec, E, IH. reflexivity.
Qed.

(** X2: for a rule whose first part is [d] or [y], [NextDate] depends on
    [now] only through its calendar date: two moments on the same date, at
    any time of day and in any location, give the same outcome. *)
Theorem NextDate_daily_yearly_same_date
  (fuel : nat) (now now' : Time) (dstart repeat : string) :
  Time_Date now = Time_Date now' ->
  In (nth 0 (strings_Split repeat " ") "") ["d"; "y"] ->
  NextDate fuel now dstart repeat = NextDate fuel now' dstart repeat.
Proof.
  intros E K. apply Time_Date_eq_iff in E. unfold NextDate.
  destruct (String.eqb repeat ""); [reflexivity|].
  destruct (time_Parse dstart) as [date|]; [|reflexivity]. cbv zeta.
  destruct (String.eqb _ "d") eqn:Ed.
  { destruct (_ <? 2); [reflexivity|].
    destruct (strconv_Atoi _) as [days|]; [|reflexivity].
    destruct (_ || _); [reflexivity|].
    rewrite (dLoop_same_day fuel now now' days date E). reflexivity. }
  destruct (String.eqb _ "y") eqn:Ey.
  { rewrite (yLoop_same_day fuel now now' date E). reflexivity. }
  exfalso. apply String.eqb_neq in Ed, Ey.
  cbn [In] in K. destruct K as [K|[K|[]]]; congruence.
Qed.

(** The rule [d 3] seen at midnight UTC and at 23:59 in a zone three hours
    east, both on 2025-03-10. *)
Lemma NextDate_daily_yearly_same_date_witness :
  NextDate 5 (time_Date 2025 3 10 0 0 0 0 0) "20250301" "d 3"
  = NextDate 5 (time_Date 2025 3 10 23 59 0 0 10800) "20250301" "d 3".
Proof.
  apply NextDate_daily_yearly_same_date.
  - reflexivity.
  - left. reflexivity.
Defined.

(* ================================================================== *)
(** * Further properties: the parameter checks of [NextDate] *)
(* ================================================================== *)

(** [parseFlags] stops with its own error only. *)
Lemma parseFlags_inl (hi : Z) (err e : NextDateError) (l : list string) :
  forall init, parseFlags hi err l init = inl e -> e = err.
Proof.
  induction l as [|w l IH]; intros init; cbn [parseFlags]; [discriminate|].
  destruct (strconv_Atoi w); [|intros E; congruence].
  destruct (_ || _); [intros E; congruence|]. apply IH.
Qed.

(** A list of flags is read to the end or refused, by what it holds. *)
Lemma parseFlags_cases (hi : Z) (err : NextDateError) (l : list string)
  (init : list bool) :
  hi < Z.of_nat (List.length init) ->
  (Forall (inRange hi) l /\ exists flags, parseFlags hi err l init = inr flags)
  \/ (~ Forall (inRange hi) l /\ parseFlags hi err l init = inl err).
Proof.
  intros Hlen. destruct (parseFlags hi err l init) as [e|flags] eqn:E.
  - right. split.
    + intros Hall. destruct (parseFlags_total hi err l Hall init) as (f & E').
      congruence.
    + rewrite (parseFlags_inl _ _ _ _ _ E). reflexivity.
  - left. apply parseFlags_sound in E; [|assumption].
    split; [apply E|]. exists flags. reflexivity.
Qed.

Lemma mParseDays_inl (l : list string) (e : NextDateError) :
  forall init, mParseDays l init = inl e -> e = ErrMDay \/ e = ErrMDayRange.
Proof.
  induction l as [|w l IH]; intros init; cbn [mParseDays]; [discriminate|].
  destruct (strconv_Atoi w); [|intros E; left; congruence].
  destruct (_ =? -1); [apply IH|]. destruct (_ =? -2); [apply IH|].
  destruct (_ && _); [apply IH|]. intros E. right. congruence.
Qed.

(** X3: [NextDate] refuses the rules [d], [w] and [m] that have no second
    part with a missing-parameter error; it refuses a rule [d n] exactly
    when [n] is not an integer in 1..400, and a rule [w list] exactly when
    some element of the list is not an integer in 1..7.  The refusal comes
    before any date is computed, and is an invalid-parameter error. *)
Theorem NextDate_daily_weekly_parameter_check
  (fuel : nat) (now : Time) (dstart repeat : string) (date : Time) :
  time_Parse dstart = Some date ->
  (In repeat ["d"; "w"; "m"] ->
   failsWith (NextDate fuel now dstart repeat) MissingRuleParameter)
  /\ (forall ns rest, strings_Split repeat " " = "d" :: ns :: rest ->
        ((exists e, NextDate fuel now dstart repeat = Fail e)
         <-> ~ exists n, strconv_Atoi ns = Some n /\ 1 <= n <= 400)
        /\ forall e, NextDate fuel now dstart repeat = Fail e ->
                     errorKind e = InvalidRuleParameter)
  /\ (forall ws rest, strings_Split repeat " " = "w" :: ws :: rest ->
        ((exists e, NextDate fuel now dstart repeat = Fail e)
         <-> ~ Forall (inRange 7) (strings_Split ws ","))
        /\ forall e, NextDate fuel now dstart repeat = Fail e ->
                     errorKind e = InvalidRuleParameter).
Proof.
  intros P. split; [|split].
  - intros [<-|[<-|[<-|[]]]]; unfold NextDate; cbn [String.eqb Ascii.eqb Bool.eqb];
      rewrite P; eexists; split; reflexivity.
  - intros ns rest Sp.
    assert (E : NextDate fuel now dstart repeat
                = match strconv_Atoi ns with
                  | None => Fail ErrDParam
                  | Some days =>
                      if (days <=? 0) || (400 <? days) then Fail ErrDRange
                      else ofLoop (dLoop fuel now days date)
                  end).
    { unfold NextDate.
      rewrite (Split_two_nonempty _ _ _ _ Sp), P, Sp, length_ge_2. reflexivity. }
    rewrite E. destruct (strconv_Atoi ns) as [n|].
    + destruct (Z.leb_spec n 0), (Z.ltb_spec 400 n); cbn [orb].
      1-3: split; [split; [intros _ (n' & A & R); injection A as <-; lia
                          |intros _; eexists; reflexivity]
                  |intros e Ee; injection Ee as <-; reflexivity].
      split; [split|].
      * intros (e & Ee). destruct (dLoop fuel now n date); discriminate.
      * intros N. exfalso. apply N. exists n. split; [reflexivity|lia].
      * intros e Ee. destruct (dLoop fuel now n date); discriminate.
    + split; [split; [intros _ (n' & A & _); discriminate
                     |intros _; eexists; reflexivity]
             |intros e Ee; injection Ee as <-; reflexivity].
  - intros ws rest Sp. rewrite (NextDate_w fuel now _ _ _ _ _ P Sp).
    rewrite wParse_parseFlags.
    destruct (parseFlags_cases 7 ErrWDay (strings_Split ws ",") (falses 8))
      as [(Hall & flags & E)|(Hn & E)]; [cbn; lia| |]; rewrite E.
    + split; [split|].
      * intros (e & Ee). destruct (wLoop _ _ _ _); discriminate.
      * intros N. contradiction.
      * intros e Ee. destruct (wLoop _ _ _ _); discriminate.
    + split; [split; [intros _; assumption|intros _; eexists; reflexivity]|].
      intros e Ee. injection Ee as <-. reflexivity.
Qed.

(** The rule [w 1,8] from a parsed start. *)
Lemma NextDate_daily_weekly_parameter_check_witness :
  ((exists e, NextDate 3 (midnight 20157) "20250301" "w 1,8" = Fail e)
   <-> ~ Forall (inRange 7) (strings_Split "1,8" ","))
  /\ forall e, NextDate 3 (midnight 20157) "20250301" "w 1,8" = Fail e ->
               errorKind e = InvalidRuleParameter.
Proof.
  apply (proj2 (proj2 (NextDate_daily_weekly_parameter_check
                         3 (midnight 20157) "20250301" "w 1,8" (midnight 20148)
                         eq_refl)) "1,8" []).
  reflexivity.
Defined.

(** The day list and the month list of a rule [m], as [NextDate] judges
    them. *)
Lemma mParseDays_cases (l : list string) :
  (Forall isMonthDay l
   /\ exists ds, mParseDays l (mkDaySpec (falses 32) false false) = inr ds)
  \/ (~ Forall isMonthDay l
      /\ exists e, mParseDays l (mkDaySpec (falses 32) false false) = inl e
                   /\ errorKind e = InvalidRuleParameter).
Proof.
  destruct (mParseDays l (mkDaySpec (falses 32) false false)) as [e|ds] eqn:E.
  - right. split.
    + intros Hall. destruct (mParseDays_total l Hall (mkDaySpec (falses 32) false false))
        as (ds & E'). congruence.
    + exists e. split; [reflexivity|].
      destruct (mParseDays_inl _ _ _ E) as [->| ->]; reflexivity.
  - left. apply mParseDays_sound in E; [|reflexivity].
    split; [apply E|]. exists ds. reflexivity.
Qed.

(** X4: [NextDate] refuses a rule [m] exactly when some element of the day
    list is not -1, -2 or an integer in 1..31, or the rule has exactly
    three parts and some element of the third is not an integer in 1..12;
    the error is an invalid-parameter error.  With four or more parts the
    month list is not looked at. *)
Theorem NextDate_monthly_parameter_check
  (fuel : nat) (now : Time) (dstart repeat : string) (date : Time)
  (dl : string) (rest : list string) :
  time_Parse dstart = Some date ->
  strings_Split repeat " " = "m" :: dl :: rest ->
  ((exists e, NextDate fuel now dstart repeat = Fail e)
   <-> ~ Forall isMonthDay (strings_Split dl ",")
       \/ exists ml, rest = [ml] /\ ~ Forall (inRange 12) (strings_Split ml ","))
  /\ forall e, NextDate fuel now dstart repeat = Fail e ->
               errorKind e = InvalidRuleParameter.
Proof.
  intros P Sp. rewrite (NextDate_m fuel now _ _ _ _ _ P Sp).
  destruct (mParseDays_cases (strings_Split dl ","))
    as [(Hall & ds & E)|(Hn & e0 & E & K)]; rewrite E.
  2: { split; [split; [intros _; left; assumption|intros _; eexists; reflexivity]|].
       intros e Ee. injection Ee as <-. assumption. }
  assert (NoFail : forall mf e, ofLoop (mLoop fuel now ds mf date) <> Fail e)
    by (intros mf e; destruct (mLoop _ _ _ _ _); discriminate).
  destruct rest as [|ml [|x rest]].
  - split; [split|].
    + intros (e & Ee). exfalso. exact (NoFail _ _ Ee).
    + intros [N|(ml & Eml & _)]; [contradiction|discriminate].
    + intros e Ee. exfalso. exact (NoFail _ _ Ee).
  - rewrite mParseMonths_parseFlags.
    destruct (parseFlags_cases 12 ErrMMonth (strings_Split ml ",") (falses 13))
      as [(Hm & mf & Em)|(Hn & Em)]; [cbn; lia| |]; rewrite Em.
    + split; [split|].
      * intros (e & Ee). exfalso. exact (NoFail _ _ Ee).
      * intros [N|(ml' & Eml & N)]; [contradiction|].
        injection Eml as <-. contradiction.
      * intros e Ee. exfalso. exact (NoFail _ _ Ee).
    + split; [split|].
      * intros _. right. exists ml. split; [reflexivity|assumption].
      * intros _. eexists. reflexivity.
      * intros e Ee. injection Ee as <-. reflexivity.
  - split; [split|].
    + intros (e & Ee). exfalso. exact (NoFail _ _ Ee).
    + intros [N|(ml' & Eml & _)]; [contradiction|discriminate].
    + intros e Ee. exfalso. exact (NoFail _ _ Ee).
Qed.

(** The rule [m 1 13]: the month 13 is refused. *)
Lemma NextDate_monthly_parameter_check_witness :
  ((exists e, NextDate 3 (midnight 20157) "20250301" "m 1 13" = Fail e)
   <-> ~ Forall isMonthDay (strings_Split "1" ",")
       \/ exists ml, ["13"] = [ml] /\ ~ Forall (inRange 12) (strings_Split ml ","))
  /\ forall e, NextDate 3 (midnight 20157) "20250301" "m 1 13" = Fail e ->
               errorKind e = InvalidRuleParameter.
Proof.
  apply (NextDate_monthly_parameter_check
           3 (midnight 20157) "20250301" "m 1 13" (midnight 20148) "1" ["13"]).
  - reflexivity.
  - reflexivity.
Defined.

(* ================================================================== *)
(** * Further properties: when the loop of [m] returns *)
(* ================================================================== *)

(** Feasibility, read off the rule text. *)
Lemma feasible_listed (dl : string) (rest : list string)
  (ds : DaySpec) (mf : list bool) :
  mRuleFlags dl rest ds mf ->
  (forall ml, rest = [ml] -> Forall (inRange 12) (strings_Split ml ",")) ->
  feasible ds mf <-> mRuleFeasible dl rest.
Proof.
  intros RF Hm.
  destruct (mRuleFlags_listed _ _ _ _ RF) as (Fd & F1 & F2 & Fm).
  assert (Month : exists M, 1 <= M <= 12 /\ flagAt mf M = true).
  { destruct rest as [|ml [|x rest]];
      try (exists 1; split; [lia|]; apply Fm; [lia|];
           intros ml' E'; discriminate).
    pose proof (Split_not_nil ml ",") as NN. specialize (Hm ml eq_refl).
    destruct (strings_Split ml ",") as [|w l] eqn:El; [contradiction|].
    destruct (Forall_inv Hm) as (M & A & R). exists M.
    split; [assumption|]. apply Fm; [assumption|].
    intros ml' E'. injection E' as <-. exists w. rewrite El.
    split; [left; reflexivity|assumption]. }
  unfold feasible, mRuleFeasible. split.
  - intros (m & d & Hmm & FM & [H|[H|(Hd & FD)]]).
    + left. apply F1. assumption.
    + right. left. apply F2. assumption.
    + right. right. exists d, m. split; [apply Fd; [lia|assumption]|].
      split; [assumption|]. split; [assumption|]. apply Fm; assumption.
  - destruct Month as (M & HM & FM).
    intros [H|[H|(D & M' & HD & HDr & HM' & HMl)]].
    + exists M, 1. split; [assumption|]. split; [assumption|].
      left. apply F1. assumption.
    + exists M, 1. split; [assumption|]. split; [assumption|].
      right. left. apply F2. assumption.
    + exists M', D. split; [assumption|]. split; [apply Fm; assumption|].
      right. right. split; [assumption|]. apply Fd; [lia|assumption].
Qed.

(** X5: for a rule [m] with well-formed lists, [NextDate] returns a date,
    given enough fuel, exactly when [-1] or [-2] is listed or some listed
    day exists in some allowed month (February counting 29 days);
    otherwise its loop never ends, whatever the start and [now]. *)
Theorem NextDate_monthly_returns_iff_feasible
  (now : Time) (dstart repeat : string) (date : Time)
  (dl : string) (rest : list string) :
  time_Parse dstart = Some date ->
  strings_Split repeat " " = "m" :: dl :: rest ->
  Forall isMonthDay (strings_Split dl ",") ->
  (forall ml, rest = [ml] -> Forall (inRange 12) (strings_Split ml ",")) ->
  ((exists fuel s, NextDate fuel now dstart repeat = Done s)
   <-> mRuleFeasible dl rest)
  /\ (~ mRuleFeasible dl rest ->
      forall fuel, NextDate fuel now dstart repeat = Timeout).
Proof.
  intros P Sp Hd Hm.
  destruct (mRuleFlags_total dl rest Hd Hm) as (ds & mf & RF).
  pose proof (feasible_listed _ _ _ _ RF Hm) as FL.
  pose proof (time_Parse_midnight _ _ P) as M0.
  assert (E : forall fuel, NextDate fuel now dstart repeat
                           = ofLoop (mLoop fuel now ds mf (midnight (dayOf date)))).
  { intros fuel. rewrite (NextDate_m_flags fuel now _ _ _ _ _ _ _ P Sp RF).
    rewrite <- M0. reflexivity. }
  split; [split|].
  - intros (fuel & s & D). rewrite E in D.
    destruct (mLoop _ _ _ _ _) as [d|] eqn:L; [|discriminate].
    apply mLoop_sound in L. destruct L as (_ & _ & _ & Mt & _).
    apply FL. exact (mMatch_feasible _ _ _ Mt).
  - intros F. apply FL in F.
    destruct (mLoop_spec now ds mf (dayOf date) F) as (k & _ & Run & _).
    exists k. eexists. rewrite E, Run by lia. reflexivity.
  - intros NF fuel. rewrite E, mLoop_infeasible; [reflexivity|].
    intros F. apply NF, FL. assumption.
Qed.

(** The rule [m 30 2,4]: April has a day 30. *)
Lemma NextDate_monthly_returns_iff_feasible_witness :
  ((exists fuel s, NextDate fuel (midnight 20157) "20250301" "m 30 2,4" = Done s)
   <-> mRuleFeasible "30" ["2,4"])
  /\ (~ mRuleFeasible "30" ["2,4"] ->
      forall fuel, NextDate fuel (midnight 20157) "20250301" "m 30 2,4" = Timeout).
Proof.
  apply (NextDate_monthly_returns_iff_feasible
           (midnight 20157) "20250301" "m 30 2,4" (midnight 20148) "30" ["2,4"]).
  - reflexivity.
  - reflexivity.
  - repeat constructor. exists 30. split; [reflexivity|lia].
  - intros ml E. injection E as <-. repeat constructor.
    + exists 2. split; [reflexivity|lia].
    + exists 4. split; [reflexivity|lia].
Defined.

(* ================================================================== *)
(** * Further properties: reading the rule, and reading the result *)
(* ================================================================== *)

(** What [NextDate] makes of a rule string is decided by the string alone:
    an error, or a rule whose loop it runs. *)
Lemma NextDate_reads_rule (repeat : string) :
  (exists e, forall fuel now dstart date,
     time_Parse dstart = Some date -> NextDate fuel now dstart repeat = Fail e)
  \/ (exists rule,
        (forall days, rule = Daily days -> 1 <= days <= 400)
        /\ forall fuel now dstart date,
             time_Parse dstart = Some date ->
             NextDate fuel now dstart repeat
             = ofLoop (runRule fuel now rule date)).
Proof.
  destruct (String.eqb repeat "") eqn:E0.
  { left. exists ErrEmptyRepeat. intros. unfold NextDate. rewrite E0. reflexivity. }
  set (parts := strings_Split repeat " ").
  destruct (String.eqb (nth 0 parts "") "d") eqn:Ed.
  { destruct (Z.of_nat (List.length parts) <? 2) eqn:E2.
    { left. exists ErrDMissing. intros fuel now dstart date P. unfold NextDate.
      rewrite E0, P. fold parts. cbv zeta. rewrite Ed, E2. reflexivity. }
    destruct (strconv_Atoi (nth 1 parts "")) as [days|] eqn:A.
    2: { left. exists ErrDParam. intros fuel now dstart date P. unfold NextDate.
         rewrite E0, P. fold parts. cbv zeta. rewrite Ed, E2, A. reflexivity. }
    destruct ((days <=? 0) || (400 <? days)) eqn:R.
    { left. exists ErrDRange. intros fuel now dstart date P. unfold NextDate.
      rewrite E0, P. fold parts. cbv zeta. rewrite Ed, E2, A, R. reflexivity. }
    right. exists (Daily days). split.
    - intros days' E. injection E as <-. apply orb_false_iff in R.
      destruct R as [R1 R2]. apply Z.leb_gt in R1. apply Z.ltb_ge in R2. lia.
    - intros fuel now dstart date P. unfold NextDate.
      rewrite E0, P. fold parts. cbv zeta. rewrite Ed, E2, A, R. reflexivity. }
  destruct (String.eqb (nth 0 parts "") "y") eqn:Ey.
  { right. exists Yearly. split; [discriminate|].
    intros fuel now dstart date P. unfold NextDate.
    rewrite E0, P. fold parts. cbv zeta. rewrite Ed, Ey. reflexivity. }
  destruct (String.eqb (nth 0 parts "") "w") eqn:Ew.
  { destruct (Z.of_nat (List.length parts) <? 2) eqn:E2.
    { left. exists ErrWMissing. intros fuel now dstart date P. unfold NextDate.
      rewrite E0, P. fold parts. cbv zeta. rewrite Ed, Ey, Ew, E2. reflexivity. }
    destruct (wParse (strings_Split (nth 1 parts "") ",") (falses 8))
      as [e|weekdays] eqn:W.
    - left. exists e. intros fuel now dstart date P. unfold NextDate.
      rewrite E0, P. fold parts. cbv zeta. rewrite Ed, Ey, Ew, E2, W. reflexivity.
    - right. exists (Weekly weekdays). split; [discriminate|].
      intros fuel now dstart date P. unfold NextDate.
      rewrite E0, P. fold parts. cbv zeta. rewrite Ed, Ey, Ew, E2, W.
      reflexivity. }
  destruct (String.eqb (nth 0 parts "") "m") eqn:Em.
  2: { left. exists ErrUnsupported. intros fuel now dstart date P. unfold NextDate.
       rewrite E0, P. fold parts. cbv zeta. rewrite Ed, Ey, Ew, Em. reflexivity. }
  destruct (Z.of_nat (List.length parts) <? 2) eqn:E2.
  { left. exists ErrMMissing. intros fuel now dstart date P. unfold NextDate.
    rewrite E0, P. fold parts. cbv zeta. rewrite Ed, Ey, Ew, Em, E2. reflexivity. }
  destruct (mParseDays (strings_Split (nth 1 parts "") ",")
              (mkDaySpec (falses 32) false false)) as [e|ds] eqn:D.
  { left. exists e. intros fuel now dstart date P. unfold NextDate.
    rewrite E0, P. fold parts. cbv zeta. rewrite Ed, Ey, Ew, Em, E2, D.
    reflexivity. }
  destruct (if Z.of_nat (List.length parts) =? 3
            then mParseMonths (strings_Split (nth 2 parts "") ",") (falses 13)
            else inr allMonths) as [e|mf] eqn:Mo.
  - left. exists e. intros fuel now dstart date P. unfold NextDate.
    rewrite E0, P. fold parts. cbv zeta. rewrite Ed, Ey, Ew, Em, E2, D, Mo.
    reflexivity.
  - right. exists (Monthly ds mf). split; [discriminate|].
    intros fuel now dstart date P. unfold NextDate.
    rewrite E0, P. fold parts. cbv zeta. rewrite Ed, Ey, Ew, Em, E2, D, Mo.
    reflexivity.
Qed.

(** X6: whether [NextDate] refuses a rule, and with which error, depends on
    the rule string alone: the same rule is refused with the same error for
    every parseable start date, every [now] and every amount of fuel, and a
    rule that once gave a date is never refused. *)
Theorem NextDate_verdict_depends_on_rule_only
  (repeat : string) (fuel fuel' : nat) (now now' : Time)
  (dstart dstart' : string) (date date' : Time) :
  time_Parse dstart = Some date -> time_Parse dstart' = Some date' ->
  (forall e, NextDate fuel now dstart repeat = Fail e ->
             NextDate fuel' now' dstart' repeat = Fail e)
  /\ (forall s, NextDate fuel now dstart repeat = Done s ->
                forall e, NextDate fuel' now' dstart' repeat <> Fail e).
Proof.
  intros P P'.
  destruct (NextDate_reads_rule repeat) as [(e0 & F)|(rule & _ & R)].
  - rewrite (F fuel now dstart date P), (F fuel' now' dstart' date' P').
    split; [trivial|discriminate].
  - rewrite (R fuel now dstart date P), (R fuel' now' dstart' date' P').
    split.
    + intros e E. destruct (runRule fuel now rule date); discriminate.
    + intros s _ e E. destruct (runRule fuel' now' rule date'); discriminate.
Qed.

(** The rule [w 8] is refused alike from two starts at two moments. *)
Lemma NextDate_verdict_depends_on_rule_only_witness :
  (forall e, NextDate 1 (midnight 20157) "20250301" "w 8" = Fail e ->
             NextDate 9 (midnight 0) "19991231" "w 8" = Fail e)
  /\ (forall s, NextDate 1 (midnight 20157) "20250301" "w 8" = Done s ->
                forall e, NextDate 9 (midnight 0) "19991231" "w 8" <> Fail e).
Proof.
  apply (NextDate_verdict_depends_on_rule_only "w 8" 1 9 (midnight 20157)
           (midnight 0) "20250301" "19991231" (midnight 20148) (midnight 10956)).
  - reflexivity.
  - reflexivity.
Defined.

(** A checked rule whose loop has returned once returns from every
    start. *)
Lemma runRule_Some_returns (fuel : nat) (now : Time) (rule : Rule) (date d : Time) :
  (forall days, rule = Daily days -> 1 <= days <= 400) ->
  runRule fuel now rule date = Some d -> ruleReturns rule.
Proof.
  destruct rule as [days| |weekdays|ds mf]; cbn [runRule ruleReturns]; intros C L.
  - apply C. reflexivity.
  - exact I.
  - rewrite wLoop_forLoop in L. apply forLoop_sound in L.
    destruct L as (_ & _ & _ & St & _).
    apply andb_true_iff in St. destruct St as [St _].
    exists (isoWeekday d). split; [apply isoWeekday_range|assumption].
  - rewrite mLoop_forLoop in L. apply forLoop_sound in L.
    destruct L as (_ & _ & _ & St & _).
    apply andb_true_iff in St. destruct St as [St _].
    exact (mMatch_feasible _ _ _ St).
Qed.

(** A parsed date has a year of four digits. *)
Lemma time_Parse_Date (s : string) (t : Time) :
  time_Parse s = Some t ->
  exists y m d, Time_Date t = (y, m, d) /\ 0 <= y <= 9999.
Proof.
  unfold time_Parse.
  repeat (destruct s as [|? s]; try discriminate).
  destruct (forallb _ _) eqn:Dg; [|discriminate].
  cbn [forallb] in Dg. rewrite !andb_true_iff in Dg.
  match goal with |- context [daysIn ?m ?y <? ?d] =>
    set (month := m); set (year := y); set (day := d) end.
  destruct (Z.leb_spec month 0); [discriminate|].
  destruct (Z.ltb_spec 12 month); [discriminate|]. cbn [orb].
  destruct (Z.ltb_spec day 1); [discriminate|].
  destruct (Z.ltb_spec (daysIn month year) day); [discriminate|]. cbn [orb].
  intros E. injection E as <-. exists year, month, day.
  rewrite time_Date_midnight by lia. split; [apply Time_Date_civil; lia|].
  unfold isDigit in Dg. unfold year, digitVal. lia.
Qed.

(** What [Format] prints from a midnight in the years 0..9999 parses back
    to that midnight. *)
Lemma time_Parse_Format_small (n : Z) :
  0 <= Time_Year (midnight n) <= 9999 ->
  time_Parse (Time_Format (midnight n)) = Some (midnight n).
Proof.
  unfold Time_Year, Time_Format.
  destruct (Time_Date (midnight n)) as [[y m] d] eqn:E. cbn [fst].
  apply Time_Date_spec in E. rewrite dayOf_midnight in E.
  destruct E as (Hm & Hd & Ec). intros Hy.
  pose proof (daysIn_bounds m y Hm) as DB.
  assert (Two : forall v, 0 <= v < 100 ->
            appendInt v 2
            = String (digitChar (v / 10)) (String (digitChar (v mod 10)) "")).
  { intros v Hv. unfold appendInt.
    destruct (Z.ltb_spec v 0); [lia|]. rewrite Z.abs_eq by lia.
    rewrite Z.eqb_refl. destruct (Z.ltb_spec v 100); [|lia]. reflexivity. }
  rewrite (Two m), (Two d) by lia.
  unfold appendInt. destruct (Z.ltb_spec y 0); [lia|]. rewrite Z.abs_eq by lia.
  change (4 =? 2) with false. cbn [andb]. rewrite Z.eqb_refl. cbn [andb].
  destruct (Z.ltb_spec y 10000); [|lia]. cbn [append].
  set (a := y / 100 / 10). set (b := (y / 100) mod 10).
  set (c := (y mod 100) / 10). set (e := (y mod 100) mod 10).
  set (m1 := m / 10). set (m2 := m mod 10).
  set (d1 := d / 10). set (d2 := d mod 10).
  destruct (digitChar_ok a ltac:(unfold a; div_lia)) as [Ia Va].
  destruct (digitChar_ok b ltac:(unfold b; div_lia)) as [Ib Vb].
  destruct (digitChar_ok c ltac:(unfold c; div_lia)) as [Ic Vc].
  destruct (digitChar_ok e ltac:(unfold e; div_lia)) as [Ie Ve].
  destruct (digitChar_ok m1 ltac:(unfold m1; div_lia)) as [Im1 Vm1].
  destruct (digitChar_ok m2 ltac:(unfold m2; div_lia)) as [Im2 Vm2].
  destruct (digitChar_ok d1 ltac:(unfold d1; div_lia)) as [Id1 Vd1].
  destruct (digitChar_ok d2 ltac:(unfold d2; div_lia)) as [Id2 Vd2].
  unfold time_Parse. cbn [forallb].
  rewrite Ia, Ib, Ic, Ie, Im1, Im2, Id1, Id2. cbn [andb].
  rewrite Va, Vb, Vc, Ve, Vm1, Vm2, Vd1, Vd2.
  replace (((a * 10 + b) * 10 + c) * 10 + e) with y
    by (unfold a, b, c, e; div_lia).
  replace (m1 * 10 + m2) with m by (unfold m1, m2; div_lia).
  replace (d1 * 10 + d2) with d by (unfold d1, d2; div_lia).
  destruct (Z.leb_spec m 0); [lia|]. destruct (Z.ltb_spec 12 m); [lia|].
  destruct (Z.ltb_spec d 1); [lia|]. destruct (Z.ltb_spec (daysIn m y) d); [lia|].
  cbn [orb]. rewrite time_Date_midnight by assumption. do 2 f_equal. lia.
Qed.

(** What the loop of a rule returns from a midnight is a midnight. *)
Lemma runRule_midnight (fuel : nat) (now : Time) (rule : Rule) (n : Z) (d : Time) :
  ruleReturns rule -> runRule fuel now rule (midnight n) = Some d ->
  exists n', d = midnight n' /\ n < n'.
Proof.
  intros R L. destruct (runRule_sound _ _ _ _ _ R L) as (n' & E & Hn & _).
  exists n'. split; assumption.
Qed.

(** X7: the string [NextDate] returns is the form [Format] gives a date
    whose year is not negative; it parses back to that very date when the
    year is at most 9999, and does not parse at all when the year is 10000
    or more (it is then printed with all its digits). *)
Theorem NextDate_result_parses_back
  (fuel : nat) (now : Time) (dstart repeat s : string) :
  NextDate fuel now dstart repeat = Done s ->
  exists d : Time, s = Time_Format d
    /\ 0 <= Time_Year d
    /\ (Time_Year d <= 9999 -> time_Parse s = Some d)
    /\ (10000 <= Time_Year d -> time_Parse s = None).
Proof.
  intros E. apply NextDate_rule in E.
  destruct E as (rule & date & d & P & L & -> & RR & _).
  rewrite (time_Parse_midnight _ _ P) in L.
  destruct (runRule_midnight _ _ _ _ _ RR L) as (n' & -> & Hn).
  exists (midnight n'). split; [reflexivity|].
  assert (Ypos : 0 <= Time_Year (midnight n')).
  { apply time_Parse_Date in P. destruct P as (y & m & dd & ED & Hy).
    unfold Time_Year.
    destruct (Time_Date (midnight n')) as [[y' m'] d'] eqn:ED'. cbn [fst].
    apply Time_Date_spec in ED, ED'. rewrite dayOf_midnight in ED'.
    destruct ED as (Hm & Hd & C1), ED' as (Hm' & Hd' & C2).
    destruct (Z.lt_ge_cases y' 0) as [Neg|]; [|assumption].
    exfalso.
    pose proof (civilDays_lt y' m' d' y m dd Hm' Hd' Hm Hd ltac:(left; lia)).
    lia. }
  split; [assumption|]. split.
  - intros Sm. apply time_Parse_Format_small. lia.
  - intros Big.
    destruct (time_Parse (Time_Format (midnight n'))) as [t|] eqn:Ps;
      [|reflexivity].
    pose proof (time_Parse_Format _ _ Ps) as ->.
    apply time_Parse_Date in Ps. destruct Ps as (y & m & dd & ED & Hy).
    unfold Time_Year in Big. rewrite ED in Big. cbn [fst] in Big. lia.
Qed.

(** [d 7] from 2025-03-01 seen on 2025-03-10. *)
Lemma NextDate_result_parses_back_witness :
  exists d : Time, "20250315" = Time_Format d
    /\ 0 <= Time_Year d
    /\ (Time_Year d <= 9999 -> time_Parse "20250315" = Some d)
    /\ (10000 <= Time_Year d -> time_Parse "20250315" = None).
Proof.
  apply (NextDate_result_parses_back 2 (midnight 20157) "20250301" "d 7").
  reflexivity.
Defined.

(** X8: [NextDate] can be applied to its own result.  When a call has
    returned a date that parses again, a call with that date as the start
    and the same rule returns too, at any moment [now'], and its date is on
    a strictly later day: a task that repeats can be moved on for ever. *)
Theorem NextDate_on_its_own_result
  (fuel : nat) (now now' : Time) (dstart repeat s : string) (d : Time) :
  NextDate fuel now dstart repeat = Done s ->
  time_Parse s = Some d ->
  exists (k : nat) (s' : string) (d' : Time),
    (forall fuel', (k <= fuel')%nat ->
       NextDate fuel' now' s repeat = Done s')
    /\ s' = Time_Format d' /\ dayOf d < dayOf d'.
Proof.
  intros E Ps.
  pose proof E as E1. apply NextDate_Done_loop in E1.
  destruct E1 as (date & _ & P & _).
  destruct (NextDate_reads_rule repeat) as [(e0 & F)|(rule & C & R)].
  - rewrite (F _ _ _ _ P) in E. discriminate.
  - rewrite (R _ _ _ _ P) in E.
    destruct (runRule fuel now rule date) as [d0|] eqn:L; [|discriminate].
    pose proof (runRule_Some_returns _ _ _ _ _ C L) as RR.
    pose proof (time_Parse_midnight _ _ Ps) as Md.
    destruct (runRule_returns now' rule (dayOf d) RR) as (k & d' & Run).
    exists k, (Time_Format d'), d'. split; [|split; [reflexivity|]].
    + intros fuel' Hf. rewrite (R _ _ _ _ Ps), Md, Run by assumption.
      reflexivity.
    + destruct (runRule_midnight k now' rule (dayOf d) d' RR (Run k (le_n k)))
        as (n' & -> & Hn).
      rewrite dayOf_midnight. assumption.
Qed.

(** [w 1] from 2025-03-01 gave Monday 2025-03-17 when seen on 03-10 at
    12:30; from there it gives a later Monday at any moment. *)
Lemma NextDate_on_its_own_result_witness :
  exists (k : nat) (s' : string) (d' : Time),
    (forall fuel', (k <= fuel')%nat ->
       NextDate fuel' (midnight 0) "20250317" "w 1" = Done s')
    /\ s' = Time_Format d' /\ dayOf (midnight 20164) < dayOf d'.
Proof.
  apply (NextDate_on_its_own_result 20 (time_Date 2025 3 10 12 30 0 0 0)
           (midnight 0) "20250301" "w 1" "20250317" (midnight 20164)).
  - reflexivity.
  - reflexivity.
Defined.


(* ================================================================== *)
(** * Further properties: what [checkRepeat] accepts *)
(* ================================================================== *)

Lemma checkWeekdays_spec (l : list string) :
  checkWeekdays l = true <-> Forall (inRange 7) l.
Proof.
  induction l as [|w l IH]; cbn [checkWeekdays].
  - split; [constructor|reflexivity].
  - destruct (strconv_Atoi w) as [n|] eqn:A.
    + destruct (Z.ltb_spec n 1), (Z.ltb_spec 7 n); cbn [orb].
      all: try (split; [discriminate|];
                intros H'; apply Forall_inv in H'; destruct H' as (n' & A' & R');
                rewrite A in A'; injection A' as <-; lia).
      rewrite IH. split.
      * intros H'. constructor; [exists n; split; [assumption|lia]|assumption].
      * intros H'. apply Forall_inv_tail in H'. assumption.
    + split; [discriminate|].
      intros H'. apply Forall_inv in H'. destruct H' as (n' & A' & _).
      congruence.
Qed.

(** The rules [checkRepeat] accepts, by their fields. *)
Lemma checkRepeat_accepts_fields (repeat : string) :
  checkRepeat repeat = None
  <-> repeat = "" \/ acceptedFields (strings_Fields repeat).
Proof.
  unfold checkRepeat.
  destruct (String.eqb_spec repeat "") as [->|Hne].
  { split; [intros _; left; reflexivity|reflexivity]. }
  assert (Drop : forall P : Prop, repeat = "" \/ P <-> P) by (intro; tauto).
  rewrite Drop. clear Drop.
  destruct (strings_Fields repeat) as [|unit [|p1 rest]]; cbn [List.length nth].
  - cbn. split; [discriminate|contradiction].
  - cbn [acceptedFields].
    change (Z.of_nat 1 <? 1) with false. cbv iota.
    destruct (String.eqb_spec unit "d") as [->|Nd];
      [split; [discriminate|discriminate]|].
    destruct (String.eqb_spec unit "w") as [->|Nw];
      [split; [discriminate|discriminate]|].
    destruct (String.eqb_spec unit "m") as [->|Nm];
      [split; [discriminate|discriminate]|].
    destruct (String.eqb_spec unit "y") as [->|Ny].
    + split; reflexivity.
    + split; [discriminate|contradiction].
  - destruct (Z.ltb_spec (Z.of_nat (S (S (List.length rest)))) 1); [lia|].
    destruct (Z.ltb_spec (Z.of_nat (S (S (List.length rest)))) 2); [lia|].
    assert (Long :
              acceptedFields (unit :: p1 :: rest)
              <-> (rest = []
                   /\ unit = "d" /\ exists n, strconv_Atoi p1 = Some n /\ 1 <= n)
                  \/ (unit = "w" /\ Forall (inRange 7) (strings_Split p1 ","))
                  \/ (unit = "m" /\ Forall isMonthDay (strings_Split p1 ","))).
    { destruct rest; cbn [acceptedFields]; [tauto|].
      split; [tauto|]. intros [(E & _)|Hx]; [discriminate|assumption]. }
    rewrite Long. clear Long.
    destruct (String.eqb_spec unit "d") as [->|Nd].
    { destruct rest as [|x rest]; cbn [List.length].
      - change (Z.of_nat 2 =? 2) with true. cbn [negb].
        destruct (strconv_Atoi p1) as [n|].
        + destruct (Z.leb_spec n 0).
          * split; [discriminate|].
            intros [(_ & _ & n' & A & R)|[(E & _)|(E & _)]]; try discriminate.
            injection A as <-. lia.
          * split; [|reflexivity]. intros _. left.
            split; [reflexivity|]. split; [reflexivity|].
            exists n. split; [reflexivity|lia].
        + split; [discriminate|].
          intros [(_ & _ & n' & A & R)|[(E & _)|(E & _)]]; discriminate.
      - destruct (Z.eqb_spec (Z.of_nat (S (S (S (List.length rest))))) 2); [lia|].
        cbn [negb]. split; [discriminate|].
        intros [(E & _)|[(E & _)|(E & _)]]; discriminate. }
    destruct (String.eqb_spec unit "w") as [->|Nw].
    { rewrite <- checkWeekdays_spec.
      destruct (checkWeekdays _); split; try reflexivity; try discriminate.
      - intros _. right. left. split; reflexivity.
      - intros [(_ & E & _)|[(_ & E)|(E & _)]]; discriminate. }
    destruct (String.eqb_spec unit "m") as [->|Nm].
    { rewrite <- checkMonthDays_spec.
      destruct (checkMonthDays _); split; try reflexivity; try discriminate.
      - intros _. right. right. split; reflexivity.
      - intros [(_ & E & _)|[(E & _)|(_ & E)]]; discriminate. }
    destruct (String.eqb_spec unit "y") as [->|Ny].
    { cbn [List.length].
      destruct (Z.eqb_spec (Z.of_nat (S (S (List.length rest)))) 1); [lia|].
      cbn [negb]. split; [discriminate|].
      intros [(_ & E & _)|[(E & _)|(E & _)]]; discriminate. }
    split; [discriminate|].
    intros [(_ & E & _)|[(E & _)|(E & _)]]; contradiction.
Qed.

(** X9: [checkRepeat] accepts exactly the empty string and the strings
    whose white-space separated fields are: [d] and an integer [n >= 1]
    (no upper bound); [w] and a comma-separated list of integers in 1..7,
    followed by anything; [m] and a comma-separated list of integers among
    -2, -1, 1..31, followed by anything; or [y] alone. *)
Theorem checkRepeat_accepts_iff (repeat : string) :
  checkRepeat repeat = None
  <-> repeat = "" \/ acceptedFields (strings_Fields repeat).
Proof. exact (checkRepeat_accepts_fields repeat). Qed.

(** A rule [w] with weekdays only gives a date from every start. *)
Lemma NextDate_w_returns (now : Time) (dstart repeat : string) (date : Time)
  (ws : string) (rest : list string) :
  time_Parse dstart = Some date ->
  strings_Split repeat " " = "w" :: ws :: rest ->
  Forall (inRange 7) (strings_Split ws ",") ->
  exists (k : nat) (s : string), forall fuel, (k <= fuel)%nat ->
    NextDate fuel now dstart repeat = Done s.
Proof.
  intros P Sp Hall.
  assert (P' : time_Parse dstart = Some (midnight (dayOf date)))
    by (rewrite <- (time_Parse_midnight _ _ P); exact P).
  destruct (wParse_spec _ Hall) as (weekdays & E & Flag).
  assert (Ex : exists i, 1 <= i <= 7 /\ flagAt weekdays i = true).
  { pose proof (Split_not_nil ws ",") as NN. revert Hall Flag NN.
    generalize (strings_Split ws ","). intros l Hall Flag NN.
    destruct l as [|w l]; [contradiction|].
    destruct (Forall_inv Hall) as (i & A & R). exists i.
    split; [assumption|]. apply Flag; [lia|]. exists w.
    split; [left; reflexivity|assumption]. }
  destruct Ex as (i & Hi & Fi).
  destruct (wLoop_spec now weekdays (dayOf date) i Hi Fi) as (k & _ & Run & _).
  exists k. eexists. intros fuel Hf.
  rewrite (NextDate_w fuel now _ _ _ _ _ P' Sp), E.
  rewrite Run by assumption. reflexivity.
Qed.

(** X10: validator and calculator agree on the rules [d], [w] and [y]
    written with single spaces.  When [checkRepeat] accepts such a rule
    (and, for [d n], [n <= 400], which [checkRepeat] does not ask),
    [NextDate] returns a date from every parseable start at every [now]. *)
Theorem checkRepeat_accepted_then_NextDate_returns
  (now : Time) (dstart repeat : string) (date : Time) :
  time_Parse dstart = Some date ->
  repeat <> "" ->
  strings_Split repeat " " = strings_Fields repeat ->
  checkRepeat repeat = None ->
  In (nth 0 (strings_Fields repeat) "") ["d"; "w"; "y"] ->
  (forall n, strconv_Atoi (nth 1 (strings_Fields repeat) "") = Some n ->
             nth 0 (strings_Fields repeat) "" = "d" -> n <= 400) ->
  exists (k : nat) (s : string), forall fuel, (k <= fuel)%nat ->
    NextDate fuel now dstart repeat = Done s.
Proof.
  intros P Hne Sp Acc K Hd.
  assert (P' : time_Parse dstart = Some (midnight (dayOf date)))
    by (rewrite <- (time_Parse_midnight _ _ P); exact P).
  apply checkRepeat_accepts_fields in Acc.
  destruct Acc as [E|Acc]; [contradiction|].
  rewrite <- Sp in *.
  assert (Kind : forall u, nth 0 (strings_Split repeat " ") "" = u -> u <> "m")
    by (intros u <- Em; rewrite Em in K; cbn [In] in K;
        destruct K as [K|[K|[K|[]]]]; discriminate).
  destruct (strings_Split repeat " ") as [|unit [|p1 rest]] eqn:Parts;
    [contradiction| |].
  - cbn [acceptedFields] in Acc. subst unit.
    destruct (yLoop_spec now (dayOf date)) as (k & _ & Run & _).
    exists k. eexists. intros fuel Hf.
    rewrite (NextDate_y fuel now _ _ _ _ P' Parts).
    rewrite Run by assumption. reflexivity.
  - assert (Cases : (rest = [] /\ unit = "d"
                     /\ exists n, strconv_Atoi p1 = Some n /\ 1 <= n)
                    \/ (unit = "w" /\ Forall (inRange 7) (strings_Split p1 ","))).
    { specialize (Kind unit eq_refl).
      destruct rest; cbn [acceptedFields] in Acc.
      - destruct Acc as [(E & Hn)|[Hw|(E & _)]]; [left; tauto|right; assumption|].
        contradiction.
      - destruct Acc as [Hw|(E & _)]; [right; assumption|contradiction]. }
    destruct Cases as [(-> & -> & n & A & Hn)|(-> & Hall)].
    + specialize (Hd n A eq_refl).
      destruct (dLoop_spec now n (dayOf date)) as (k & _ & Run & _); [lia|].
      exists k. eexists. intros fuel Hf.
      rewrite (NextDate_d fuel now _ _ _ _ _ _ P' Parts A) by lia.
      rewrite Run by assumption. reflexivity.
    + exact (NextDate_w_returns now dstart repeat date p1 rest P Parts Hall).
Qed.

(** The rule [w 1,3,5]. *)
Lemma checkRepeat_accepted_then_NextDate_returns_witness :
  exists (k : nat) (s : string), forall fuel, (k <= fuel)%nat ->
    NextDate fuel (midnight 20157) "20250301" "w 1,3,5" = Done s.
Proof.
  apply (checkRepeat_accepted_then_NextDate_returns
           (midnight 20157) "20250301" "w 1,3,5" (midnight 20148)).
  - reflexivity.
  - discriminate.
  - reflexivity.
  - reflexivity.
  - right. left. reflexivity.
  - intros n _ E. discriminate.
Defined.

(* ================================================================== *)
(** * Further properties: [checkDate] by calendar days *)
(* ================================================================== *)

Lemma digitChar_digitVal (c : ascii) : digitChar (digitVal c) = c.
Proof.
  unfold digitChar, digitVal, byteOf.
  replace (48 + (Z.of_nat (nat_of_ascii c) - 48)) with (Z.of_nat (nat_of_ascii c))
    by lia.
  rewrite Nat2Z.id. apply ascii_nat_embedding.
Qed.

Lemma isDigit_digitVal (c : ascii) : isDigit c = true -> 0 <= digitVal c <= 9.
Proof.
  unfold isDigit, digitVal. intros H. apply andb_true_iff in H.
  destruct H as [A B]. apply Z.leb_le in A, B. lia.
Qed.

(** The date of a midnight that is a civil date. *)
Lemma Time_Date_time_Date (y m d : Z) :
  1 <= m <= 12 -> 1 <= d <= daysIn m y ->
  Time_Date (time_Date y m d 0 0 0 0 0) = (y, m, d).
Proof.
  intros Hm Hd. rewrite time_Date_midnight by assumption.
  apply Time_Date_civil; assumption.
Qed.

(** Parsing, then formatting: a string that parses is the form [Format]
    gives its date. *)
Lemma Time_Format_Parse (s : string) (t : Time) :
  time_Parse s = Some t -> Time_Format t = s.
Proof.
  unfold time_Parse.
  destruct s as [|y1 [|y2 [|y3 [|y4 [|m1 [|m2 [|d1 [|d2 [|? ?]]]]]]]]];
    try discriminate.
  destruct (forallb _ _) eqn:Dg; [|discriminate].
  cbn [forallb] in Dg. rewrite !andb_true_iff in Dg.
  destruct Dg as (D1 & D2 & D3 & D4 & D5 & D6 & D7 & D8 & _).
  apply isDigit_digitVal in D1, D2, D3, D4, D5, D6, D7, D8.
  match goal with |- context [daysIn ?m ?y <? ?d] =>
    set (month := m); set (year := y); set (day := d) end.
  destruct (Z.leb_spec month 0); [discriminate|].
  destruct (Z.ltb_spec 12 month); [discriminate|]. cbn [orb].
  destruct (Z.ltb_spec day 1); [discriminate|].
  destruct (Z.ltb_spec (daysIn month year) day); [discriminate|]. cbn [orb].
  intros E. injection E as <-.
  unfold Time_Format. rewrite Time_Date_time_Date by lia.
  unfold appendInt.
  destruct (Z.ltb_spec year 0); [unfold year in *; lia|].
  destruct (Z.ltb_spec month 0); [lia|].
  destruct (Z.ltb_spec day 0); [lia|].
  rewrite !Z.abs_eq by lia.
  change (4 =? 2) with false. change (2 =? 2) with true.
  change (4 =? 4) with true. cbn [andb].
  destruct (Z.ltb_spec year 10000); [|unfold year in *; lia].
  destruct (Z.ltb_spec month 100); [|lia].
  destruct (Z.ltb_spec day 100); [|unfold day in *; lia].
  cbn [append].
  replace (year / 100 / 10) with (digitVal y1) by (unfold year; div_lia).
  replace ((year / 100) mod 10) with (digitVal y2) by (unfold year; div_lia).
  replace ((year mod 100) / 10) with (digitVal y3) by (unfold year; div_lia).
  replace ((year mod 100) mod 10) with (digitVal y4) by (unfold year; div_lia).
  replace (month / 10) with (digitVal m1) by (unfold month; div_lia).
  replace (month mod 10) with (digitVal m2) by (unfold month; div_lia).
  replace (day / 10) with (digitVal d1) by (unfold day; div_lia).
  replace (day mod 10) with (digitVal d2) by (unfold day; div_lia).
  rewrite !digitChar_digitVal. reflexivity.
Qed.

(** [Format] reads the day of a time only. *)
Lemma Time_Format_dayOf (t : Time) :
  Time_Format t = Time_Format (midnight (dayOf t)).
Proof.
  unfold Time_Format. rewrite (Time_Date_dayOf t), Time_Date_midnight.
  reflexivity.
Qed.

(** A date read by [time.Parse] against the start of the day of [now]:
    the first is a midnight UTC, the second a midnight in the location of
    [now], so that on one and the same day the offset decides. *)
Lemma Before_startOfDay (n : Z) (now : Time) :
  - secondsPerDay < offset now < secondsPerDay ->
  Time_Before (midnight n) (startOfDay now)
  = (n <? dayOf now) || ((n =? dayOf now) && (offset now <? 0)).
Proof.
  intros Ho. rewrite startOfDay_spec.
  unfold Time_Before, midnight, secondsPerDay in *. cbn [unix nsec].
  rewrite Z.ltb_irrefl, andb_false_r, orb_false_r.
  destruct (Z.ltb_spec n (dayOf now)), (Z.eqb_spec n (dayOf now)),
    (Z.ltb_spec (offset now) 0),
    (Z.ltb_spec (n * 86400) (dayOf now * 86400 - offset now));
    cbn [orb andb]; try reflexivity; lia.
Qed.

Lemma After_startOfDay_days (n : Z) (now : Time) :
  - secondsPerDay < offset now < secondsPerDay ->
  Time_After (midnight n) (startOfDay now)
  = (dayOf now <? n) || ((n =? dayOf now) && (0 <? offset now)).
Proof.
  intros Ho. rewrite startOfDay_spec.
  unfold Time_After, midnight, secondsPerDay in *. cbn [unix nsec].
  rewrite Z.ltb_irrefl, andb_false_r, orb_false_r.
  destruct (Z.ltb_spec (dayOf now) n), (Z.eqb_spec n (dayOf now)),
    (Z.ltb_spec 0 (offset now)),
    (Z.ltb_spec (dayOf now * 86400 - offset now) (n * 86400));
    cbn [orb andb]; try reflexivity; lia.
Qed.

Lemma setDate_same (task : Task) : setDate task (Date task) = task.
Proof. destruct task. reflexivity. Qed.

(** The task a date parses for is not touched by the first step. *)
Lemma checkDate_parsed (fuel : nat) (now : Time) (task : Task) (t : Time) :
  time_Parse (Date task) = Some t ->
  checkDate fuel now task = checkParsed fuel now task.
Proof.
  intros P. rewrite checkDate_eq, (withDefaultDate_parsed _ _ _ P). reflexivity.
Qed.

(** [checkDate] on a task that does not repeat. *)
Lemma checkParsed_without_rule (fuel : nat) (now : Time) (task : Task) (t : Time) :
  - secondsPerDay < offset now < secondsPerDay ->
  Repeat task = "" ->
  time_Parse (Date task) = Some t ->
  checkParsed fuel now task
  = (if dayOf t <? dayOf now then setDate task (Time_Format now) else task,
     Done tt).
Proof.
  intros Ho R P. unfold checkParsed. rewrite P, R. cbn [String.eqb negb].
  pose proof (time_Parse_midnight _ _ P) as M. rewrite M at 1.
  rewrite Before_startOfDay by assumption.
  destruct (Z.ltb_spec (dayOf t) (dayOf now)) as [Lt|Ge]; [reflexivity|].
  cbn [orb]. destruct (Z.eqb_spec (dayOf t) (dayOf now)) as [E|]; [|reflexivity].
  destruct (offset now <? 0); [|reflexivity]. cbn [andb].
  rewrite Time_Format_dayOf, <- E, <- M, (Time_Format_Parse _ _ P).
  rewrite setDate_same. reflexivity.
Qed.

(** [checkDate] on a task that repeats. *)
Lemma checkParsed_with_rule (fuel : nat) (now : Time) (task : Task) (t : Time) :
  - secondsPerDay < offset now < secondsPerDay ->
  Repeat task <> "" ->
  time_Parse (Date task) = Some t ->
  checkParsed fuel now task
  = match NextDate fuel now (Date task) (Repeat task) with
    | Done next =>
        (if (dayOf t <? dayOf now)
            || ((dayOf t =? dayOf now) && (offset now <=? 0))
         then setDate task next else task, Done tt)
    | Fail e => (task, Fail (ErrRepeatRule e))
    | Timeout => (task, Timeout)
    end.
Proof.
  intros Ho R P. unfold checkParsed. rewrite P.
  apply String.eqb_neq in R. rewrite R. cbn [negb].
  destruct (NextDate _ _ _ _) as [next|e|]; try reflexivity.
  pose proof (time_Parse_midnight _ _ P) as M. rewrite M at 1.
  rewrite After_startOfDay_days by assumption.
  destruct (Z.ltb_spec (dayOf now) (dayOf t)), (Z.ltb_spec (dayOf t) (dayOf now)),
    (Z.eqb_spec (dayOf t) (dayOf now)), (Z.ltb_spec 0 (offset now)),
    (Z.leb_spec (offset now) 0); cbn [orb andb negb]; try reflexivity; lia.
Qed.

(** X11: a task that does not repeat and whose date parses.  [checkDate]
    succeeds; it leaves the task as it is when the date is today or later,
    and sets the date of today when it is earlier, by calendar days in the
    location of [now], although it compares a midnight UTC with a midnight
    of that location. *)
Theorem checkDate_without_rule
  (fuel : nat) (now : Time) (task : Task) (t : Time) :
  - secondsPerDay < offset now < secondsPerDay ->
  Repeat task = "" ->
  time_Parse (Date task) = Some t ->
  checkDate fuel now task
  = (if dayOf t <? dayOf now then setDate task (Time_Format now) else task,
     Done tt).
Proof.
  intros Ho R P. rewrite (checkDate_parsed _ _ _ _ P).
  exact (checkParsed_without_rule fuel now task t Ho R P).
Qed.

(** A task dated 2025-03-01, seen on 2025-03-10 at 12:30 UTC. *)
Lemma checkDate_without_rule_witness :
  checkDate 0 (time_Date 2025 3 10 12 30 0 0 0)
    (mkTask "1" "20250301" "title" "" "")
  = (mkTask "1" "20250310" "title" "" "", Done tt).
Proof.
  apply (checkDate_without_rule 0 (time_Date 2025 3 10 12 30 0 0 0)
           (mkTask "1" "20250301" "title" "" "") (midnight 20148)).
  - vm_compute. split; reflexivity.
  - reflexivity.
  - reflexivity.
Defined.

(** ** [checkDate] in a location whose offset changes *)

(** The instant [startOfDay] gives in a location: the midnight of the day
    read as UTC, less an offset of the location. *)
Lemma startOfDay_loc_spec (loc : Location) (t : Time) :
  unix (startOfDay_loc loc t) = dayOf t * secondsPerDay - midnightOffset loc t
  /\ nsec (startOfDay_loc loc t) = 0
  /\ exists u, midnightOffset loc t = offsetAt loc u.
Proof.
  unfold midnightOffset. split; [lia|].
  unfold startOfDay_loc. destruct (Time_Date t) as [[y m] d] eqn:E.
  apply Time_Date_spec in E. destruct E as (Hm & _ & E).
  unfold time_Date_loc. rewrite time_Date_civil by assumption.
  cbn [unix nsec].
  replace ((civilDays y m d - unixEpochDays) * secondsPerDay - 0)
    with (dayOf t * secondsPerDay) by lia.
  set (w := dayOf t * secondsPerDay).
  unfold offsetAt at 1.
  destruct (lookup loc w) as [[off start] end_] eqn:L.
  assert (Lw : offsetAt loc w = off) by (unfold offsetAt; rewrite L; reflexivity).
  cbn [unix nsec]. split; [reflexivity|].
  destruct (Z.eqb_spec off 0) as [Z0|NZ]; cbn [negb].
  - exists w. lia.
  - destruct ((w - off <? start) || (end_ <=? w - off)).
    + exists (w - off). lia.
    + exists w. lia.
Qed.

Lemma midnightOffset_bounds (loc : Location) (t : Time) :
  (forall u, - secondsPerDay < offsetAt loc u < secondsPerDay) ->
  - secondsPerDay < midnightOffset loc t < secondsPerDay.
Proof.
  intros B. destruct (startOfDay_loc_spec loc t) as (_ & _ & u & ->). apply B.
Qed.

(** A date read by [time.Parse] against the start of the day of [now] in
    its location. *)
Lemma Before_startOfDay_loc (loc : Location) (n : Z) (now : Time) :
  - secondsPerDay < midnightOffset loc now < secondsPerDay ->
  Time_Before (midnight n) (startOfDay_loc loc now)
  = (n <? dayOf now) || ((n =? dayOf now) && (midnightOffset loc now <? 0)).
Proof.
  intros Ho. destruct (startOfDay_loc_spec loc now) as (U & N & _).
  unfold Time_Before. rewrite U, N.
  unfold midnight, secondsPerDay in *. cbn [unix nsec].
  rewrite Z.ltb_irrefl, andb_false_r, orb_false_r.
  destruct (Z.ltb_spec n (dayOf now)), (Z.eqb_spec n (dayOf now)),
    (Z.ltb_spec (midnightOffset loc now) 0),
    (Z.ltb_spec (n * 86400) (dayOf now * 86400 - midnightOffset loc now));
    cbn [orb andb]; try reflexivity; lia.
Qed.

Lemma After_startOfDay_loc (loc : Location) (n : Z) (now : Time) :
  - secondsPerDay < midnightOffset loc now < secondsPerDay ->
  Time_After (midnight n) (startOfDay_loc loc now)
  = (dayOf now <? n) || ((n =? dayOf now) && (0 <? midnightOffset loc now)).
Proof.
  intros Ho. destruct (startOfDay_loc_spec loc now) as (U & N & _).
  unfold Time_After. rewrite U, N.
  unfold midnight, secondsPerDay in *. cbn [unix nsec].
  rewrite Z.ltb_irrefl, andb_false_r, orb_false_r.
  destruct (Z.ltb_spec (dayOf now) n), (Z.eqb_spec n (dayOf now)),
    (Z.ltb_spec 0 (midnightOffset loc now)),
    (Z.ltb_spec (dayOf now * 86400 - midnightOffset loc now) (n * 86400));
    cbn [orb andb]; try reflexivity; lia.
Qed.

(** [checkDate] in a location, on a task whose date parses, by calendar
    days. *)
Lemma checkDate_loc_days (loc : Location) (fuel : nat) (now : Time)
  (task : Task) (t : Time) :
  (forall u, - secondsPerDay < offsetAt loc u < secondsPerDay) ->
  time_Parse (Date task) = Some t ->
  checkDate_loc loc fuel now task
  = if String.eqb (Repeat task) "" then
      (if dayOf t <? dayOf now then setDate task (Time_Format now) else task,
       Done tt)
    else
      match NextDate fuel now (Date task) (Repeat task) with
      | Done next =>
          (if (dayOf t <? dayOf now)
              || ((dayOf t =? dayOf now) && (midnightOffset loc now <=? 0))
           then setDate task next else task, Done tt)
      | Fail e => (task, Fail (ErrRepeatRule e))
      | Timeout => (task, Timeout)
      end.
Proof.
  intros B P. pose proof (midnightOffset_bounds loc now B) as Ho.
  unfold checkDate_loc.
  destruct (String.eqb_spec (Date task) "") as [Em|_].
  { rewrite Em in P. discriminate. }
  rewrite P. pose proof (time_Parse_midnight _ _ P) as M.
  destruct (String.eqb (Repeat task) ""); cbn [negb].
  - rewrite M at 1. rewrite Before_startOfDay_loc by assumption.
    destruct (Z.ltb_spec (dayOf t) (dayOf now)) as [Lt|Ge]; [reflexivity|].
    cbn [orb]. destruct (Z.eqb_spec (dayOf t) (dayOf now)) as [E|]; [|reflexivity].
    destruct (midnightOffset loc now <? 0); [|reflexivity]. cbn [andb].
    rewrite Time_Format_dayOf, <- E, <- M, (Time_Format_Parse _ _ P).
    rewrite setDate_same. reflexivity.
  - destruct (NextDate _ _ _ _) as [next|e|]; try reflexivity.
    rewrite M at 1. rewrite After_startOfDay_loc by assumption.
    destruct (Z.ltb_spec (dayOf now) (dayOf t)), (Z.ltb_spec (dayOf t) (dayOf now)),
      (Z.eqb_spec (dayOf t) (dayOf now)), (Z.ltb_spec 0 (midnightOffset loc now)),
      (Z.leb_spec (midnightOffset loc now) 0);
      cbn [orb andb negb]; try reflexivity; lia.
Qed.

(** [checkDate] above is [checkDate] in a location whose offset at the
    midnight of today is the offset of [now]. *)
Lemma checkDate_loc_same_offset (loc : Location) (fuel : nat) (now : Time)
  (task : Task) :
  midnightOffset loc now = offset now ->
  checkDate_loc loc fuel now task = checkDate fuel now task.
Proof.
  intros E. destruct (startOfDay_loc_spec loc now) as (U & N & _).
  assert (A : forall t, Time_After t (startOfDay_loc loc now)
                        = Time_After t (startOfDay now)).
  { intros t. unfold Time_After. rewrite U, N, E, startOfDay_spec. reflexivity. }
  assert (Bf : forall t, Time_Before t (startOfDay_loc loc now)
                         = Time_Before t (startOfDay now)).
  { intros t. unfold Time_Before. rewrite U, N, E, startOfDay_spec. reflexivity. }
  unfold checkDate_loc, checkDate.
  destruct (String.eqb (Date task) ""); cbv zeta;
    destruct (time_Parse _); try reflexivity; rewrite A, Bf; reflexivity.
Qed.

(** X12: a task that repeats and whose date parses, at a [now] in any
    location whose offsets are within 24 hours.  [checkDate] fails or does
    not return as [NextDate] does, even when the date is in the future;
    when [NextDate] returns, the date is replaced by the next occurrence
    when it is before today, kept when it is after today, and on the very
    day of [now] replaced exactly when the offset of the location at the
    midnight of that day, the one [time.Date] finds, is not east of UTC.
    That offset is not always the offset of [now]. *)
Theorem checkDate_with_rule
  (loc : Location) (fuel : nat) (now : Time) (task : Task) (t : Time) :
  (forall u, - secondsPerDay < offsetAt loc u < secondsPerDay) ->
  Repeat task <> "" ->
  time_Parse (Date task) = Some t ->
  checkDate_loc loc fuel now task
  = match NextDate fuel now (Date task) (Repeat task) with
    | Done next =>
        (if (dayOf t <? dayOf now)
            || ((dayOf t =? dayOf now) && (midnightOffset loc now <=? 0))
         then setDate task next else task, Done tt)
    | Fail e => (task, Fail (ErrRepeatRule e))
    | Timeout => (task, Timeout)
    end.
Proof.
  intros B R P. rewrite (checkDate_loc_days loc fuel now task t B P).
  apply String.eqb_neq in R. rewrite R. reflexivity.
Qed.

(** A task dated 2025-03-30 with the rule [d 7], at 12:30 on that day in
    a location that went from UTC to an hour east of it at 01:00 UTC
    (London): the offset of [now] is 3600, the offset at midnight was 0,
    and the date is replaced. *)
Lemma checkDate_with_rule_witness :
  let loc := oneTransition 1743296400 0 3600 in
  let now := time_Date 2025 3 30 12 30 0 0 3600 in
  (offset now = offsetAt loc (unix now) /\ midnightOffset loc now = 0)
  /\ checkDate_loc loc 2 now (mkTask "1" "20250330" "title" "" "d 7")
     = (mkTask "1" "20250406" "title" "" "d 7", Done tt).
Proof.
  intros loc now. split; [split; reflexivity|].
  apply (checkDate_with_rule loc 2 now
           (mkTask "1" "20250330" "title" "" "d 7") (midnight 20177)).
  - intros u. unfold offsetAt, loc, oneTransition, lookup, secondsPerDay.
    destruct (u <? 1743296400); cbn [fst]; lia.
  - discriminate.
  - reflexivity.
Defined.

(** An instant after [now] is on the day of [now] or later. *)
Lemma After_dayOf (n : Z) (now : Time) :
  offset now < secondsPerDay ->
  Time_After (midnight n) now = true -> dayOf now <= n.
Proof.
  intros Ho A. unfold Time_After, midnight in A. cbn [unix nsec] in A.
  assert (U : unix now <= n * secondsPerDay).
  { apply orb_true_iff in A. destruct A as [A|A].
    - apply Z.ltb_lt in A. lia.
    - apply andb_true_iff in A. destruct A as [A _]. apply Z.eqb_eq in A. lia. }
  unfold dayOf, Time_abs, secondsPerDay, unixEpochDays in *. div_lia.
Qed.

(** The date [NextDate] returns, when it parses, is a day after the start
    and not before the day of [now]. *)
Lemma NextDate_parsed_result (fuel : nat) (now : Time)
  (dstart repeat next : string) (t d : Time) :
  offset now < secondsPerDay ->
  time_Parse dstart = Some t ->
  NextDate fuel now dstart repeat = Done next ->
  time_Parse next = Some d ->
  dayOf t < dayOf d /\ dayOf now <= dayOf d.
Proof.
  intros Ho P E Pn. apply NextDate_rule in E.
  destruct E as (rule & date & d0 & P' & L & -> & RR & _).
  rewrite P in P'. injection P' as <-.
  rewrite (time_Parse_midnight _ _ P) in L.
  destruct (runRule_sound _ _ _ _ _ RR L) as (n' & -> & Hn & Hnow).
  apply time_Parse_Format in Pn. subst d. rewrite dayOf_midnight.
  split; [assumption|].
  destruct rule; try assumption; exact (After_dayOf _ _ Ho Hnow).
Qed.

(** The date [checkDate] leaves, against the day of [now] and the date
    the task had. *)
Lemma checkDate_result_days
  (fuel : nat) (now : Time) (task task' : Task) (d : Time) :
  - secondsPerDay < offset now < secondsPerDay ->
  checkDate fuel now task = (task', Done tt) ->
  time_Parse (Date task') = Some d ->
  dayOf now <= dayOf d
  /\ forall t, time_Parse (Date task) = Some t -> dayOf t <= dayOf d.
Proof.
  intros Ho E Pd.
  assert (Today : forall u, time_Parse (Time_Format now) = Some u ->
                            dayOf u = dayOf now).
  { intros u Pu. rewrite Time_Format_dayOf in Pu.
    apply time_Parse_Format in Pu. subst u. apply dayOf_midnight. }
  assert (Main : forall task0 t0, time_Parse (Date task0) = Some t0 ->
            checkParsed fuel now task0 = (task', Done tt) ->
            dayOf now <= dayOf d /\ dayOf t0 <= dayOf d).
  { intros task0 t0 P0 E0.
    destruct (String.eqb_spec (Repeat task0) "") as [R|R].
    - rewrite (checkParsed_without_rule _ _ _ _ Ho R P0) in E0.
      injection E0 as <-.
      destruct (Z.ltb_spec (dayOf t0) (dayOf now)) as [Lt|Ge].
      + cbn [setDate Date] in Pd. rewrite (Today _ Pd). lia.
      + rewrite P0 in Pd. injection Pd as <-. lia.
    - rewrite (checkParsed_with_rule _ _ _ _ Ho R P0) in E0.
      destruct (NextDate fuel now (Date task0) (Repeat task0)) as [next| |] eqn:N;
        try discriminate.
      injection E0 as <-.
      destruct ((dayOf t0 <? dayOf now)
                || ((dayOf t0 =? dayOf now) && (offset now <=? 0))) eqn:C.
      + cbn [setDate Date] in Pd.
        destruct (NextDate_parsed_result _ _ _ _ _ _ _ (proj2 Ho) P0 N Pd). lia.
      + rewrite P0 in Pd. injection Pd as <-.
        apply orb_false_iff in C. destruct C as [C _].
        apply Z.ltb_ge in C. lia. }
  rewrite checkDate_eq in E. unfold withDefaultDate in E.
  destruct (String.eqb_spec (Date task) "") as [Em|Ne].
  - destruct (time_Parse (Date (setDate task (Time_Format now)))) as [t0|] eqn:P0.
    + destruct (Main _ _ P0 E) as [A _]. split; [assumption|].
      intros t Pt. rewrite Em in Pt. discriminate.
    + unfold checkParsed in E. rewrite P0 in E. discriminate.
  - destruct (time_Parse (Date task)) as [t0|] eqn:P0.
    + destruct (Main _ _ P0 E) as [A B]. split; [assumption|].
      intros t Pt. injection Pt as <-. assumption.
    + unfold checkParsed in E. rewrite P0 in E. discriminate.
Qed.

(** X13: the date [checkDate] leaves on success, when it parses, is never
    before the day of [now] in the location of [now], and never before the
    date the task had. *)
Theorem checkDate_date_not_in_the_past
  (fuel : nat) (now : Time) (task task' : Task) (d : Time) :
  - secondsPerDay < offset now < secondsPerDay ->
  checkDate fuel now task = (task', Done tt) ->
  time_Parse (Date task') = Some d ->
  dayOf now <= dayOf d
  /\ forall t, time_Parse (Date task) = Some t -> dayOf t <= dayOf d.
Proof. exact (checkDate_result_days fuel now task task' d). Qed.

(** The rule [w 1] on a task dated Saturday 2025-03-01, seen on Monday
    2025-03-10 at 12:30 UTC: the date becomes Monday 2025-03-17. *)
Lemma checkDate_date_not_in_the_past_witness :
  dayOf (time_Date 2025 3 10 12 30 0 0 0) <= dayOf (midnight 20164)
  /\ forall t, time_Parse "20250301" = Some t -> dayOf t <= dayOf (midnight 20164).
Proof.
  apply (checkDate_date_not_in_the_past 20 (time_Date 2025 3 10 12 30 0 0 0)
           (mkTask "1" "20250301" "title" "" "w 1")
           (mkTask "1" "20250317" "title" "" "w 1") (midnight 20164)).
  - vm_compute. split; reflexivity.
  - reflexivity.
  - reflexivity.
Defined.

(** The date of today parses, in the years 0..9999. *)
Lemma time_Parse_today (now : Time) :
  0 <= Time_Year now <= 9999 ->
  time_Parse (Time_Format now) = Some (midnight (dayOf now)).
Proof.
  intros Hy. rewrite Time_Format_dayOf. apply time_Parse_Format_small.
  unfold Time_Year in *. rewrite Time_Date_midnight, <- Time_Date_dayOf.
  assumption.
Qed.

(** X14: a task without a date, in the years 0..9999, at a [now] in any
    location whose offsets are within 24 hours.  [checkDate] writes the
    date of today into the task before anything else, so also when it then
    fails.  Without a rule it succeeds with that date.  With a rule it
    fails or does not return as [NextDate] does from today; when
    [NextDate] returns, the task gets the next occurrence where the
    offset of the location at the midnight of today, the one [time.Date]
    finds, is not east of UTC, and the date of today where it is. *)
Theorem checkDate_empty_date
  (loc : Location) (fuel : nat) (now : Time) (task : Task) :
  (forall u, - secondsPerDay < offsetAt loc u < secondsPerDay) ->
  0 <= Time_Year now <= 9999 ->
  Date task = "" ->
  checkDate_loc loc fuel now task
  = if String.eqb (Repeat task) "" then (setDate task (Time_Format now), Done tt)
    else
      match NextDate fuel now (Time_Format now) (Repeat task) with
      | Done next =>
          (setDate task
             (if midnightOffset loc now <=? 0 then next else Time_Format now),
           Done tt)
      | Fail e => (setDate task (Time_Format now), Fail (ErrRepeatRule e))
      | Timeout => (setDate task (Time_Format now), Timeout)
      end.
Proof.
  intros B Hy Em. pose proof (time_Parse_today now Hy) as P.
  set (task0 := setDate task (Time_Format now)).
  assert (P0 : time_Parse (Date task0) = Some (midnight (dayOf now))) by exact P.
  assert (E0 : checkDate_loc loc fuel now task = checkDate_loc loc fuel now task0).
  { unfold checkDate_loc. rewrite Em. cbn [String.eqb]. fold task0.
    destruct (String.eqb_spec (Date task0) "") as [E|]; [|reflexivity].
    rewrite E in P0. discriminate. }
  rewrite E0, (checkDate_loc_days loc fuel now task0 _ B P0).
  change (Date task0) with (Time_Format now).
  change (Repeat task0) with (Repeat task).
  rewrite dayOf_midnight, Z.ltb_irrefl, Z.eqb_refl. cbn [orb andb].
  destruct (String.eqb (Repeat task) ""); [reflexivity|].
  destruct (NextDate _ _ _ _) as [next|e|]; try reflexivity.
  destruct (midnightOffset loc now <=? 0); reflexivity.
Qed.

(** A task [d 7] without a date, at 12:30 on 2025-03-30 in a location
    that went from UTC to an hour east of it at 01:00 UTC (London): the
    offset of [now] is 3600, the offset at midnight was 0, and the task
    gets the next occurrence. *)
Lemma checkDate_empty_date_witness :
  let loc := oneTransition 1743296400 0 3600 in
  let now := time_Date 2025 3 30 12 30 0 0 3600 in
  (offset now = offsetAt loc (unix now) /\ midnightOffset loc now = 0)
  /\ checkDate_loc loc 2 now (mkTask "" "" "title" "" "d 7")
     = (mkTask "" "20250406" "title" "" "d 7", Done tt).
Proof.
  intros loc now. split; [split; reflexivity|].
  apply (checkDate_empty_date loc 2 now (mkTask "" "" "title" "" "d 7")).
  - intros u. unfold offsetAt, loc, oneTransition, lookup, secondsPerDay.
    destruct (u <? 1743296400); cbn [fst]; lia.
  - vm_compute. split; discriminate.
  - reflexivity.
Defined.

(** The rule of a task [checkDate] has accepted is a rule whose loop
    returns from every start: [NextDate] gives a date for it from every
    date that parses, at every moment. *)
Lemma NextDate_accepted_rule (fuel : nat) (now : Time)
  (dstart repeat next : string) :
  NextDate fuel now dstart repeat = Done next ->
  forall now' dstart' date',
    time_Parse dstart' = Some date' ->
    exists (k : nat) (s : string), forall fuel', (k <= fuel')%nat ->
      NextDate fuel' now' dstart' repeat = Done s.
Proof.
  intros E now' dstart' date' P'.
  pose proof E as E1. apply NextDate_Done_loop in E1.
  destruct E1 as (date & _ & P & _).
  destruct (NextDate_reads_rule repeat) as [(e0 & F)|(rule & C & R)].
  - rewrite (F _ _ _ _ P) in E. discriminate.
  - rewrite (R _ _ _ _ P) in E.
    destruct (runRule fuel now rule date) as [d0|] eqn:L; [|discriminate].
    pose proof (runRule_Some_returns _ _ _ _ _ C L) as RR.
    destruct (runRule_returns now' rule (dayOf date') RR) as (k & d' & Run).
    exists k, (Time_Format d'). intros fuel' Hf.
    rewrite (R _ _ _ _ P'), (time_Parse_midnight _ _ P'), Run by assumption.
    reflexivity.
Qed.

(** X15: a task that repeats, once [checkDate] has accepted it, can be
    moved on at any later moment: from the date [checkDate] left, when it
    parses, [NextDate] with the rule of the task returns a date, given
    enough fuel, whatever [now'] is. *)
Theorem checkDate_accepted_rule_gives_next_date
  (fuel : nat) (now now' : Time) (task task' : Task) (d : Time) :
  checkDate fuel now task = (task', Done tt) ->
  Repeat task <> "" ->
  time_Parse (Date task') = Some d ->
  exists (k : nat) (s : string), forall fuel', (k <= fuel')%nat ->
    NextDate fuel' now' (Date task') (Repeat task') = Done s.
Proof.
  intros E R Pd. rewrite checkDate_eq in E.
  set (task0 := withDefaultDate now task) in *.
  assert (R0 : Repeat task0 = Repeat task) by apply withDefaultDate_Repeat.
  unfold checkParsed in E.
  destruct (time_Parse (Date task0)) as [t0|]; [|discriminate].
  rewrite R0 in E. apply String.eqb_neq in R. rewrite R in E. cbn [negb] in E.
  destruct (NextDate fuel now (Date task0) (Repeat task)) as [next| |] eqn:N;
    try discriminate.
  assert (R' : Repeat task' = Repeat task).
  { destruct (negb _); injection E as <-; exact R0. }
  rewrite R'. exact (NextDate_accepted_rule _ _ _ _ _ N now' _ _ Pd).
Qed.

(** The task [w 1] dated 2025-03-01, accepted on 2025-03-10. *)
Lemma checkDate_accepted_rule_gives_next_date_witness :
  exists (k : nat) (s : string), forall fuel', (k <= fuel')%nat ->
    NextDate fuel' (midnight 30000) "20250317" "w 1" = Done s.
Proof.
  apply (checkDate_accepted_rule_gives_next_date 20
           (time_Date 2025 3 10 12 30 0 0 0) (midnight 30000)
           (mkTask "1" "20250301" "title" "" "w 1")
           (mkTask "1" "20250317" "title" "" "w 1") (midnight 20164)).
  - reflexivity.
  - discriminate.
  - reflexivity.
Defined.

(* ================================================================== *)
(** * Further properties: the handlers *)
(* ================================================================== *)

(** A midnight after a midnight is a later day. *)
Lemma Time_After_midnights (a b : Z) :
  Time_After (midnight a) (midnight b) = (b <? a).
Proof.
  unfold Time_After, midnight, secondsPerDay. cbn [unix nsec].
  rewrite Z.ltb_irrefl, andb_false_r, orb_false_r.
  destruct (Z.ltb_spec b a), (Z.ltb_spec (b * 86400) (a * 86400)); lia.
Qed.

(** X16: [nextDayHandler] with a parameter [now] that parses.  When it
    answers 200, the body is a date for which: the parameter [date]
    parses; the date is a day after [date]; it is not before [now], and
    strictly after [now] for the rules [w] and [m]; and the answer is the
    same whatever the clock shows. *)
Theorem nextDayHandler_date_after_start_and_now
  (fuel : nat) (clock : Time) (r : Request) (resp : Response) (now : Time) :
  time_Parse (FormValue r "now") = Some now ->
  nextDayHandler fuel clock r = Some resp ->
  StatusCode resp = 200 ->
  (forall clock', nextDayHandler fuel clock' r = Some resp)
  /\ exists next start,
       Payload resp = PlainText next
       /\ time_Parse (FormValue r "date") = Some start
       /\ forall d, time_Parse next = Some d ->
            dayOf start < dayOf d /\ dayOf now <= dayOf d
            /\ (In (nth 0 (strings_Split (FormValue r "repeat") " ") "")
                  ["w"; "m"] -> dayOf now < dayOf d).
Proof.
  intros Pn E St.
  assert (Ne : String.eqb (FormValue r "now") "" = false).
  { apply String.eqb_neq. intros Em. rewrite Em in Pn. discriminate. }
  unfold nextDayHandler in *. rewrite Ne, Pn in *.
  destruct (negb (String.eqb (Method r) "GET")).
  { injection E as <-. discriminate. }
  split; [intros _; assumption|].
  destruct (NextDate fuel now (FormValue r "date") (FormValue r "repeat"))
    as [next|e|] eqn:N; try discriminate.
  2: { injection E as <-. discriminate. }
  injection E as <-. cbn [Payload].
  apply NextDate_rule in N.
  destruct N as (rule & date & d0 & P & L & -> & RR & K & _).
  exists (Time_Format d0), date. split; [reflexivity|]. split; [assumption|].
  intros d Pd.
  rewrite (time_Parse_midnight _ _ P) in L.
  destruct (runRule_sound _ _ _ _ _ RR L) as (n' & -> & Hn & Hnow).
  apply time_Parse_Format in Pd. subst d. rewrite dayOf_midnight.
  split; [assumption|].
  pose proof (time_Parse_midnight _ _ Pn) as Mn.
  rewrite <- K.
  destruct rule; cbn [ruleKind In]; (split; [|intros [F|[F|[]]]; try discriminate]);
    try assumption;
    rewrite Mn, Time_After_midnights in Hnow; apply Z.ltb_lt in Hnow; lia.
Qed.

(** [GET /api/nextdate?now=20250310&date=20250301&repeat=d 7]. *)
Lemma nextDayHandler_date_after_start_and_now_witness :
  let r := plainRequest "GET" []
             [("now", "20250310"); ("date", "20250301"); ("repeat", "d 7")]
             None in
  let resp := mkResponse 200 (PlainText "20250315") in
  (forall clock', nextDayHandler 2 clock' r = Some resp)
  /\ exists next start,
       Payload resp = PlainText next
       /\ time_Parse (FormValue r "date") = Some start
       /\ forall d, time_Parse next = Some d ->
            dayOf start < dayOf d /\ dayOf (midnight 20157) <= dayOf d
            /\ (In (nth 0 (strings_Split (FormValue r "repeat") " ") "")
                  ["w"; "m"] -> dayOf (midnight 20157) < dayOf d).
Proof.
  intros r resp.
  apply (nextDayHandler_date_after_start_and_now 2 (midnight 0) r resp
           (midnight 20157)).
  - reflexivity.
  - reflexivity.
  - reflexivity.
Defined.

(** X17: [taskHandler] never answers 405: the test of the method in
    [addTaskHandler] cannot fail behind it, and a method that is none of
    POST, GET, PUT and DELETE gets the status 200 with no body.  An answer
    400 leaves the store as it was. *)
Theorem taskHandler_never_405 (db : Database)
  (fuel : nat) (now : Time) (r : Request) (s s' : Store db) (resp : Response) :
  taskHandler db fuel now r s = Some (s', resp) ->
  StatusCode resp <> 405
  /\ (StatusCode resp = 400 -> s' = s)
  /\ (~ In (Method r) ["POST"; "GET"; "PUT"; "DELETE"] ->
      s' = s /\ resp = mkResponse 200 NoBody).
Proof.
  unfold taskHandler.
  destruct (String.eqb_spec (Method r) "POST") as [M1|M1].
  { unfold addTaskHandler. rewrite M1. cbn [String.eqb Ascii.eqb Bool.eqb negb].
    intros E. split; [|split; [|intros N; exfalso; apply N; left; reflexivity]].
    - destruct (Decoded r) as [task|]; [|injection E as <- <-; discriminate].
      destruct (String.eqb (Title task) ""); [injection E as <- <-; discriminate|].
      destruct (checkDate fuel now task) as [task' [[]|e|]]; try discriminate.
      + destruct (db_AddTask db task' s) as [s1 [id|]];
          injection E as <- <-; discriminate.
      + injection E as <- <-; discriminate.
    - destruct (Decoded r) as [task|]; [|injection E as <- <-; reflexivity].
      destruct (String.eqb (Title task) ""); [injection E as <- <-; reflexivity|].
      destruct (checkDate fuel now task) as [task' [[]|e|]]; try discriminate.
      + destruct (db_AddTask db task' s) as [s1 [id|]];
          injection E as <- <-; discriminate.
      + injection E as <- <-; reflexivity. }
  destruct (String.eqb_spec (Method r) "GET") as [M2|M2].
  { unfold getTaskHandler. intros E.
    split; [|split; [|intros N; exfalso; apply N; right; left; symmetry; assumption]].
    - destruct (String.eqb _ ""); [injection E as <- <-; discriminate|].
      destruct (db_GetTask db _ s); injection E as <- <-; discriminate.
    - destruct (String.eqb _ ""); [injection E as <- <-; reflexivity|].
      destruct (db_GetTask db _ s); injection E as <- <-; reflexivity. }
  destruct (String.eqb_spec (Method r) "PUT") as [M3|M3].
  { unfold updateTaskHandler. intros E.
    split; [|split; [|intros N; exfalso; apply N; right; right; left;
                      symmetry; assumption]].
    - destruct (Decoded r) as [t|]; [|injection E as <- <-; discriminate].
      destruct (String.eqb (ID t) ""); [injection E as <- <-; discriminate|].
      destruct (String.eqb (Title t) ""); [injection E as <- <-; discriminate|].
      destruct (checkRepeat (Repeat t)); [injection E as <- <-; discriminate|].
      destruct (checkDate fuel now t) as [t' [[]|e|]]; try discriminate.
      + destruct (db_UpdateTask db t' s) as [s1 [[|]|]];
          injection E as <- <-; discriminate.
      + injection E as <- <-; discriminate.
    - destruct (Decoded r) as [t|]; [|injection E as <- <-; reflexivity].
      destruct (String.eqb (ID t) ""); [injection E as <- <-; reflexivity|].
      destruct (String.eqb (Title t) ""); [injection E as <- <-; reflexivity|].
      destruct (checkRepeat (Repeat t)); [injection E as <- <-; reflexivity|].
      destruct (checkDate fuel now t) as [t' [[]|e|]]; try discriminate.
      + destruct (db_UpdateTask db t' s) as [s1 [[|]|]];
          injection E as <- <-; discriminate.
      + injection E as <- <-; reflexivity. }
  destruct (String.eqb_spec (Method r) "DELETE") as [M4|M4].
  { unfold deleteTaskHandler. intros E.
    split; [|split; [|intros N; exfalso; apply N; right; right; right; left;
                      symmetry; assumption]].
    - destruct (String.eqb _ ""); [injection E as <- <-; discriminate|].
      destruct (db_DeleteTask db _ s) as [s1 [[|]|]];
        injection E as <- <-; discriminate.
    - destruct (String.eqb _ ""); [injection E as <- <-; reflexivity|].
      destruct (db_DeleteTask db _ s) as [s1 [[|]|]];
        injection E as <- <-; discriminate. }
  intros E. injection E as <- <-.
  split; [discriminate|]. split; [discriminate|]. intros _. split; reflexivity.
Qed.

(** A request PATCH. *)
Lemma taskHandler_never_405_witness :
  let r := plainRequest "PATCH" [] [] None in
  let resp := mkResponse 200 NoBody in
  StatusCode resp <> 405
  /\ (StatusCode resp = 400 -> @nil Task = [])
  /\ (~ In (Method r) ["POST"; "GET"; "PUT"; "DELETE"] ->
      @nil Task = [] /\ resp = mkResponse 200 NoBody).
Proof.
  intros r resp.
  apply (taskHandler_never_405 memoryDb 0 (midnight 0) r [] [] resp).
  reflexivity.
Defined.

(** [checkDate] writes the date of the task and nothing else. *)
Lemma checkDate_keeps_fields (fuel : nat) (now : Time) (task : Task) :
  let task' := fst (checkDate fuel now task) in
  ID task' = ID task /\ Title task' = Title task
  /\ Comment task' = Comment task /\ Repeat task' = Repeat task.
Proof.
  unfold checkDate, withDefaultDate.
  destruct (String.eqb (Date task) ""); cbv zeta;
    destruct (time_Parse _); cbn [Repeat Date setDate fst];
    try (repeat split; reflexivity);
    (destruct (negb _);
     [destruct (NextDate _ _ _ _); try destruct (negb _)
     |destruct (Time_Before _ _)]);
    repeat split; reflexivity.
Qed.

(** What [checkDate] leaves on success can be stored. *)
Lemma checkDate_storable (fuel : nat) (now : Time) (task task' : Task) :
  - secondsPerDay < offset now < secondsPerDay ->
  Title task <> "" ->
  checkDate fuel now task = (task', Done tt) ->
  storable now task'.
Proof.
  intros Ho T E.
  destruct (checkDate_keeps_fields fuel now task) as (_ & KT & _ & KR).
  rewrite E in KT, KR. cbn [fst] in KT, KR.
  split; [rewrite KT; assumption|]. split.
  - intros d Pd.
    exact (proj1 (checkDate_result_days fuel now task task' d Ho E Pd)).
  - rewrite KR. intros R now' dstart date P.
    revert E. rewrite checkDate_eq. unfold checkParsed.
    rewrite withDefaultDate_Repeat.
    destruct (time_Parse (Date (withDefaultDate now task))); [|discriminate].
    apply String.eqb_neq in R. rewrite R. cbn [negb].
    destruct (NextDate fuel now _ (Repeat task)) as [next| |] eqn:N;
      try discriminate.
    intros _. exact (NextDate_accepted_rule _ _ _ _ _ N now' dstart date P).
Qed.

(** X18: when [addTaskHandler] answers 200, it has handed [db.AddTask]
    a task that can be stored: with a title, a date not before the day of
    [now], and a rule, if any, from which [NextDate] will give a date at
    any later moment; the body holds the id [db.AddTask] returned. *)
Theorem addTaskHandler_stores_checked_task (db : Database)
  (fuel : nat) (now : Time) (r : Request) (s s' : Store db) (resp : Response) :
  - secondsPerDay < offset now < secondsPerDay ->
  addTaskHandler db fuel now r s = Some (s', resp) ->
  StatusCode resp = 200 ->
  exists task id,
    db_AddTask db task s = (s', Some id)
    /\ Payload resp = JsonId id
    /\ storable now task.
Proof.
  intros Ho E St. unfold addTaskHandler in E.
  destruct (negb _); [injection E as <- <-; discriminate|].
  destruct (Decoded r) as [task|]; [|injection E as <- <-; discriminate].
  destruct (String.eqb_spec (Title task) "") as [|T];
    [injection E as <- <-; discriminate|].
  destruct (checkDate fuel now task) as [task' [[]|e|]] eqn:C;
    [|injection E as <- <-; discriminate|discriminate].
  destruct (db_AddTask db task' s) as [s1 [id|]] eqn:A;
    injection E as <- <-; [|discriminate].
  exists task', id. split; [assumption|]. split; [reflexivity|].
  exact (checkDate_storable fuel now task task' Ho T C).
Qed.

(** A task [w 1] dated 2025-03-01, added on 2025-03-10 at 12:30 UTC. *)
Lemma addTaskHandler_stores_checked_task_witness :
  let task := mkTask "" "20250317" "title" "" "w 1" in
  exists task' id,
    db_AddTask memoryDb task' [] = ([task], Some id)
    /\ Payload (mkResponse 200 (JsonId 1)) = JsonId id
    /\ storable (time_Date 2025 3 10 12 30 0 0 0) task'.
Proof.
  intros task.
  apply (addTaskHandler_stores_checked_task memoryDb 20
           (time_Date 2025 3 10 12 30 0 0 0)
           (plainRequest "POST" [] []
              (Some (mkTask "" "20250301" "title" "" "w 1")))
           [] [task] (mkResponse 200 (JsonId 1))).
  - vm_compute. split; reflexivity.
  - reflexivity.
  - reflexivity.
Defined.

(** X19: when [updateTaskHandler] answers 200, it has handed
    [db.UpdateTask] a task with an [ID] whose rule [checkRepeat] accepts
    and that can be stored; the store is the one [db.UpdateTask] left. *)
Theorem updateTaskHandler_stores_checked_task (db : Database)
  (fuel : nat) (now : Time) (r : Request) (s s' : Store db) (resp : Response) :
  - secondsPerDay < offset now < secondsPerDay ->
  updateTaskHandler db fuel now r s = Some (s', resp) ->
  StatusCode resp = 200 ->
  exists task,
    db_UpdateTask db task s = (s', None)
    /\ ID task <> ""
    /\ checkRepeat (Repeat task) = None
    /\ storable now task.
Proof.
  intros Ho E St. unfold updateTaskHandler in E.
  destruct (Decoded r) as [t|]; [|injection E as <- <-; discriminate].
  destruct (String.eqb_spec (ID t) "") as [|I];
    [injection E as <- <-; discriminate|].
  destruct (String.eqb_spec (Title t) "") as [|T];
    [injection E as <- <-; discriminate|].
  destruct (checkRepeat (Repeat t)) eqn:CR;
    [injection E as <- <-; discriminate|].
  destruct (checkDate fuel now t) as [t' [[]|e|]] eqn:C;
    [|injection E as <- <-; discriminate|discriminate].
  destruct (checkDate_keeps_fields fuel now t) as (KI & _ & _ & KR).
  rewrite C in KI, KR. cbn [fst] in KI, KR.
  destruct (db_UpdateTask db t' s) as [s1 [[|]|]] eqn:U;
    injection E as <- <-; try discriminate.
  exists t'. split; [assumption|]. split; [rewrite KI; assumption|].
  split; [rewrite KR; assumption|].
  exact (checkDate_storable fuel now t t' Ho T C).
Qed.

(** The task 7 of the store gets the rule [d 7]. *)
Lemma updateTaskHandler_stores_checked_task_witness :
  let now := time_Date 2025 3 10 12 30 0 0 0 in
  let s := [mkTask "7" "20250301" "old" "" ""] in
  let s' := [mkTask "7" "20250315" "new" "" "d 7"] in
  exists task,
    db_UpdateTask memoryDb task s = (s', None)
    /\ ID task <> ""
    /\ checkRepeat (Repeat task) = None
    /\ storable now task.
Proof.
  intros now s s'.
  apply (updateTaskHandler_stores_checked_task memoryDb 2 now
           (plainRequest "PUT" [] []
              (Some (mkTask "7" "20250301" "new" "" "d 7")))
           s s' (mkResponse 200 JsonEmpty)).
  - vm_compute. split; reflexivity.
  - reflexivity.
  - reflexivity.
Defined.

(** X20: when [taskDone] answers 200, the task was in the store, and
    either it does not repeat and [db.DeleteTask] has removed it, or it
    repeats, its date parses, and [db.UpdateDate] has been given a date
    that, when it parses, is a day after that date and not before the day
    of [now].  It never does both. *)
Theorem taskDone_deletes_or_moves_forward (db : Database)
  (fuel : nat) (now : Time) (r : Request) (s s' : Store db) (resp : Response) :
  offset now < secondsPerDay ->
  taskDone db fuel now r s = Some (s', resp) ->
  StatusCode resp = 200 ->
  exists task,
    db_GetTask db (Query r "id") s = Some task
    /\ ((Repeat task = ""
         /\ db_DeleteTask db (Query r "id") s = (s', None))
        \/ (Repeat task <> ""
            /\ exists next start,
                 time_Parse (Date task) = Some start
                 /\ db_UpdateDate db next (Query r "id") s = (s', None)
                 /\ forall d, time_Parse next = Some d ->
                      dayOf start < dayOf d /\ dayOf now <= dayOf d)).
Proof.
  intros Ho E St. unfold taskDone in E.
  destruct (negb _); [injection E as <- <-; discriminate|].
  destruct (String.eqb (Query r "id") "");
    [injection E as <- <-; discriminate|].
  destruct (db_GetTask db (Query r "id") s) as [task|];
    [|injection E as <- <-; discriminate].
  exists task. split; [reflexivity|].
  destruct (String.eqb_spec (Repeat task) "") as [R|R].
  - left. split; [assumption|].
    destruct (db_DeleteTask db (Query r "id") s) as [s1 [e|]];
      injection E as <- <-; [discriminate|reflexivity].
  - right. split; [assumption|].
    destruct (NextDate fuel now (Date task) (Repeat task)) as [next|e|] eqn:N;
      [|injection E as <- <-; discriminate|discriminate].
    pose proof N as N1. apply NextDate_Done_loop in N1.
    destruct N1 as (start & _ & P & _).
    exists next, start. split; [assumption|].
    destruct (db_UpdateDate db next (Query r "id") s) as [s1 [e|]];
      injection E as <- <-; [discriminate|].
    split; [reflexivity|]. intros d Pd.
    exact (NextDate_parsed_result _ _ _ _ _ _ _ Ho P N Pd).
Qed.

(** The task 7, [d 7] from 2025-03-01, done on 2025-03-10. *)
Lemma taskDone_deletes_or_moves_forward_witness :
  let now := time_Date 2025 3 10 12 30 0 0 0 in
  let s := [mkTask "7" "20250301" "title" "" "d 7"] in
  let s' := [mkTask "7" "20250315" "title" "" "d 7"] in
  let id := "7" in
  exists task,
    db_GetTask memoryDb id s = Some task
    /\ ((Repeat task = ""
         /\ db_DeleteTask memoryDb id s = (s', None))
        \/ (Repeat task <> ""
            /\ exists next start,
                 time_Parse (Date task) = Some start
                 /\ db_UpdateDate memoryDb next id s = (s', None)
                 /\ forall d, time_Parse next = Some d ->
                      dayOf start < dayOf d /\ dayOf now <= dayOf d)).
Proof.
  intros now s s' id.
  apply (taskDone_deletes_or_moves_forward memoryDb 2 now
           (plainRequest "POST" [("id", "7")] [] None)
           s s' (mkResponse 200 JsonEmpty)).
  - vm_compute. reflexivity.
  - reflexivity.
  - reflexivity.
Defined.

(** X21: [addTaskHandler] does not call [checkRepeat].  A task whose rule
    [checkRepeat] refuses and [NextDate] accepts, such as [y 5] or
    [d 7 x], is refused by [updateTaskHandler] with the status 400 and the
    store untouched, while [addTaskHandler] hands [db.AddTask] a task with
    that rule. *)
Theorem addTaskHandler_accepts_rules_checkRepeat_refuses (db : Database)
  (fuel : nat) (now : Time) (r : Request) (s : Store db) (task : Task)
  (e : RepeatError) (next : string) :
  Decoded r = Some task ->
  ID task <> "" ->
  Title task <> "" ->
  checkRepeat (Repeat task) = Some e ->
  NextDate fuel now (Date task) (Repeat task) = Done next ->
  updateTaskHandler db fuel now r s
  = Some (s, mkResponse 400 (JsonError (MsgRepeat e)))
  /\ (Method r = "POST" ->
      exists task',
        Repeat task' = Repeat task
        /\ addTaskHandler db fuel now r s
           = Some (match db_AddTask db task' s with
                   | (s', None) => (s', mkResponse 500 (JsonError MsgSave))
                   | (s', Some id) => (s', mkResponse 200 (JsonId id))
                   end)).
Proof.
  intros D I T CR N. split.
  - unfold updateTaskHandler. rewrite D.
    apply String.eqb_neq in I, T. rewrite I, T, CR. reflexivity.
  - intros M. unfold addTaskHandler. rewrite M, D.
    cbn [String.eqb Ascii.eqb Bool.eqb negb].
    apply String.eqb_neq in T. rewrite T.
    pose proof N as N1. apply NextDate_Done_loop in N1.
    destruct N1 as (start & _ & P & _).
    rewrite (checkDate_parsed _ _ _ _ P). unfold checkParsed. rewrite P, N.
    assert (R : String.eqb (Repeat task) "" = false).
    { apply String.eqb_neq. intros Em. rewrite Em in CR. discriminate. }
    rewrite R. cbn [negb].
    destruct (negb (Time_After start (startOfDay now))).
    + exists (setDate task next). split; [reflexivity|].
      destruct (db_AddTask db (setDate task next) s) as [s1 [id|]]; reflexivity.
    + exists task. split; [reflexivity|].
      destruct (db_AddTask db task s) as [s1 [id|]]; reflexivity.
Qed.

(** The rule [y 5]. *)
Lemma addTaskHandler_accepts_rules_checkRepeat_refuses_witness :
  let now := time_Date 2025 3 10 12 30 0 0 0 in
  let r := plainRequest "POST" [] []
             (Some (mkTask "7" "20250301" "title" "" "y 5")) in
  updateTaskHandler memoryDb 2 now r []
  = Some ([], mkResponse 400 (JsonError (MsgRepeat ErrFormatY)))
  /\ (Method r = "POST" ->
      exists task',
        Repeat task' = "y 5"
        /\ addTaskHandler memoryDb 2 now r []
           = Some (match db_AddTask memoryDb task' [] with
                   | (s', None) => (s', mkResponse 500 (JsonError MsgSave))
                   | (s', Some id) => (s', mkResponse 200 (JsonId id))
                   end)).
Proof.
  intros now r.
  apply (addTaskHandler_accepts_rules_checkRepeat_refuses memoryDb 2 now r []
           (mkTask "7" "20250301" "title" "" "y 5") ErrFormatY "20260301").
  - reflexivity.
  - discriminate.
  - discriminate.
  - reflexivity.
  - reflexivity.
Defined.

(** X22: a rule [m] none of whose days exists in any of its months, such
    as [m 31 2], passes [checkRepeat], and then neither [addTaskHandler]
    nor [updateTaskHandler] ever answers: [checkDate] calls [NextDate] for
    every task that repeats, and its loop does not end. *)
Theorem handlers_never_answer_on_infeasible_monthly_rule (db : Database)
  (now : Time) (r : Request) (s : Store db) (task : Task) (t : Time)
  (dl : string) (rest : list string) :
  Decoded r = Some task ->
  Title task <> "" ->
  time_Parse (Date task) = Some t ->
  strings_Split (Repeat task) " " = "m" :: dl :: rest ->
  strings_Fields (Repeat task) = "m" :: dl :: rest ->
  Forall isMonthDay (strings_Split dl ",") ->
  (forall ml, rest = [ml] -> Forall (inRange 12) (strings_Split ml ",")) ->
  ~ mRuleFeasible dl rest ->
  checkRepeat (Repeat task) = None
  /\ forall fuel,
       snd (checkDate fuel now task) = Timeout
       /\ (Method r = "POST" -> addTaskHandler db fuel now r s = None)
       /\ (ID task <> "" -> updateTaskHandler db fuel now r s = None).
Proof.
  intros D T P Sp Fl Hd Hm NF.
  assert (R : String.eqb (Repeat task) "" = false).
  { apply String.eqb_neq. intros Em. rewrite Em in Sp. discriminate. }
  assert (CR : checkRepeat (Repeat task) = None).
  { apply checkRepeat_accepts_fields. right. rewrite Fl.
    destruct rest; cbn [acceptedFields]; tauto. }
  assert (N : forall fuel, NextDate fuel now (Date task) (Repeat task) = Timeout).
  { intros fuel.
    destruct (mRuleFlags_total dl rest Hd Hm) as (ds & mf & RF).
    rewrite (NextDate_m_flags fuel now _ _ _ _ _ _ _ P Sp RF).
    rewrite (time_Parse_midnight _ _ P), mLoop_infeasible; [reflexivity|].
    intros F. apply NF. apply (feasible_listed _ _ _ _ RF Hm). assumption. }
  assert (C : forall fuel, checkDate fuel now task = (task, Timeout)).
  { intros fuel. rewrite (checkDate_parsed _ _ _ _ P). unfold checkParsed.
    rewrite P, R, N. reflexivity. }
  split; [assumption|]. intros fuel. split; [rewrite C; reflexivity|]. split.
  - intros M. unfold addTaskHandler. rewrite M, D.
    cbn [String.eqb Ascii.eqb Bool.eqb negb].
    apply String.eqb_neq in T. rewrite T, C. reflexivity.
  - intros I. unfold updateTaskHandler. rewrite D.
    apply String.eqb_neq in I, T. rewrite I, T, CR, C. reflexivity.
Qed.

(** The rule [m 31 2]. *)
Lemma handlers_never_answer_on_infeasible_monthly_rule_witness :
  let now := time_Date 2025 3 10 12 30 0 0 0 in
  let task := mkTask "7" "20250301" "title" "" "m 31 2" in
  let r := plainRequest "POST" [] [] (Some task) in
  checkRepeat (Repeat task) = None
  /\ forall fuel,
       snd (checkDate fuel now task) = Timeout
       /\ (Method r = "POST" -> addTaskHandler memoryDb fuel now r [] = None)
       /\ (ID task <> "" -> updateTaskHandler memoryDb fuel now r [] = None).
Proof.
  intros now task r.
  apply (handlers_never_answer_on_infeasible_monthly_rule memoryDb now r []
           task (midnight 20148) "31" ["2"]).
  - reflexivity.
  - discriminate.
  - reflexivity.
  - reflexivity.
  - reflexivity.
  - repeat constructor. exists 31. split; [reflexivity|lia].
  - intros ml E. injection E as <-. repeat constructor.
    exists 2. split; [reflexivity|lia].
  - intros [(w & [<-|[]] & A)
           |[(w & [<-|[]] & A)
            |(D & M & (w & [<-|[]] & A) & HD & HM & L)]];
      try discriminate.
    injection A as <-.
    destruct (L "2" eq_refl) as (w & [<-|[]] & A). injection A as <-.
    vm_compute in HD. destruct HD as [_ HD]. apply HD. reflexivity.
Defined.

(* ================================================================== *)
(** * Further properties: searching by date *)
(* ================================================================== *)

(** X23: a search string that [time.Parse] reads with the layout
    [02.01.2006] is ten bytes [DD.MM.YYYY]; [SearchTasks] then asks
    [TasksByDate] for the eight bytes [YYYYMMDD], the same digits in the
    order of [DateFormat], which parse to the same date; and
    [tasksHandler] answers a GET with the tasks found, 50 at most. *)
Theorem SearchTasks_by_date (db : Database)
  (search : string) (limit : Z) (s : Store db) (date : Time) :
  time_Parse_DMY search = Some date ->
  exists d1 d2 m1 m2 y1 y2 y3 y4,
    let ymd :=
      String y1 (String y2 (String y3 (String y4
        (String m1 (String m2 (String d1 (String d2 ""))))))) in
    search
    = String d1 (String d2 (String "." (String m1 (String m2 (String "."
        (String y1 (String y2 (String y3 (String y4 "")))))))))
    /\ time_Parse ymd = Some date
    /\ SearchTasks db search limit s = db_TasksByDate db ymd limit s
    /\ forall r, Method r = "GET" -> Query r "search" = search ->
         tasksHandler db r s
         = match db_TasksByDate db ymd 50 s with
           | None => mkResponse 500 (JsonError MsgTasks)
           | Some tasks => mkResponse 200 (JsonTasks tasks)
           end.
Proof.
  intros P. pose proof P as P0. unfold time_Parse_DMY in P.
  destruct search
    as [|d1 [|d2 [|p1 [|m1 [|m2 [|p2 [|y1 [|y2 [|y3 [|y4 [|? ?]]]]]]]]]]];
    try discriminate.
  destruct (forallb isDigit [d1; d2; m1; m2; y1; y2; y3; y4]) eqn:Dg;
    [|discriminate].
  destruct (Ascii.eqb_spec p1 ".") as [->|]; [|discriminate].
  destruct (Ascii.eqb_spec p2 ".") as [->|]; [|discriminate].
  cbn [andb] in P.
  exists d1, d2, m1, m2, y1, y2, y3, y4. cbv zeta.
  split; [reflexivity|].
  assert (Py : time_Parse
                 (String y1 (String y2 (String y3 (String y4
                    (String m1 (String m2 (String d1 (String d2 ""))))))))
               = Some date).
  { unfold time_Parse.
    replace (forallb isDigit [y1; y2; y3; y4; m1; m2; d1; d2]) with true;
      [exact P|].
    cbn [forallb] in *. rewrite !andb_true_iff in Dg.
    destruct Dg as (D1 & D2 & D3 & D4 & D5 & D6 & D7 & D8 & _).
    rewrite D1, D2, D3, D4, D5, D6, D7, D8. reflexivity. }
  split; [assumption|].
  assert (St : SearchTasks db
                 (String d1 (String d2 (String "." (String m1 (String m2
                    (String "." (String y1 (String y2 (String y3
                       (String y4 ""))))))))))
                 limit s
               = db_TasksByDate db
                   (String y1 (String y2 (String y3 (String y4
                      (String m1 (String m2 (String d1 (String d2 ""))))))))
                   limit s).
  { unfold SearchTasks. rewrite P0, (Time_Format_Parse _ _ Py). reflexivity. }
  split; [assumption|].
  intros r M Q. unfold tasksHandler. rewrite M, Q.
  cbn [String.eqb Ascii.eqb Bool.eqb negb].
  unfold SearchTasks. rewrite P0, (Time_Format_Parse _ _ Py). reflexivity.
Qed.

(** The search [17.03.2025]. *)
Lemma SearchTasks_by_date_witness :
  let s := [mkTask "7" "20250317" "title" "" ""] in
  exists d1 d2 m1 m2 y1 y2 y3 y4,
    let ymd :=
      String y1 (String y2 (String y3 (String y4
        (String m1 (String m2 (String d1 (String d2 ""))))))) in
    "17.03.2025"
    = String d1 (String d2 (String "." (String m1 (String m2 (String "."
        (String y1 (String y2 (String y3 (String y4 "")))))))))
    /\ time_Parse ymd = Some (midnight 20164)
    /\ SearchTasks memoryDb "17.03.2025" 50 s = db_TasksByDate memoryDb ymd 50 s
    /\ forall r, Method r = "GET" -> Query r "search" = "17.03.2025" ->
         tasksHandler memoryDb r s
         = match db_TasksByDate memoryDb ymd 50 s with
           | None => mkResponse 500 (JsonError MsgTasks)
           | Some tasks => mkResponse 200 (JsonTasks tasks)
           end.
Proof.
  intros s.
  apply (SearchTasks_by_date memoryDb "17.03.2025" 50 s (midnight 20164)).
  reflexivity.
Defined.

(* ================================================================== *)
(** * Further properties: the configuration and [AuthMiddleware] *)
(* ================================================================== *)

Lemma substring_all (s : string) : String.substring 0 (String.length s) s = s.
Proof.
  induction s as [|c s IH]; [reflexivity|].
  cbn [String.length String.substring]. rewrite IH. reflexivity.
Qed.

(** A string with the prefix [p] is [p], then what [TrimPrefix] leaves. *)
Lemma strings_TrimPrefix_spec (s p : string) :
  strings_HasPrefix s p = true -> s = append p (strings_TrimPrefix s p).
Proof.
  unfold strings_TrimPrefix. intros H. rewrite H. revert s H.
  unfold strings_HasPrefix.
  induction p as [|a p IH]; intros s H.
  - cbn [append String.length]. rewrite Nat.sub_0_r, substring_all. reflexivity.
  - destruct s as [|b s]; [discriminate|]. cbn [String.prefix] in H.
    destruct (ascii_dec a b) as [->|]; [|discriminate].
    cbn [append String.length Nat.sub String.substring].
    rewrite <- (IH s H). reflexivity.
Qed.

(** [GetConfig] fills every field that is empty. *)
Lemma GetConfig_configured (appConfig : option Config) (getenv : string -> string) :
  configured appConfig ->
  fst (GetConfig appConfig getenv) = Some (snd (GetConfig appConfig getenv))
  /\ configured (fst (GetConfig appConfig getenv)).
Proof.
  intros C. unfold GetConfig. destruct appConfig as [c|].
  - split; [reflexivity|assumption].
  - cbv zeta. cbn [fst snd TodoPassword TodoPort TodoDBFile].
    split; [reflexivity|]. intros c E. injection E as <-.
    destruct (String.eqb_spec (getenv "TODO_PASSWORD") "");
      cbn [TodoPassword TodoPort TodoDBFile];
      destruct (String.eqb_spec (getenv "TODO_PORT") "");
      cbn [TodoPassword TodoPort TodoDBFile];
      destruct (String.eqb_spec (getenv "TODO_DBFILE") "");
      cbn [TodoPassword TodoPort TodoDBFile];
      repeat split; try assumption; discriminate.
Qed.

(** X24: [GetConfig] never returns an empty password: an empty or unset
    [TODO_PASSWORD] is replaced by a default.  So the branch of
    [AuthMiddleware] that lets every request through is never taken: whatever the
    environment, the wrapped handler runs only on a request that carries,
    in the cookie [token] or after [Bearer ] in the header
    [Authorization], a token that is not empty and that [validateToken]
    accepts for the configured password; every other request gets 401 and
    the store is not touched. *)
Theorem AuthMiddleware_needs_valid_token {St : Type}
  (validateToken : string -> string -> bool)
  (next : Request -> St -> option (St * Response))
  (appConfig : option Config) (getenv : string -> string)
  (r : Request) (s : St) :
  configured appConfig ->
  let R := AuthMiddleware validateToken next appConfig getenv r s in
  configured (fst R)
  /\ exists c, fst R = Some c
     /\ TodoPassword c <> ""
     /\ (snd R = Some (s, mkResponse 401 (TextError MsgAuth))
         \/ (snd R = next r s
             /\ exists token,
                  token <> ""
                  /\ validateToken token (TodoPassword c) = true
                  /\ (Cookie r = Some token
                      \/ Authorization r = append "Bearer " token))).
Proof.
  intros C R. subst R. unfold AuthMiddleware.
  destruct (GetConfig_configured appConfig getenv C) as [E C'].
  destruct (GetConfig appConfig getenv) as [a c]. cbn [fst snd] in E, C'.
  subst a. destruct (C' c eq_refl) as (Pw & _).
  pose proof Pw as Pw'. apply String.eqb_neq in Pw'. rewrite Pw'.
  set (tok0 := match Cookie r with Some v => v | None => "" end).
  set (tok := if String.eqb tok0 "" then _ else tok0).
  assert (Src : tok = "" \/ Cookie r = Some tok
                \/ Authorization r = append "Bearer " tok).
  { unfold tok, tok0.
    destruct (Cookie r) as [v|].
    - destruct (String.eqb_spec v "") as [->|]; [|right; left; reflexivity].
      destruct (negb _ && strings_HasPrefix (Authorization r) "Bearer ") eqn:H;
        [|left; reflexivity].
      apply andb_true_iff in H. destruct H as [_ H].
      right. right. apply strings_TrimPrefix_spec. assumption.
    - cbn [String.eqb].
      destruct (negb _ && strings_HasPrefix (Authorization r) "Bearer ") eqn:H;
        [|left; reflexivity].
      apply andb_true_iff in H. destruct H as [_ H].
      right. right. apply strings_TrimPrefix_spec. assumption. }
  clearbody tok.
  destruct (String.eqb_spec tok "") as [Em|Ne].
  { cbn [fst snd]. split; [assumption|]. exists c.
    split; [reflexivity|]. split; [assumption|]. left. reflexivity. }
  destruct (validateToken tok (TodoPassword c)) eqn:V; cbn [negb fst snd].
  - split; [assumption|]. exists c. split; [reflexivity|].
    split; [assumption|]. right. split; [reflexivity|].
    exists tok. split; [assumption|]. split; [assumption|].
    destruct Src as [?|Src]; [contradiction|assumption].
  - split; [assumption|]. exists c. split; [reflexivity|].
    split; [assumption|]. left. reflexivity.
Qed.

(** No [TODO_PASSWORD] in the environment, and a request without a token.  *)
Lemma AuthMiddleware_needs_valid_token_witness :
  let validate := fun token password : string => String.eqb token password in
  let now := time_Date 2025 3 10 12 30 0 0 0 in
  let r := plainRequest "GET" [("id", "7")] [] None in
  let R := AuthMiddleware validate (taskHandler memoryDb 0 now) None
             (fun _ => "") r [] in
  configured (fst R)
  /\ exists c, fst R = Some c
     /\ TodoPassword c <> ""
     /\ (snd R = Some ([], mkResponse 401 (TextError MsgAuth))
         \/ (snd R = taskHandler memoryDb 0 now r []
             /\ exists token,
                  token <> ""
                  /\ validate token (TodoPassword c) = true
                  /\ (Cookie r = Some token
                      \/ Authorization r = append "Bearer " token))).
Proof.
  intros validate now r.
  apply (AuthMiddleware_needs_valid_token validate (taskHandler memoryDb 0 now)
           None (fun _ => "") r []).
  intros c E. discriminate.
Defined.
